(** * Batch image transcoding tools: a shallow embedding

    This development embeds three Python scripts of the repository,

    - [delta_pix.py]: the export path of the DeltaPix viewer
      ([load_image], [_apply_resize], [_save_one], [_export_batch]), its
      helpers ([is_image_file], [estimate_encoded_size], [human_size]),
      the settings read from the export dialog ([current_settings]) and
      the lists of the main window ([_add_recent], [_add_files]),
    - [pyqt_convert_png_to_webp.py]: the in-place PNG to WebP worker
      ([ConverterWorker._convert_one], [ConverterWorker.run], [stop]),
    - [convert_png_to_jpg.py]: the standalone PNG to JPG tool
      ([resize_and_convert], [main]),

    and proves properties of them.

    Modelling choices.

    - Python [int] is [Z].  Python [float] is IEEE-754 binary64, taken from
      the standard library's executable specification [SpecFloat]
      (precision 53, [emax] 1024, round to nearest even).
    - Python exceptions are values of [exn]; a computation that can raise
      returns a [result].  Only subclasses of [Exception] are modelled
      (what [except Exception] catches).
    - The file system is a finite map from path to file contents; signals,
      prints, dialogs and calls into the image library are recorded in an
      event trace.
    - A call that changes a file can fail for reasons outside the model
      (permissions, a full disk): an oracle ([Os] class) says which calls
      of [open], [write], [shutil.move], [os.remove] and [os.makedirs] are
      refused.  A refused [os.remove] leaves the file; a failed
      [shutil.move] leaves its source; [im.save] opens its file for
      writing before it encodes, so that a failure of the encoder or of
      the write leaves an existing output cut short.
    - Pillow is a black box ([Pillow] class): decoding, pixel conversion,
      resampling and encoding are arbitrary functions that may raise.  What
      the model fixes is Pillow's contract on the image header: [convert]
      returns an image of the requested mode and the same size, [resize]
      an image of the requested size and the same mode.
    - Paths are strings handled by the POSIX versions of [os.path.join],
      [basename], [dirname] and [splitext]; file names are ASCII.
      Directories are not part of the file system: [os.path.isdir] and
      [os.listdir] are inputs of [run] and [main]; [os.makedirs] changes
      no file, and fails when a file has the name of the directory or
      when the oracle refuses it.
    - Qt widgets are reduced to the values the code reads from them and
      writes to them; how Python prints a float with one decimal is a black
      box ([Formatter] class).
    - The in-place worker runs in a thread of its own while [stop] is
      called from the GUI thread: its loop is a step machine, and a
      schedule interleaves its steps with calls of [stop].

    The theorems on the resize transform assume image sides below [2^31]
    (the sizes Pillow handles), where every integer involved is a double. *)

From Stdlib Require Import ZArith Reals Lra Lia String Ascii List.
From Stdlib Require Import Floats.SpecFloat.
From stdpp Require Import gmap strings list.

Local Open Scope Z_scope.

(** * Python values *)

Module Py.

(** An exception: its class name and [str(e)]. *)
Record exn : Type := Exn { exn_class : string; exn_msg : string }.

Definition str_exn (e : exn) : string := exn_msg e.

Inductive result (A : Type) : Type :=
| Ok (a : A)
| Raise (e : exn).
Arguments Ok {A} a.
Arguments Raise {A} e.

Definition rbind {A B : Type} (r : result A) (k : A -> result B) : result B :=
  match r with
  | Ok a => k a
  | Raise e => Raise e
  end.

(** ** Floats (binary64) *)

Definition prec : Z := 53.
Definition emax : Z := 1024.

Definition float : Type := spec_float.

(** The literal [1.0]. *)
Definition one : float := S754_finite false 4503599627370496 (-52).

(** [float(z)]: the nearest double, exact below [2^53]. *)
Definition float_of_int (z : Z) : float := binary_normalize prec emax z 0 false.

(** [a / b] on two ints.  For operands below [2^53] in absolute value
    CPython converts both to double and divides. *)
Definition truediv (a b : Z) : result float :=
  if b =? 0 then Raise (Exn "ZeroDivisionError" "division by zero")
  else Ok (SFdiv prec emax (float_of_int a) (float_of_int b)).

(** [a * x] with [a] an int and [x] a float. *)
Definition mul_int_float (a : Z) (x : float) : float :=
  SFmul prec emax (float_of_int a) x.

(** [a < b] on floats. *)
Definition float_lt (a b : float) : bool := SFltb a b.

(** [min(a, b)]: the first argument unless the second is smaller. *)
Definition float_min (a b : float) : float := if float_lt b a then b else a.

(** Truncation toward zero of a finite float. *)
Definition float_trunc (f : float) : option Z :=
  match f with
  | S754_zero _ => Some 0
  | S754_finite s m e =>
      let a := if 0 <=? e then Z.pos m * 2 ^ e else Z.pos m / 2 ^ (- e) in
      Some (if s then - a else a)
  | _ => None
  end.

(** [int(f)]. *)
Definition int_of_float (f : float) : result Z :=
  match f with
  | S754_nan => Raise (Exn "ValueError" "cannot convert float NaN to integer")
  | S754_infinity _ =>
      Raise (Exn "OverflowError" "cannot convert float infinity to integer")
  | _ => match float_trunc f with
         | Some z => Ok z
         | None => Raise (Exn "ValueError" "cannot convert float NaN to integer")
         end
  end.

(** ** Strings *)

Definition lower_ascii (c : ascii) : ascii :=
  let n := nat_of_ascii c in
  if ((65 <=? n)%nat && (n <=? 90)%nat)%bool then ascii_of_nat (n + 32) else c.

(** [s.lower()] on ASCII names. *)
Fixpoint str_lower (s : string) : string :=
  match s with
  | EmptyString => EmptyString
  | String c s' => String (lower_ascii c) (str_lower s')
  end.

(** [s.endswith(suf)]. *)
Fixpoint str_endswith (s suf : string) : bool :=
  (String.eqb s suf ||
   match s with
   | EmptyString => false
   | String _ s' => str_endswith s' suf
   end)%bool.

Fixpoint all_dots (s : string) : bool :=
  match s with
  | EmptyString => true
  | String c s' => (Ascii.eqb c "." && all_dots s')%bool
  end.

(** Split at the last ['.']: the part before it, and the part from it on. *)
Fixpoint rsplit_dot (s : string) : option (string * string) :=
  match s with
  | EmptyString => None
  | String c s' =>
      match rsplit_dot s' with
      | Some (pre, ext) => Some (String c pre, ext)
      | None => if Ascii.eqb c "." then Some (EmptyString, s) else None
      end
  end.

(** [os.path.splitext(name)[0]] on a name without directory separator:
    the extension starts at the last dot, unless only dots precede it. *)
Definition splitext_root (name : string) : string :=
  match rsplit_dot name with
  | Some (pre, _) => if all_dots pre then name else pre
  | None => name
  end.

Fixpoint has_sep (p : string) : bool :=
  match p with
  | EmptyString => false
  | String c p' => (Ascii.eqb c "/" || has_sep p')%bool
  end.

(** [os.path.basename(p)] with ['/'] as separator: what follows the last
    separator. *)
Fixpoint basename (p : string) : string :=
  match p with
  | EmptyString => EmptyString
  | String c p' =>
      if has_sep p' then basename p'
      else if Ascii.eqb c "/" then p' else p
  end.

Definition is_sep (c : ascii) : bool := Ascii.eqb c "/".

Definition is_sep_or_backslash (c : ascii) : bool :=
  (Ascii.eqb c "/" || Ascii.eqb c "\")%bool.

(** [s.rstrip(chars)], the characters given by a predicate. *)
Fixpoint str_rstrip (strip : ascii -> bool) (s : string) : string :=
  match s with
  | EmptyString => EmptyString
  | String c s' =>
      let r := str_rstrip strip s' in
      if (String.eqb r EmptyString && strip c)%bool then EmptyString else String c r
  end.

Fixpoint all_seps (s : string) : bool :=
  match s with
  | EmptyString => true
  | String c s' => (is_sep c && all_seps s')%bool
  end.

(** The path up to and including its last separator. *)
Fixpoint dir_head (p : string) : string :=
  match p with
  | EmptyString => EmptyString
  | String c p' => if has_sep p then String c (dir_head p') else EmptyString
  end.

(** [os.path.dirname(p)] (POSIX). *)
Definition dirname (p : string) : string :=
  let head := dir_head p in
  if (negb (String.eqb head EmptyString) && negb (all_seps head))%bool
  then str_rstrip is_sep head else head.

(** [os.path.join(a, b)] (POSIX). *)
Definition path_join (a b : string) : string :=
  match b with
  | String "/" _ => b
  | _ => if (String.eqb a EmptyString || str_endswith a "/")%bool
         then a +:+ b else a +:+ "/" +:+ b
  end.

Definition newline : string := String (ascii_of_nat 10) EmptyString.

End Py.

Export Py.

(** * Images and the image library *)

(** A decoded image: colour mode, size (width, height), raw pixel buffer. *)
Record Image : Type := mkImage {
  im_mode : string;
  im_size : Z * Z;
  im_data : string
}.

(** A keyword argument of [Image.save]. *)
Inductive kwarg : Type :=
| KwBool (b : bool)
| KwInt (z : Z).

(** The pixel-level operations of Pillow, left uninterpreted. *)
Class Pillow : Type := {
  (** [Image.open] followed by loading the pixel data. *)
  pil_decode : string -> result Image;
  (** Pixel data of [im.convert(mode)]. *)
  pil_convert_data : Image -> string -> result string;
  (** Pixel data of [im.resize(size, Image.LANCZOS)]. *)
  pil_resample : Image -> Z * Z -> result string;
  (** The encoder behind [im.save(path, fmt, **kwargs)]. *)
  pil_encode : string -> list (string * kwarg) -> Image -> result string;
  (** What [im.save(fp, fmt, **kwargs)] does before it opens the file
      (making sure the pixel data are loaded, looking up the encoder of
      the format): the exception it raises, if any. *)
  pil_save_prepare : string -> list (string * kwarg) -> Image -> option exn
}.

(** Modes that carry an alpha channel. *)
Definition mode_has_alpha (mode : string) : bool :=
  (String.eqb mode "RGBA" || String.eqb mode "LA" || String.eqb mode "PA"
   || String.eqb mode "RGBa" || String.eqb mode "La")%bool.

(** * Effects: file system, exceptions, event trace *)

Abbreviation FS := (gmap string string).

Inductive dialog_kind : Type := Information | Warning.

Inductive event : Type :=
| EvOpen (path : string)
| EvEncode (path fmt : string) (im : Image) (kwargs : list (string * kwarg))
| EvMove (src dst : string)
| EvRemove (path : string)
| EvPrint (line : string)
| EvDialog (kind : dialog_kind) (title text : string)
| SigLog (line : string)
| SigProgress (percent : Z)
| SigDone (converted : nat)
| SigError (msg : string).

(** A computation: from the file system to an outcome, the new file system
    and the events emitted.  The file system changes and the events made
    before an exception are kept. *)
Definition M (A : Type) : Type := FS -> result A * FS * list event.

Definition ret {A : Type} (a : A) : M A := fun fs => (Ok a, fs, []).

Definition bind {A B : Type} (m : M A) (k : A -> M B) : M B :=
  fun fs =>
    match m fs with
    | (Ok a, fs1, ev1) =>
        match k a fs1 with
        | (r, fs2, ev2) => (r, fs2, ev1 ++ ev2)
        end
    | (Raise e, fs1, ev1) => (Raise e, fs1, ev1)
    end.

(** [try: m  except Exception as e: handler(e)]. *)
Definition try_except {A : Type} (m : M A) (handler : exn -> M A) : M A :=
  fun fs =>
    match m fs with
    | (Ok a, fs1, ev1) => (Ok a, fs1, ev1)
    | (Raise e, fs1, ev1) =>
        match handler e fs1 with
        | (r, fs2, ev2) => (r, fs2, ev1 ++ ev2)
        end
    end.

Definition lift {A : Type} (r : result A) : M A := fun fs => (r, fs, []).

Definition emit (ev : event) : M unit := fun fs => (Ok tt, fs, [ev]).

Definition outcome {A : Type} (x : result A * FS * list event) : result A := x.1.1.
Definition final_fs {A : Type} (x : result A * FS * list event) : FS := x.1.2.
Definition events {A : Type} (x : result A * FS * list event) : list event := x.2.

#[global] Instance result_ret : MRet result := fun A a => Ok a.
#[global] Instance result_bind : MBind result := fun A B k r => rbind r k.
#[global] Instance M_ret : MRet M := fun A a => ret a.
#[global] Instance M_bind : MBind M := fun A B k m => bind m k.

(** ** The operating system

    A call that changes a file can be refused for reasons that are not
    part of the model (permissions, a full disk, ...).  The oracle says
    which calls are refused, from their arguments and the files at the
    time, and what a write that was cut short leaves behind. *)
Class Os : Type := {
  (** [open(path, "w+b")]: the error, if the file cannot be opened. *)
  os_open_error : string -> FS -> option exn;
  (** Writing [bytes] to the file at [path]: the error, if it fails. *)
  os_write_error : string -> string -> FS -> option exn;
  (** What a file that existed holds after a write to it was cut short. *)
  os_partial : string -> FS -> string;
  (** What is left of a file that [im.save] created and could not
      complete: nothing, or a file with some content. *)
  os_created_left : string -> FS -> option string;
  (** [shutil.move(src, dst)] on an existing [src]: the error, if any. *)
  os_move_error : string -> string -> FS -> option exn;
  (** What a failed move leaves at [dst] when it got as far as copying:
      [None] when [dst] is as it was. *)
  os_move_left : string -> string -> FS -> option string;
  (** [os.remove(path)] on an existing file: the error, if any. *)
  os_remove_error : string -> FS -> option exn;
  (** [os.makedirs(path, exist_ok=True)] where no file has that name: the
      error, if any. *)
  os_makedirs_error : string -> FS -> option exn
}.

(** The exception of a failed system call on a path, with the text Python
    gives it: [[Errno n] text: 'path'] (the path is assumed to need no
    escaping). *)
Definition os_error (cls errno text path : string) : exn :=
  Exn cls ("[Errno " +:+ errno +:+ "] " +:+ text +:+ ": '" +:+ path +:+ "'").

Definition file_not_found (path : string) : exn :=
  os_error "FileNotFoundError" "2" "No such file or directory" path.

Definition file_exists (path : string) : exn :=
  os_error "FileExistsError" "17" "File exists" path.

Definition permission_denied (path : string) : exn :=
  os_error "PermissionError" "13" "Permission denied" path.

(** ** File-system calls *)

(** [os.path.exists(path)]. *)
Definition os_path_exists (path : string) : M bool :=
  fun fs => (Ok (bool_decide (is_Some (fs !! path))), fs, []).

Section OsCalls.
Context {os : Os}.

(** The files after a move of [src] to [dst] that failed: [src] is still
    there (it is removed last), and [dst] is as it was unless the move got
    as far as copying. *)
Definition move_failed (src dst : string) (fs : FS) : FS :=
  match os_move_left src dst fs with
  | Some bytes => <[dst := bytes]> fs
  | None => fs
  end.

(** [shutil.move(src, dst)] of a file: [dst] is replaced and [src] is
    gone, or the move fails. *)
Definition shutil_move (src dst : string) : M unit :=
  fun fs =>
    match fs !! src with
    | Some bytes =>
        match os_move_error src dst fs with
        | None => (Ok tt, <[dst := bytes]> (delete src fs), [EvMove src dst])
        | Some e => (Raise e, move_failed src dst fs, [EvMove src dst])
        end
    | None => (Raise (file_not_found src), fs, [EvMove src dst])
    end.

(** [os.remove(path)]. *)
Definition os_remove (path : string) : M unit :=
  fun fs =>
    match fs !! path with
    | Some _ =>
        match os_remove_error path fs with
        | None => (Ok tt, delete path fs, [EvRemove path])
        | Some e => (Raise e, fs, [EvRemove path])
        end
    | None => (Raise (file_not_found path), fs, [EvRemove path])
    end.

(** [os.makedirs(path, exist_ok=True)]: directories are not part of the
    file system, so a success changes nothing; a file of that name makes
    it fail. *)
Definition os_makedirs (path : string) : M unit :=
  fun fs =>
    match fs !! path with
    | Some _ => (Raise (file_exists path), fs, [])
    | None =>
        match os_makedirs_error path fs with
        | None => (Ok tt, fs, [])
        | Some e => (Raise e, fs, [])
        end
    end.

(** The files after a write to [path] that did not complete: a file that
    existed is still there, with what was written of the new content; a
    file that the call created may be gone. *)
Definition cut_short (path : string) (fs : FS) : FS :=
  match fs !! path with
  | Some _ => <[path := os_partial path fs]> fs
  | None =>
      match os_created_left path fs with
      | Some bytes => <[path := bytes]> fs
      | None => fs
      end
  end.

End OsCalls.

(** ** Pillow calls *)

Section PillowCalls.
Context {pil : Pillow} {os : Os}.

(** [Image.open(path)], pixel data included. *)
Definition Image_open (path : string) : M Image :=
  fun fs =>
    match fs !! path with
    | Some bytes => (pil_decode bytes, fs, [EvOpen path])
    | None => (Raise (file_not_found path), fs, [EvOpen path])
    end.

(** [im.convert(mode)]. *)
Definition Image_convert (im : Image) (mode : string) : result Image :=
  data ← pil_convert_data im mode;
  Ok (mkImage mode (im_size im) data).

(** [im.resize(size, Image.LANCZOS)]. *)
Definition Image_resize (im : Image) (size : Z * Z) : result Image :=
  data ← pil_resample im size;
  Ok (mkImage (im_mode im) size data).

(** [im.save(path, fmt, **kwargs)]: the save is prepared (the encoder of
    the format is looked up), the file is opened for writing, which
    empties a file that existed, then the image is encoded and written.  A failure before the file is
    open leaves the files as they were; a failure after it leaves the
    file cut short. *)
Definition Image_save (im : Image) (path fmt : string)
    (kwargs : list (string * kwarg)) : M unit :=
  fun fs =>
    match pil_save_prepare fmt kwargs im with
    | Some e => (Raise e, fs, [EvEncode path fmt im kwargs])
    | None =>
        match os_open_error path fs with
        | Some e => (Raise e, fs, [EvEncode path fmt im kwargs])
        | None =>
            match pil_encode fmt kwargs im with
            | Raise e => (Raise e, cut_short path fs, [EvEncode path fmt im kwargs])
            | Ok bytes =>
                match os_write_error path bytes fs with
                | Some e =>
                    (Raise e, cut_short path fs, [EvEncode path fmt im kwargs])
                | None =>
                    (Ok tt, <[path := bytes]> fs, [EvEncode path fmt im kwargs])
                end
            end
        end
    end.

(** [im.save(buf, fmt, **kwargs)] on a [BytesIO]: the content of the
    buffer. *)
Definition Image_save_buffer (im : Image) (fmt : string)
    (kwargs : list (string * kwarg)) : result string :=
  match pil_save_prepare fmt kwargs im with
  | Some e => Raise e
  | None => pil_encode fmt kwargs im
  end.

End PillowCalls.

(** * delta_pix.py: the export path *)

Module DeltaPix.

Record ExportSettings : Type := mkExportSettings {
  formats : list string;
  resize_percent : Z;
  png_optimize : bool;
  jpg_quality : Z;
  webp_lossless : bool;
  webp_quality : Z;
  drop_alpha : bool;
  max_width : Z;
  max_height : Z
}.

Section WithPillow.
Context {pil : Pillow} {os : Os}.

(** [load_image(path)]: the decoded copy, or [None] after printing the
    error. *)
Definition load_image (path : string) : M (option Image) :=
  try_except
    (im ← Image_open path; mret (Some im))
    (fun e => emit (EvPrint ("load_image error: " +:+ str_exn e));; mret None).

(** [DeltaPix._apply_resize(img, pct, max_w, max_h)]. *)
Definition _apply_resize (img : Image) (pct max_w max_h : Z) : result Image :=
  img ← (if negb (pct =? 100) then
           let '(w, h) := im_size img in
           fw ← truediv (w * pct) 100;
           iw ← int_of_float fw;
           let w := Z.max 1 iw in
           fh ← truediv (h * pct) 100;
           ih ← int_of_float fh;
           let h := Z.max 1 ih in
           Image_resize img (w, h)
         else Ok img);
  if ((0 <? max_w) || (0 <? max_h))%bool then
    let '(w, h) := im_size img in
    let scale := one in
    scale ← (if ((0 <? max_w) && (max_w <? w))%bool
             then q ← truediv max_w w; Ok (float_min scale q)
             else Ok scale);
    scale ← (if ((0 <? max_h) && (max_h <? h))%bool
             then q ← truediv max_h h; Ok (float_min scale q)
             else Ok scale);
    if float_lt scale one then
      w' ← int_of_float (mul_int_float w scale);
      h' ← int_of_float (mul_int_float h scale);
      Image_resize img (w', h')
    else Ok img
  else Ok img.

(** The [try] block of [_save_one]. *)
Definition _save_one_body (img : Image) (out_path fmt : string)
    (cfg : ExportSettings) : M (bool * string) :=
  im ← lift (if (drop_alpha cfg || String.eqb fmt "JPEG")%bool
             then Image_convert img "RGB" else Ok img);
  im ← lift (_apply_resize im (resize_percent cfg) (max_width cfg) (max_height cfg));
  let kwargs :=
    if String.eqb fmt "PNG" then [("optimize", KwBool (png_optimize cfg))]
    else if String.eqb fmt "JPEG" then [("quality", KwInt (jpg_quality cfg))]
    else if String.eqb fmt "WEBP" then
      if webp_lossless cfg
      then [("lossless", KwBool true); ("method", KwInt 6)]
      else [("quality", KwInt (webp_quality cfg)); ("method", KwInt 6)]
    else [] in
  Image_save im out_path fmt kwargs;;
  mret (true, "ok").

(** [DeltaPix._save_one(img, out_path, fmt, cfg)]: [(ok, msg)]. *)
Definition _save_one (img : Image) (out_path fmt : string)
    (cfg : ExportSettings) : M (bool * string) :=
  try_except (_save_one_body img out_path fmt cfg)
             (fun e => mret (false, str_exn e)).

Definition format_ext (fmt : string) : string :=
  if String.eqb fmt "PNG" then ".png"
  else if String.eqb fmt "JPEG" then ".jpg" else ".webp".

(** The inner loop of [_export_batch]: one save per requested format. *)
Fixpoint export_formats (img : Image) (path base out_dir : string)
    (cfg : ExportSettings) (fmts : list string) (errors : list string)
    : M (list string) :=
  match fmts with
  | [] => mret errors
  | fmt :: rest =>
      let out_path := path_join out_dir (base +:+ format_ext fmt) in
      '(ok, msg) ← _save_one img out_path fmt cfg;
      let errors :=
        if ok : bool then errors
        else errors ++ [basename path +:+ " → " +:+ fmt +:+ ": " +:+ msg] in
      export_formats img path base out_dir cfg rest errors
  end.

(** The outer loop of [_export_batch] over [self.images]. *)
Fixpoint export_images (out_dir : string) (cfg : ExportSettings)
    (images : list string) (errors : list string) : M (list string) :=
  match images with
  | [] => mret errors
  | path :: rest =>
      img ← load_image path;
      match img with
      | None => export_images out_dir cfg rest (errors ++ ["Open failed: " +:+ path])
      | Some img =>
          let base := splitext_root (basename path) in
          errors ← export_formats img path base out_dir cfg (formats cfg) errors;
          export_images out_dir cfg rest errors
      end
  end.

(** [DeltaPix._export_batch(out_dir, cfg)] over the imported [images];
    the list [errors] is returned to make it observable. *)
Definition _export_batch (images : list string) (out_dir : string)
    (cfg : ExportSettings) : M (list string) :=
  errors ← export_images out_dir cfg images [];
  match errors with
  | _ :: _ => emit (EvDialog Warning "Export Done (with errors)"
                      (String.concat newline (take 20 errors)))
  | [] => emit (EvDialog Information "Export" "Batch export completed.")
  end;;
  mret errors.

End WithPillow.

End DeltaPix.

(** * convert_png_to_jpg.py *)

Module PngToJpg.
Section WithPillow.
Context {pil : Pillow} {os : Os}.

(** [resize_and_convert(input_path, output_path, size, quality)]. *)
Definition resize_and_convert (input_path output_path : string)
    (size : Z * Z) (quality : Z) : M unit :=
  img ← Image_open input_path;
  img ← lift (Image_convert img "RGB");
  img ← lift (Image_resize img size);
  Image_save img output_path "JPEG" [("quality", KwInt quality)].

(** The default arguments of [resize_and_convert]. *)
Definition default_size : Z * Z := (1024, 1024).
Definition default_quality : Z := 90.

(** The body of the loop of [main] for one directory entry. *)
Definition main_item (folder backup_folder filename : string) (count : nat)
    : M nat :=
  if str_endswith (str_lower filename) ".png" then
    let input_path := path_join folder filename in
    let backup_path := path_join backup_folder filename in
    let output_filename := splitext_root filename +:+ ".jpg" in
    let output_path := path_join folder output_filename in
    try_except
      (shutil_move input_path backup_path;;
       resize_and_convert backup_path output_path default_size default_quality;;
       emit (EvPrint ("Converted: " +:+ filename +:+ " → " +:+ output_filename));;
       mret (S count))
      (fun e =>
         emit (EvPrint ("Failed to convert " +:+ filename +:+ ": " +:+ str_exn e));;
         mret count)
  else mret count.

Fixpoint main_loop (folder backup_folder : string) (listing : list string)
    (count : nat) : M nat :=
  match listing with
  | [] => mret count
  | filename :: rest =>
      count ← main_item folder backup_folder filename count;
      main_loop folder backup_folder rest count
  end.

(** [main()] once a folder has been chosen; [listing] is
    [os.listdir(folder)].  The count is returned in place of the two
    closing [print]s.  [os.makedirs] is called outside the [try], so its
    exception leaves [main]. *)
Definition main (folder : string) (listing : list string) : M nat :=
  let folder_name := basename folder in
  let parent_dir := dirname folder in
  let backup_folder := path_join parent_dir (folder_name +:+ "_PNG") in
  os_makedirs backup_folder;;
  main_loop folder backup_folder listing 0%nat.

End WithPillow.

End PngToJpg.

(** * pyqt_convert_png_to_webp.py: the in-place worker *)

Module ConverterWorker.

Record JobConfig : Type := mkJobConfig {
  folder : string;
  keep_backup : bool;
  overwrite : bool;
  no_alpha : bool
}.

(** [self._lossy_quality]. *)
Definition _lossy_quality : Z := 90.

(** The filter of [run] on directory entries. *)
Definition is_png (f : string) : bool := str_endswith (str_lower f) ".png".

(** [int(i * 100 / total)]. *)
Definition progress_percent (i total : nat) : result Z :=
  f ← truediv (Z.of_nat i * 100) (Z.of_nat total);
  int_of_float f.

Section WithPillow.
Context {pil : Pillow} {os : Os}.

(** [ConverterWorker._convert_one(src_png, dst_webp)]. *)
Definition _convert_one (cfg : JobConfig) (src_png dst_webp : string) : M unit :=
  im ← Image_open src_png;
  if no_alpha cfg then
    im ← lift (Image_convert im "RGB");
    Image_save im dst_webp "WEBP"
      [("quality", KwInt _lossy_quality); ("method", KwInt 6)]
  else
    let mode :=
      if (String.eqb (im_mode im) "RGBA" || String.eqb (im_mode im) "LA")%bool
      then "RGBA" else "RGB" in
    im ← lift (Image_convert im mode);
    Image_save im dst_webp "WEBP"
      [("lossless", KwBool true); ("method", KwInt 6)].

(** The [try] block of the loop body of [run] (lines 95 to 111); it
    returns the new value of [converted]. *)
Definition run_item_try (cfg : JobConfig) (folder backup_folder fname : string)
    (converted : nat) : M nat :=
  let src := path_join folder fname in
  let dst_name := splitext_root fname +:+ ".webp" in
  let dst := path_join folder dst_name in
  src_for_convert ←
    (if keep_backup cfg then
       let bak := path_join backup_folder fname in
       bak_exists ← os_path_exists bak;
       (if negb (bak_exists : bool) then shutil_move src bak else mret tt);;
       mret bak
     else mret src);
  _convert_one cfg src_for_convert dst;;
  emit (SigLog ("Converted: " +:+ fname +:+ " → " +:+ dst_name));;
  let converted := S converted in
  (if negb (keep_backup cfg) then
     src_exists ← os_path_exists src;
     if src_exists : bool then
       try_except (os_remove src)
         (fun e_rm =>
            emit (SigLog ("Warn: failed to delete original " +:+ fname
                          +:+ ": " +:+ str_exn e_rm)))
     else mret tt
   else mret tt);;
  mret converted.

(** The loop body of [run] after the stop check, for the [i]-th entry
    [fname] (lines 84 to 116). *)
Definition run_item (cfg : JobConfig) (folder backup_folder : string)
    (total i : nat) (fname : string) (converted : nat) : M nat :=
  let dst_name := splitext_root fname +:+ ".webp" in
  let dst := path_join folder dst_name in
  dst_exists ← os_path_exists dst;
  if (negb (overwrite cfg) && (dst_exists : bool))%bool then
    emit (SigLog ("Skip (already exists): " +:+ dst_name));;
    p ← lift (progress_percent i total);
    emit (SigProgress p);;
    mret converted
  else
    converted ←
      try_except (run_item_try cfg folder backup_folder fname converted)
        (fun e =>
           emit (SigLog ("Failed: " +:+ fname +:+ " -> " +:+ str_exn e));;
           mret converted);
    p ← lift (progress_percent i total);
    emit (SigProgress p);;
    mret converted.

(** ** The loop with its stop flag

    [stop] is called from another thread while [run] executes.  The flag is
    read only at the head of the loop, so the worker is a machine whose
    steps are: the check at the loop head, and one whole loop body.  A
    schedule interleaves these steps with calls of [stop]. *)

Inductive pc : Type :=
| AtLoopHead
| InItem (fname : string)
| Finished.

Record WState : Type := mkWState {
  ws_fs : FS;
  ws_stopped : bool;
  ws_pc : pc;
  ws_pending : list string;
  ws_index : nat;
  ws_converted : nat;
  ws_trace : list event
}.

(** [ConverterWorker.stop()]. *)
Definition stop (s : WState) : WState :=
  mkWState (ws_fs s) true (ws_pc s) (ws_pending s) (ws_index s)
           (ws_converted s) (ws_trace s).

Definition finish (s : WState) (evs : list event) : WState :=
  mkWState (ws_fs s) (ws_stopped s) Finished (ws_pending s) (ws_index s)
           (ws_converted s) (ws_trace s ++ evs).

(** One step of the worker inside the loop of [run]; [ws_index] is the
    number [i] of the next entry. *)
Definition worker_step (cfg : JobConfig) (folder backup_folder : string)
    (total : nat) (s : WState) : WState :=
  match ws_pc s with
  | Finished => s
  | AtLoopHead =>
      match ws_pending s with
      | [] => finish s [SigDone (ws_converted s)]
      | fname :: rest =>
          if ws_stopped s
          then finish s [SigLog "Stopped by user."; SigDone (ws_converted s)]
          else mkWState (ws_fs s) (ws_stopped s) (InItem fname) rest (ws_index s)
                        (ws_converted s) (ws_trace s)
      end
  | InItem fname =>
      match run_item cfg folder backup_folder total (ws_index s) fname
                     (ws_converted s) (ws_fs s) with
      | (Ok converted, fs, evs) =>
          mkWState fs (ws_stopped s) AtLoopHead (ws_pending s) (S (ws_index s))
                   converted (ws_trace s ++ evs)
      | (Raise e, fs, evs) =>
          mkWState fs (ws_stopped s) Finished (ws_pending s) (ws_index s)
                   (ws_converted s) (ws_trace s ++ evs ++ [SigError (str_exn e)])
      end
  end.

Inductive action : Type := Work | Stop.

(** The worker under a schedule. *)
Fixpoint exec (cfg : JobConfig) (folder backup_folder : string) (total : nat)
    (sched : list action) (s : WState) : WState :=
  match sched with
  | [] => s
  | Work :: rest =>
      exec cfg folder backup_folder total rest
           (worker_step cfg folder backup_folder total s)
  | Stop :: rest => exec cfg folder backup_folder total rest (stop s)
  end.

(** [ConverterWorker.run()] up to the loop: the state in which the loop
    starts, or the final state when it does not.  [isdir] is
    [os.path.isdir(folder)] and [listing] is [os.listdir(folder)].  An
    exception of [os.makedirs] reaches the handler of [run], which emits
    [error] and returns. *)
Definition run_init (cfg : JobConfig) (isdir : bool) (listing : list string)
    (stopped : bool) (fs : FS) : WState * (string * string * nat) :=
  let folder := str_rstrip is_sep_or_backslash (folder cfg) in
  let folder_name := basename folder in
  let parent_dir := dirname folder in
  let backup_folder := path_join parent_dir (folder_name +:+ "_PNG") in
  let pngs := filter (fun f => is_png f = true) listing in
  let total := length pngs in
  let s0 := mkWState fs stopped AtLoopHead pngs 1 0 [] in
  if negb isdir then
    (finish s0 [SigError ("Folder not found: " +:+ folder)],
     (folder, backup_folder, total))
  else if (total =? 0)%nat then
    (finish s0 [SigLog "No PNG files found in the selected folder."; SigDone 0],
     (folder, backup_folder, total))
  else
    let mode_text :=
      if no_alpha cfg then "LOSSY (no transparency, q=90)"
      else "LOSSLESS (preserve transparency)" in
    let mode_log := SigLog ("Mode: " +:+ mode_text) in
    if keep_backup cfg then
      match os_makedirs backup_folder fs with
      | (Ok _, fs1, evs) =>
          (mkWState fs1 stopped AtLoopHead pngs 1 0
             (mode_log :: evs ++ [SigLog ("Backup folder: " +:+ backup_folder)]),
           (folder, backup_folder, total))
      | (Raise e, fs1, evs) =>
          (finish (mkWState fs1 stopped AtLoopHead pngs 1 0 (mode_log :: evs))
                  [SigError (str_exn e)],
           (folder, backup_folder, total))
      end
    else
      (mkWState fs stopped AtLoopHead pngs 1 0 [mode_log],
       (folder, backup_folder, total)).

(** [run()] under a schedule. *)
Definition run (cfg : JobConfig) (isdir : bool) (listing : list string)
    (sched : list action) (fs : FS) : WState :=
  let '(s0, (folder, backup_folder, total)) := run_init cfg isdir listing false fs in
  exec cfg folder backup_folder total sched s0.

End WithPillow.

End ConverterWorker.

(** * A small concrete image library

    An instance of [Pillow] to run the model on: file contents name the
    image they decode to, unknown contents do not decode, resampling needs a
    positive size, the JPEG encoder refuses alpha modes, and pixel data
    ["poison"] cannot be encoded.  With it an instance of [Os]: nothing
    under [/locked/] can be written, moved, removed or created, nothing
    under [/pinned/] can be removed, and a write that is cut short leaves
    an empty file where there was one. *)

Module Toy.

Definition decode (bytes : string) : result Image :=
  if String.eqb bytes "rgba-100x60" then Ok (mkImage "RGBA" (100, 60) "pixels")
  else if String.eqb bytes "rgb-100x60" then Ok (mkImage "RGB" (100, 60) "pixels")
  else if String.eqb bytes "rgb-3x2" then Ok (mkImage "RGB" (3, 2) "pixels")
  else if String.eqb bytes "old-rgb-8x8" then Ok (mkImage "RGB" (8, 8) "old pixels")
  else if String.eqb bytes "rgb-poison" then Ok (mkImage "RGB" (10, 10) "poison")
  else Raise (Exn "UnidentifiedImageError" "cannot identify image file").

Definition convert_data (im : Image) (mode : string) : result string :=
  Ok (im_data im).

Definition resample (im : Image) (size : Z * Z) : result string :=
  if ((size.1 <? 1) || (size.2 <? 1))%bool
  then Raise (Exn "ValueError" "height and width must be > 0")
  else Ok (im_data im).

Definition encode (fmt : string) (kwargs : list (string * kwarg)) (im : Image)
    : result string :=
  if String.eqb (im_data im) "poison"
  then Raise (Exn "OSError" "encoder error")
  else if (String.eqb fmt "JPEG" && mode_has_alpha (im_mode im))%bool
  then Raise (Exn "OSError" ("cannot write mode " +:+ im_mode im +:+ " as JPEG"))
  else if (String.eqb fmt "PNG" || String.eqb fmt "JPEG" || String.eqb fmt "WEBP")%bool
  then Ok (fmt +:+ ":" +:+ im_mode im +:+ ":" +:+ im_data im)
  else Raise (Exn "KeyError" fmt).

Definition save_handler (fmt : string) : option exn :=
  if (String.eqb fmt "PNG" || String.eqb fmt "JPEG" || String.eqb fmt "WEBP")%bool
  then None else Some (Exn "KeyError" fmt).

Definition pillow : Pillow :=
  Build_Pillow decode convert_data resample encode (fun fmt _ _ => save_handler fmt).

Definition locked (path : string) : bool := String.prefix "/locked/" path.

Definition pinned (path : string) : bool := String.prefix "/pinned/" path.

Definition refuse (path : string) : option exn :=
  if locked path then Some (permission_denied path) else None.

Definition os : Os := {|
  os_open_error path _ := refuse path;
  os_write_error _ _ _ := None;
  os_partial _ _ := "";
  os_created_left _ _ := None;
  os_move_error src dst _ := if locked src then refuse src else refuse dst;
  os_move_left _ _ _ := None;
  os_remove_error path _ :=
    if (locked path || pinned path)%bool then Some (permission_denied path) else None;
  os_makedirs_error path _ := refuse path
|}.

End Toy.

(** * delta_pix.py: helpers and the lists of the main window *)

Module DeltaPixApp.

Definition SUPPORTED_EXT : list string := [".png"; ".jpg"; ".jpeg"; ".webp"].

(** [os.path.splitext(p)[1]]: the extension is looked for in what follows
    the last separator. *)
Definition splitext_ext (p : string) : string :=
  match rsplit_dot (basename p) with
  | Some (pre, ext) => if all_dots pre then EmptyString else ext
  | None => EmptyString
  end.

(** [is_image_file(path)]. *)
Definition is_image_file (path : string) : bool :=
  bool_decide (splitext_ext (str_lower path) ∈ SUPPORTED_EXT).

Section WithPillow.
Context {pil : Pillow} {os : Os}.

(** [estimate_encoded_size(img, fmt, **options)]: the image is encoded
    into a buffer, no file is involved. *)
Definition estimate_encoded_size (img : Image) (fmt : string)
    (options : list (string * kwarg)) : result (Z * string) :=
  img ← (if String.eqb fmt "JPEG" then Image_convert img "RGB" else Ok img);
  data ← Image_save_buffer img fmt options;
  Ok (Z.of_nat (String.length data), data).

End WithPillow.

(** The controls of [ExportDialog] that [current_settings] reads. *)
Record ExportDialog : Type := mkExportDialog {
  chk_png : bool;
  chk_jpg : bool;
  chk_webp : bool;
  spin_resize : Z;
  spin_max_w : Z;
  spin_max_h : Z;
  chk_png_opt : bool;
  slider_jpg_q : Z;
  chk_webp_lossless : bool;
  slider_webp_q : Z;
  chk_drop_alpha : bool
}.

(** [ExportDialog.current_settings()]. *)
Definition current_settings (d : ExportDialog) : DeltaPix.ExportSettings :=
  let fmts := [] in
  let fmts := if chk_png d then fmts ++ ["PNG"] else fmts in
  let fmts := if chk_jpg d then fmts ++ ["JPEG"] else fmts in
  let fmts := if chk_webp d then fmts ++ ["WEBP"] else fmts in
  let fmts := match fmts with [] => ["PNG"] | _ :: _ => fmts end in
  DeltaPix.mkExportSettings fmts (spin_resize d) (chk_png_opt d) (slider_jpg_q d)
    (chk_webp_lossless d) (slider_webp_q d) (chk_drop_alpha d)
    (spin_max_w d) (spin_max_h d).

(** The lists of the main window: [self.images], the rows of
    [self.file_list] (label and tool tip) with its current row, and the
    value stored under ["recent_files"] in the settings. *)
Record Window : Type := mkWindow {
  images : list string;
  file_list : list (string * string);
  current_row : Z;
  recent_files : list string
}.

(** [DeltaPix._get_recent()]. *)
Definition _get_recent (w : Window) : list string := recent_files w.

(** [DeltaPix._save_recent(paths)]. *)
Definition _save_recent (paths : list string) (w : Window) : Window :=
  mkWindow (images w) (file_list w) (current_row w) (take 10 paths).

(** [l.remove(x)] for [x] in [l]: the first occurrence goes. *)
Fixpoint list_remove (x : string) (l : list string) : list string :=
  match l with
  | [] => []
  | y :: l' => if String.eqb y x then l' else y :: list_remove x l'
  end.

(** [DeltaPix._add_recent(path)]; the menu is rebuilt from the stored
    list. *)
Definition _add_recent (path : string) (w : Window) : Window :=
  let rec := _get_recent w in
  let rec := if bool_decide (path ∈ rec) then list_remove path rec else rec in
  let rec := path :: rec in
  _save_recent rec w.

(** The entries of the menu built by [_rebuild_recent_menu]: text and
    enabled flag. *)
Definition _rebuild_recent_menu (w : Window) : list (string * bool) :=
  match _get_recent w with
  | [] => [("(empty)", false)]
  | rec => map (fun p => (p, true)) rec
  end.

(** The loop of [_add_files]; [os.path.isfile] is answered by the file
    system. *)
Fixpoint add_files_loop (fs : FS) (paths : list string) (w : Window) (added : nat)
    : Window * nat :=
  match paths with
  | [] => (w, added)
  | p :: rest =>
      if (negb (bool_decide (is_Some (fs !! p))) || negb (is_image_file p))%bool
      then add_files_loop fs rest w added
      else if negb (bool_decide (p ∈ images w)) then
        let w := mkWindow (images w ++ [p]) (file_list w ++ [(basename p, p)])
                          (current_row w) (recent_files w) in
        let w := _add_recent p w in
        add_files_loop fs rest w (S added)
      else add_files_loop fs rest w added
  end.

(** [DeltaPix._add_files(paths)]: the last row becomes the current one
    when something was added. *)
Definition _add_files (fs : FS) (paths : list string) (w : Window) : Window :=
  let '(w, added) := add_files_loop fs paths w 0 in
  if negb (added =? 0)%nat
  then mkWindow (images w) (file_list w) (Z.of_nat (length (file_list w)) - 1)
                (recent_files w)
  else w.

(** [DeltaPix._open_recent(path)]. *)
Definition _open_recent (fs : FS) (path : string) (w : Window) : Window :=
  if (bool_decide (is_Some (fs !! path)) && is_image_file path)%bool
  then _add_files fs [path] w else w.

(** [f"{x:.1f}"]: how Python prints a float with one decimal is not
    modelled. *)
Class Formatter : Type := { format_1f : float -> string }.

(** The value of [num_bytes] in [human_size]: the [int] it is called with,
    then the [float]s that the divisions return. *)
Inductive number : Type :=
| NumInt (z : Z)
| NumFloat (f : float).

(** The float [1024.0]. *)
Definition f1024 : float := S754_finite false 4503599627370496 (-42).

(** The float that is formatted or divided: an [int] is converted. *)
Definition to_float (v : number) : float :=
  match v with
  | NumInt z => float_of_int z
  | NumFloat f => f
  end.

(** [v < 1024.0]: an [int] is compared by its value. *)
Definition lt_1024 (v : number) : bool :=
  match v with
  | NumInt z => z <? 1024
  | NumFloat f => float_lt f f1024
  end.

(** [v / 1024.0]. *)
Definition div_1024 (v : number) : number :=
  NumFloat (SFdiv prec emax (to_float v) f1024).

Section WithFormatter.
Context {fmt : Formatter}.

(** The loop of [human_size] over the units that remain. *)
Fixpoint human_size_loop (units : list string) (num_bytes : number) : string :=
  match units with
  | [] => format_1f (to_float num_bytes) +:+ " TB"
  | unit :: rest =>
      if lt_1024 num_bytes
      then format_1f (to_float num_bytes) +:+ " " +:+ unit
      else human_size_loop rest (div_1024 num_bytes)
  end.

(** [human_size(num_bytes)]. *)
Definition human_size (num_bytes : Z) : string :=
  human_size_loop ["B"; "KB"; "MB"; "GB"] (NumInt num_bytes).

End WithFormatter.

(** A formatter to run the model on: it shows the sign only. *)
Definition sign_formatter : Formatter :=
  Build_Formatter (fun f => match f with
                            | S754_finite true _ _ | S754_zero true => "-x.y"
                            | _ => "x.y"
                            end).

End DeltaPixApp.

(** * Definitions used by the proofs *)

(** The real number denoted by mantissa [m] and exponent [e]. *)
Definition F2R (m e : Z) : R := (IZR m * powerRZ 2 e)%R.

(** The real value of a float (0 for the special values). *)
Definition SF2R (f : spec_float) : R :=
  match f with
  | S754_finite s m e => if s then (- F2R (Z.pos m) e)%R else F2R (Z.pos m) e
  | _ => 0%R
  end.

(** A positive normal double with exponent in [[lo, hi]]. *)
Definition normal_float (lo hi : Z) (f : spec_float) : Prop :=
  exists m e, f = S754_finite false m e /\ 2 ^ 52 <= Z.pos m < 2 ^ 53 /\ lo <= e <= hi.

(** Invariant of [k] right shifts of the mantissa [m0] of a number
    [N / D >= m0]: the shifted mantissa, and what a set round bit means. *)
Definition shr_inv (m0 N D k : Z) (mrs : shr_record) : Prop :=
  shr_m mrs = m0 / 2 ^ k /\
  (shr_r mrs = true -> (2 * shr_m mrs + 1) * 2 ^ k * D <= 2 * N).

(** The unit roundoff [2^-53]. *)
Definition u53 : R := powerRZ 2 (-53).

Import DeltaPix ConverterWorker.

(** What the JPEG encoder must be given: an image in mode RGB. *)
Definition jpeg_gets_rgb (ev : event) : Prop :=
  match ev with
  | EvEncode _ fmt im _ =>
      fmt = "JPEG" -> im_mode im = "RGB" /\ mode_has_alpha (im_mode im) = false
  | _ => True
  end.

(** An encoder call of the PNG to JPG tool: 1024x1024, RGB, quality 90. *)
Definition jpeg_1024_q90 (ev : event) : Prop :=
  match ev with
  | EvEncode _ fmt im kwargs =>
      fmt = "JPEG" /\ im_size im = (1024, 1024) /\ im_mode im = "RGB" /\
      kwargs = [("quality", KwInt 90)]
  | _ => True
  end.

(** The last character of a string. *)
Fixpoint str_last (s : string) : option ascii :=
  match s with
  | EmptyString => None
  | String c s' => match s' with EmptyString => Some c | _ => str_last s' end
  end.

(** Events that displace or delete a file. *)
Definition is_move_or_remove (ev : event) : bool :=
  match ev with
  | EvMove _ _ | EvRemove _ => true
  | _ => false
  end.

Definition is_remove (ev : event) : bool :=
  match ev with
  | EvRemove _ => true
  | _ => false
  end.

(** Calls of the encoder. *)
Definition is_encode (ev : event) : bool :=
  match ev with
  | EvEncode _ _ _ _ => true
  | _ => false
  end.

(** The number of steps a schedule gives to the worker. *)
Fixpoint works (sched : list action) : nat :=
  match sched with
  | [] => 0
  | Work :: rest => S (works rest)
  | Stop :: rest => works rest
  end.

(** The events of the worker when it finds the flag set at the loop head
    (or the list exhausted). *)
Definition stop_events (s : WState) : list event :=
  match ws_pending s with
  | [] => [SigDone (ws_converted s)]
  | _ :: _ => [SigLog "Stopped by user."; SigDone (ws_converted s)]
  end.

(** Unfolding of the monad of effects. *)
Ltac unfold_M :=
  unfold mbind, M_bind, bind, mret, M_ret, ret, lift, emit, try_except,
         outcome, final_fs, events in *.

#[global] Arguments truediv : simpl never.
#[global] Arguments int_of_float : simpl never.
#[global] Arguments mul_int_float : simpl never.
#[global] Arguments float_min : simpl never.
#[global] Arguments float_lt : simpl never.
#[global] Arguments Image_resize : simpl never.
#[global] Arguments Image_convert : simpl never.

(** The scale of the clamp of [_apply_resize] for an image of size [W] x
    [H]: [1.0], lowered to [max_w / W] and to [max_h / H] for the bounds
    that are exceeded. *)
Definition clamp_scale (W H max_w max_h : Z) : float :=
  let scale :=
    if ((0 <? max_w) && (max_w <? W))%bool
    then float_min one (SFdiv prec emax (float_of_int max_w) (float_of_int W))
    else one in
  if ((0 <? max_h) && (max_h <? H))%bool
  then float_min scale (SFdiv prec emax (float_of_int max_h) (float_of_int H))
  else scale.

(** The keyword arguments [_save_one] passes to the encoder. *)
Definition save_kwargs (fmt : string) (cfg : ExportSettings) : list (string * kwarg) :=
  if String.eqb fmt "PNG" then [("optimize", KwBool (png_optimize cfg))]
  else if String.eqb fmt "JPEG" then [("quality", KwInt (jpg_quality cfg))]
  else if String.eqb fmt "WEBP" then
    if webp_lossless cfg
    then [("lossless", KwBool true); ("method", KwInt 6)]
    else [("quality", KwInt (webp_quality cfg)); ("method", KwInt 6)]
  else [].

Definition is_dialog (ev : event) : bool :=
  match ev with
  | EvDialog _ _ _ => true
  | _ => false
  end.

(** [fs'] differs from [fs] only by files written directly in [dir]. *)
Definition writes_inside (dir : string) (fs fs' : FS) : Prop :=
  forall p, fs' !! p = fs !! p \/
    exists name bytes, has_sep name = false /\ p = path_join dir name /\
                       fs' !! p = Some bytes.

(** Lines, logged or printed, that report a conversion. *)
Definition is_converted_log (ev : event) : bool :=
  match ev with
  | SigLog line | EvPrint line => String.prefix "Converted: " line
  | _ => false
  end.

Definition count_converted (evs : list event) : nat :=
  length (List.filter is_converted_log evs).


(** Events that move a file. *)
Definition is_move (ev : event) : bool :=
  match ev with
  | EvMove _ _ => true
  | _ => false
  end.

(** * Binary64 arithmetic

    Facts about [SpecFloat] at precision 53: what rounding to nearest does
    to a value in the normal range. *)

(** The number of binary digits of a mantissa. *)
Lemma digits2_pos_bounds (p : positive) :
  2 ^ (Z.pos (digits2_pos p) - 1) <= Z.pos p < 2 ^ Z.pos (digits2_pos p).
Proof.
  induction p as [p IH | p IH |]; cbn [digits2_pos].
  - rewrite Pos2Z.inj_succ.
    replace (Z.succ (Z.pos (digits2_pos p)) - 1) with (Z.succ (Z.pos (digits2_pos p) - 1)) by lia.
    rewrite !Z.pow_succ_r by lia. lia.
  - rewrite Pos2Z.inj_succ.
    replace (Z.succ (Z.pos (digits2_pos p)) - 1) with (Z.succ (Z.pos (digits2_pos p) - 1)) by lia.
    rewrite !Z.pow_succ_r by lia. lia.
  - cbn. lia.
Qed.

Lemma digits2_pos_unique (p : positive) (n : Z) :
  2 ^ (n - 1) <= Z.pos p < 2 ^ n -> Z.pos (digits2_pos p) = n.
Proof.
  intros [Hlo Hhi]. pose proof (digits2_pos_bounds p) as [Dlo Dhi].
  set (d := Z.pos (digits2_pos p)) in *.
  assert (0 < n).
  { destruct (Z_lt_le_dec 0 n) as [|Hn]; [done|].
    exfalso. assert (2 ^ n <= 2 ^ 0) by (apply Z.pow_le_mono_r; lia).
    change (2 ^ 0) with 1 in *. lia. }
  destruct (Z_lt_le_dec d n) as [Hlt|Hge].
  - assert (2 ^ d <= 2 ^ (n - 1)) by (apply Z.pow_le_mono_r; lia). lia.
  - destruct (Z_lt_le_dec n d) as [Hlt|Hge']; [|lia].
    assert (2 ^ n <= 2 ^ (d - 1)) by (apply Z.pow_le_mono_r; lia). lia.
Qed.

(** An invariant indexed by the number of iterations goes through
    [iter_pos]. *)
Lemma iter_pos_inv {A : Type} (f : A -> A) (Q : Z -> A -> Prop) :
  (forall k x, 0 <= k -> Q k x -> Q (k + 1) (f x)) ->
  forall p k x, 0 <= k -> Q k x -> Q (k + Z.pos p) (SpecFloat.iter_pos f p x).
Proof.
  intros Hstep. induction p as [p IH | p IH |]; intros k x Hk HQ; cbn [SpecFloat.iter_pos].
  - replace (k + Z.pos p~1) with (k + 1 + Z.pos p + Z.pos p) by lia.
    apply IH; [lia|]. apply IH; [lia|]. by apply Hstep.
  - replace (k + Z.pos p~0) with (k + Z.pos p + Z.pos p) by lia.
    apply IH; [lia|]. by apply IH.
  - by apply Hstep.
Qed.

(** One right shift halves the mantissa and records its low bit. *)
Lemma shr_1_m (mrs : shr_record) :
  0 <= shr_m mrs -> shr_m (shr_1 mrs) = shr_m mrs / 2 /\ shr_r (shr_1 mrs) = Z.odd (shr_m mrs).
Proof.
  destruct mrs as [m r s]. cbn [shr_m]. intros Hm.
  destruct m as [|[p|p|]|p]; cbn [shr_1 shr_m shr_r]; try lia.
  - split; [done|done].
  - split; [|done]. rewrite Pos2Z.inj_xI. apply Z.div_unique with 1; lia.
  - split; [|done]. rewrite Pos2Z.inj_xO. apply Z.div_unique with 0; lia.
  - split; done.
Qed.

Section Shift.
Variables (m0 N D : Z).
Hypothesis (Hm0 : 0 <= m0) (HD : 0 < D) (HN : m0 * D <= N).

Lemma shr_inv_step k mrs : 0 <= k -> shr_inv m0 N D k mrs -> shr_inv m0 N D (k + 1) (shr_1 mrs).
Proof.
  intros Hk [Hm Hr].
  assert (0 < 2 ^ k) by (apply Z.pow_pos_nonneg; lia).
  assert (0 <= shr_m mrs) by (rewrite Hm; apply Z.div_pos; lia).
  destruct (shr_1_m mrs) as [Hm' Hr']; [done|].
  split.
  - rewrite Hm', Hm, Z.pow_add_r, Z.pow_1_r by lia.
    rewrite Z.div_div by lia. done.
  - rewrite Hr', Hm'. intros Hodd.
    rewrite Z.pow_add_r, Z.pow_1_r by lia.
    pose proof (Z.div_mod (shr_m mrs) 2 ltac:(lia)) as Hdm.
    rewrite Zmod_odd, Hodd in Hdm.
    assert (shr_m mrs * 2 ^ k <= m0).
    { rewrite Hm, Z.mul_comm. apply Z.mul_div_le. lia. }
    nia.
Qed.

Lemma shr_inv_iter p mrs :
  shr_inv m0 N D 0 mrs -> shr_inv m0 N D (Z.pos p) (SpecFloat.iter_pos shr_1 p mrs).
Proof.
  intros H0. change (Z.pos p) with (0 + Z.pos p).
  apply (iter_pos_inv shr_1 (shr_inv m0 N D)); [apply shr_inv_step|lia|done].
Qed.

End Shift.

(** Rounding to nearest even adds at most one, and only on a set round
    bit. *)
Lemma round_shr_record mrs :
  round_nearest_even (shr_m mrs) (loc_of_shr_record mrs) = shr_m mrs \/
  (round_nearest_even (shr_m mrs) (loc_of_shr_record mrs) = shr_m mrs + 1 /\ shr_r mrs = true).
Proof.
  destruct mrs as [m [|] [|]]; cbn; auto.
  destruct (Z.even m); auto.
Qed.

Lemma fexp_normal (e : Z) : -1074 <= e - 53 -> fexp prec emax e = e - 53.
Proof. unfold fexp, SpecFloat.emin, prec, emax. lia. Qed.

(** The first shift of [binary_round_aux] on a mantissa of at least 53
    digits: it keeps 53 digits; rounding up means the number is at least
    half an ulp above. *)
Lemma shr_stage (mx : positive) (ex : Z) (lx : location) (N D : Z) :
  let d := Z.pos (digits2_pos mx) in
  53 <= d -> -1074 <= ex + (d - 53) -> 0 < D -> Z.pos mx * D <= N ->
  (shr_r (shr_record_of_loc (Z.pos mx) lx) = true -> (2 * Z.pos mx + 1) * D <= 2 * N) ->
  exists mrs,
    shr_fexp prec emax (Z.pos mx) ex lx = (mrs, ex + (d - 53)) /\
    shr_m mrs = Z.pos mx / 2 ^ (d - 53) /\
    (round_nearest_even (shr_m mrs) (loc_of_shr_record mrs) = shr_m mrs \/
     (round_nearest_even (shr_m mrs) (loc_of_shr_record mrs) = shr_m mrs + 1 /\
      (2 * shr_m mrs + 1) * 2 ^ (d - 53) * D <= 2 * N)).
Proof.
  intros d Hd He HD HN Hr.
  unfold shr_fexp. cbn [Zdigits2]. fold d.
  rewrite fexp_normal by lia.
  replace (d + ex - 53 - ex) with (d - 53) by lia.
  assert (Hinv0 : shr_inv (Z.pos mx) N D 0 (shr_record_of_loc (Z.pos mx) lx)).
  { split.
    - rewrite Z.pow_0_r, Z.div_1_r. by destruct lx as [|[| |]].
    - intros Hrt. rewrite Z.pow_0_r, Z.mul_1_r.
      assert (shr_m (shr_record_of_loc (Z.pos mx) lx) = Z.pos mx) as -> by (by destruct lx as [|[| |]]).
      auto. }
  destruct (d - 53) as [|p|p] eqn:Hk; [| |lia].
  - exists (shr_record_of_loc (Z.pos mx) lx). cbn [shr]. rewrite Z.add_0_r.
    destruct Hinv0 as [Hm Hr0]. split; [done|]. split; [done|].
    destruct (round_shr_record (shr_record_of_loc (Z.pos mx) lx)) as [?|[? ?]]; auto.
  - exists (SpecFloat.iter_pos shr_1 p (shr_record_of_loc (Z.pos mx) lx)). cbn [shr].
    pose proof (shr_inv_iter (Z.pos mx) N D ltac:(lia) HD HN p _ Hinv0) as [Hm Hr1].
    split; [done|]. split; [done|].
    destruct (round_shr_record (SpecFloat.iter_pos shr_1 p (shr_record_of_loc (Z.pos mx) lx)))
      as [?|[? ?]]; auto.
Qed.

Lemma shr_fexp_exact_small (m : positive) (e : Z) :
  2 ^ 52 <= Z.pos m < 2 ^ 53 -> -1074 <= e ->
  shr_fexp prec emax (Z.pos m) e loc_Exact = (Build_shr_record (Z.pos m) false false, e).
Proof.
  intros Hm He. unfold shr_fexp. cbn [Zdigits2].
  rewrite (digits2_pos_unique m 53) by (change (53 - 1) with 52; lia).
  rewrite fexp_normal by lia.
  replace (53 + e - 53 - e) with 0 by lia. done.
Qed.

(** [binary_round_aux] in the normal range: the result is a normal double
    whose mantissa is [mx / 2^k] or its successor (renormalised when it
    reaches [2^53]). *)
Lemma bra_normal (mx : positive) (ex : Z) (lx : location) (N D : Z) :
  let d := Z.pos (digits2_pos mx) in
  let k := d - 53 in
  let e1 := ex + k in
  let m1 := Z.pos mx / 2 ^ k in
  53 <= d -> -1074 <= e1 <= 970 -> 0 < D -> Z.pos mx * D <= N ->
  (shr_r (shr_record_of_loc (Z.pos mx) lx) = true -> (2 * Z.pos mx + 1) * D <= 2 * N) ->
  exists m2 m3 e3,
    binary_round_aux prec emax false (Z.pos mx) ex lx = S754_finite false m3 e3 /\
    2 ^ 52 <= Z.pos m3 < 2 ^ 53 /\ e1 <= e3 <= e1 + 1 /\
    Z.pos m3 * 2 ^ (e3 - e1) = m2 /\
    2 ^ 52 <= m1 < 2 ^ 53 /\
    (m2 = m1 \/ (m2 = m1 + 1 /\ (2 * m1 + 1) * 2 ^ k * D <= 2 * N)).
Proof.
  intros d k e1 m1 Hd He HD HN Hr.
  destruct (shr_stage mx ex lx N D Hd ltac:(fold d k e1; lia) HD HN Hr)
    as (mrs & Hshr & Hm & Hround).
  fold d k e1 in Hshr, Hm, Hround. fold m1 in Hm.
  assert (Hk : 0 <= k) by (unfold k; lia).
  assert (H2k : 0 < 2 ^ k) by (apply Z.pow_pos_nonneg; lia).
  assert (Hm1 : 2 ^ 52 <= m1 < 2 ^ 53).
  { pose proof (digits2_pos_bounds mx) as [Dlo Dhi]. fold d in Dlo, Dhi.
    replace (d - 1) with (52 + k) in Dlo by (unfold k; lia).
    replace d with (53 + k) in Dhi by (unfold k; lia).
    rewrite Z.pow_add_r in Dlo, Dhi by lia.
    unfold m1. split.
    - apply Z.div_le_lower_bound; lia.
    - apply Z.div_lt_upper_bound; lia. }
  unfold binary_round_aux. rewrite Hshr.
  set (m2 := round_nearest_even (shr_m mrs) (loc_of_shr_record mrs)) in *.
  rewrite Hm in Hround.
  assert (Hm2 : 2 ^ 52 <= m2 <= 2 ^ 53) by (destruct Hround as [->|[-> _]]; lia).
  destruct (Z_lt_le_dec m2 (2 ^ 53)) as [Hlt|Hge].
  - destruct m2 as [|q|q] eqn:Eq; [lia| |lia].
    rewrite shr_fexp_exact_small by lia. cbn [shr_m].
    assert ((e1 <=? emax - prec) = true) as -> by (apply Z.leb_le; unfold emax, prec; lia).
    exists (Z.pos q), q, e1. rewrite Z.sub_diag, Z.pow_0_r, Z.mul_1_r.
    repeat split; first [lia | done | auto].
  - assert (m2 = 2 ^ 53) as Em2 by lia. rewrite Em2.
    exists (2 ^ 53), (Z.to_pos (2 ^ 52)), (e1 + 1).
    replace (e1 + 1 - e1) with 1 by lia.
    split.
    + unfold shr_fexp. change (Zdigits2 (2 ^ 53)) with 54.
      rewrite fexp_normal by lia.
      replace (54 + e1 - 53 - e1) with 1 by lia.
      cbn [shr SpecFloat.iter_pos]. 
      change (shr_m (shr_1 (shr_record_of_loc (2 ^ 53) loc_Exact))) with (2 ^ 52).
      change (2 ^ 52) with (Z.pos (Z.to_pos (2 ^ 52))) at 1. cbv iota beta.
      assert ((e1 + 1 <=? emax - prec) = true) as -> by (apply Z.leb_le; unfold emax, prec; lia).
      done.
    + split; [done|]. split; [lia|]. split; [done|]. split; [done|].
      rewrite <- Em2. done.
Qed.

Lemma pow2_pos (e : Z) : (0 < powerRZ 2 e)%R.
Proof. apply powerRZ_lt. lra. Qed.

Lemma pow2_add (a b : Z) : powerRZ 2 (a + b) = (powerRZ 2 a * powerRZ 2 b)%R.
Proof. apply powerRZ_add. lra. Qed.

Lemma pow2_IZR (n : Z) : 0 <= n -> IZR (2 ^ n) = powerRZ 2 n.
Proof.
  intros Hn. destruct n as [|p|p]; [done| |lia].
  change (2 ^ Z.pos p) with (Z.pow_pos 2 p). apply Zpower_pos_powerRZ.
Qed.

Lemma pow2_le (a b : Z) : a <= b -> (powerRZ 2 a <= powerRZ 2 b)%R.
Proof.
  intros Hab. replace b with (a + (b - a)) by lia. rewrite pow2_add.
  rewrite <- (pow2_IZR (b - a)) by lia.
  assert (1 <= 2 ^ (b - a)) by (pose proof (Z.pow_pos_nonneg 2 (b - a)); lia).
  apply IZR_le in H. pose proof (pow2_pos a). nra.
Qed.

(** The same in real numbers, for the number [x = N / D * 2^ex]: the
    result is at most [x * (1 + 2^-53)], and at least every multiple of
    the ulp that is below [x]. *)
Lemma bra_R (mx : positive) (ex : Z) (lx : location) (N D : Z) :
  let d := Z.pos (digits2_pos mx) in
  let e1 := ex + (d - 53) in
  let x := (IZR N / IZR D * powerRZ 2 ex)%R in
  53 <= d -> -1074 <= e1 <= 970 -> 0 < D -> Z.pos mx * D <= N < (Z.pos mx + 1) * D ->
  (shr_r (shr_record_of_loc (Z.pos mx) lx) = true -> (2 * Z.pos mx + 1) * D <= 2 * N) ->
  exists r,
    binary_round_aux prec emax false (Z.pos mx) ex lx = r /\
    normal_float e1 (e1 + 1) r /\
    (SF2R r <= x * (1 + powerRZ 2 (-53)))%R /\
    (forall j, (IZR j * powerRZ 2 e1 <= x)%R -> (IZR j * powerRZ 2 e1 <= SF2R r)%R).
Proof.
  intros d e1 x Hd He HD [HN HN'] Hr.
  destruct (bra_normal mx ex lx N D Hd He HD HN Hr)
    as (m2 & m3 & e3 & Hres & Hm3 & He3 & Hm2 & Hm1 & Hcase).
  fold d e1 in Hm2, He3, Hcase, Hm1.
  set (k := d - 53) in *. set (m1 := Z.pos mx / 2 ^ k) in *.
  assert (Hk : 0 <= k) by (unfold k; lia).
  assert (H2k : 0 < 2 ^ k) by (apply Z.pow_pos_nonneg; lia).
  exists (S754_finite false m3 e3). split; [done|].
  split; [by exists m3, e3|].
  set (T := powerRZ 2 e1). set (P := powerRZ 2 ex). set (K := powerRZ 2 k).
  assert (HT : (0 < T)%R) by apply pow2_pos.
  assert (HP : (0 < P)%R) by apply pow2_pos.
  assert (HTPK : T = (P * K)%R) by (unfold T, P, K, e1; apply pow2_add).
  assert (HK : K = IZR (2 ^ k)) by (unfold K; by rewrite pow2_IZR).
  assert (HDr : (0 < IZR D)%R) by (by apply IZR_lt).
  assert (Hv : SF2R (S754_finite false m3 e3) = (IZR m2 * T)%R).
  { cbn [SF2R]. unfold F2R. rewrite <- Hm2, mult_IZR.
    rewrite pow2_IZR by lia. unfold T.
    replace e3 with (e3 - e1 + e1) at 1 by lia. rewrite pow2_add. ring. }
  rewrite Hv.
  assert (Hx : (x * IZR D = IZR N * P)%R) by (unfold x, P; field; lra).
  assert (Hm1x : (IZR m1 * T <= x)%R).
  { assert (m1 * 2 ^ k * D <= N).
    { assert (m1 * 2 ^ k <= Z.pos mx) by (unfold m1; rewrite Z.mul_comm; apply Z.mul_div_le; lia).
      nia. }
    apply IZR_le in H. rewrite !mult_IZR, <- HK in H.
    apply (Rmult_le_reg_r (IZR D)); [done|]. rewrite Hx, HTPK. nra. }
  assert (Hu : (powerRZ 2 52 * powerRZ 2 (-53) = / 2)%R).
  { rewrite <- pow2_add. change (52 + -53) with (-1). simpl. field. }
  assert (H52 : (powerRZ 2 52 <= IZR m1)%R).
  { rewrite <- pow2_IZR by lia. apply IZR_le. lia. }
  pose proof (pow2_pos (-53)) as Hu0. pose proof (pow2_pos 52) as H520.
  assert (Hm1T : (0 < IZR m1 * T)%R) by (apply Rmult_lt_0_compat; lra).
  assert (Hxu : (0 < x * powerRZ 2 (-53))%R) by (apply Rmult_lt_0_compat; lra).
  split.
  - destruct Hcase as [->|[-> Hhalf]].
    + lra.
    + apply IZR_le in Hhalf. rewrite !mult_IZR, plus_IZR, mult_IZR, <- HK in Hhalf.
      assert (((IZR m1 + / 2) * T <= x)%R).
      { apply (Rmult_le_reg_r (IZR D)); [done|]. rewrite Hx, HTPK. nra. }
      rewrite plus_IZR.
      assert ((T * / 2 <= x * powerRZ 2 (-53))%R).
      { rewrite <- Hu. nra. }
      nra.
  - intros j Hj.
    assert (Hjm : j <= m1).
    { unfold m1. assert (Z.pos mx = N / D) as ->.
      { apply Z.div_unique with (N - Z.pos mx * D); lia. }
      rewrite Z.div_div by lia.
      apply Z.div_le_lower_bound; [lia|].
      apply le_IZR. rewrite !mult_IZR, <- HK.
      assert ((IZR j * T * IZR D <= x * IZR D)%R) by nra.
      rewrite Hx, HTPK in H. nra. }
    assert (m1 <= m2) by (destruct Hcase as [->|[-> _]]; lia).
    apply IZR_le in Hjm. apply IZR_le in H. nra.
Qed.

Lemma digits2_pos_range (p : positive) (a b : Z) :
  0 <= a -> 2 ^ a <= Z.pos p < 2 ^ b -> a + 1 <= Z.pos (digits2_pos p) <= b.
Proof.
  intros Ha [Hlo Hhi]. pose proof (digits2_pos_bounds p) as [Dlo Dhi].
  set (d := Z.pos (digits2_pos p)) in *. split.
  - destruct (Z_lt_le_dec a d) as [|Hle]; [lia|].
    assert (2 ^ d <= 2 ^ a) by (apply Z.pow_le_mono_r; lia). lia.
  - destruct (Z_lt_le_dec b d) as [Hlt|]; [|lia].
    assert (2 ^ b <= 2 ^ (d - 1)) by (apply Z.pow_le_mono_r; lia). lia.
Qed.

Lemma pos_iter_xO (p q : positive) : Z.pos (Pos.iter xO p q) = Z.pos p * 2 ^ Z.pos q.
Proof.
  induction q as [|q IH] using Pos.peano_ind.
  - cbn. lia.
  - rewrite Pos.iter_succ, Pos2Z.inj_xO, IH, Pos2Z.inj_succ, Z.pow_succ_r by lia. lia.
Qed.

(** A normalised mantissa is not changed by rounding. *)
Lemma bra_exact (m : positive) (e : Z) :
  2 ^ 52 <= Z.pos m < 2 ^ 53 -> -1074 <= e <= 970 ->
  binary_round_aux prec emax false (Z.pos m) e loc_Exact = S754_finite false m e.
Proof.
  intros Hm He.
  assert (Hd : Z.pos (digits2_pos m) = 53) by (apply digits2_pos_unique; change (53 - 1) with 52; lia).
  destruct (bra_normal m e loc_Exact (Z.pos m) 1) as (m2 & m3 & e3 & Hres & Hm3 & He3 & Hm2 & Hm1 & Hcase);
    rewrite ?Hd; try lia.
  { cbn. discriminate. }
  rewrite Hd in *. change (53 - 53) with 0 in *. rewrite Z.add_0_r in *.
  rewrite Z.pow_0_r, Z.div_1_r in *.
  destruct Hcase as [->|[_ ?]]; [|lia].
  assert (e3 = e).
  { destruct (Z.eq_dec e3 e) as [|Hne]; [done|]. replace (e3 - e) with 1 in Hm2 by lia.
    change (2 ^ 1) with 2 in Hm2. lia. }
  subst e3. rewrite Z.sub_diag, Z.pow_0_r, Z.mul_1_r in Hm2.
  rewrite Hres. f_equal. lia.
Qed.

(** [float(z)] is exact for [0 < z < 2^53]. *)
Lemma float_of_int_spec (z : Z) :
  0 < z < 2 ^ 53 ->
  exists m e, float_of_int z = S754_finite false m e /\
    2 ^ 52 <= Z.pos m < 2 ^ 53 /\ -52 <= e <= 0 /\ Z.pos m = z * 2 ^ (- e).
Proof.
  intros [Hz0 Hz]. destruct z as [|p|p]; [lia| |lia].
  unfold float_of_int, binary_normalize, binary_round.
  pose proof (digits2_pos_bounds p) as [Dlo Dhi].
  assert (Hd : 1 <= Z.pos (digits2_pos p) <= 53).
  { split; [lia|]. apply (digits2_pos_range p 0 53); [lia|]. rewrite Z.pow_0_r. lia. }
  set (d := Z.pos (digits2_pos p)) in *.
  rewrite fexp_normal by lia. rewrite Z.add_0_r.
  unfold shl_align. rewrite Z.sub_0_r.
  destruct (d - 53) as [|q|q] eqn:Hq; [| lia |].
  - assert (d = 53) as Ed by lia. rewrite Ed in *. change (53 - 1) with 52 in Dlo.
    rewrite bra_exact by lia.
    exists p, 0. repeat split; first [lia | done].
  - assert (Hq' : Z.pos q = 53 - d) by lia.
    assert (Hmz : Z.pos (Pos.iter xO p q) = Z.pos p * 2 ^ (53 - d)) by (rewrite pos_iter_xO, Hq'; done).
    assert (H2 : 2 ^ (d - 1) * 2 ^ (53 - d) = 2 ^ 52) by (rewrite <- Z.pow_add_r by lia; f_equal; lia).
    assert (H3 : 2 ^ d * 2 ^ (53 - d) = 2 ^ 53) by (rewrite <- Z.pow_add_r by lia; f_equal; lia).
    assert (0 < 2 ^ (53 - d)) by (apply Z.pow_pos_nonneg; lia).
    rewrite bra_exact by nia.
    exists (Pos.iter xO p q), (Z.neg q).
    split; [done|]. split; [nia|]. split; [lia|].
    rewrite Hmz. f_equal. f_equal. lia.
Qed.

Lemma normal_float_SF2R (lo hi : Z) (f : spec_float) :
  normal_float lo hi f -> (0 < SF2R f)%R.
Proof.
  intros (m & e & -> & Hm & _). cbn. unfold F2R.
  apply Rmult_lt_0_compat; [apply IZR_lt; lia | apply pow2_pos].
Qed.

Lemma normal_float_weaken (lo hi lo' hi' : Z) (f : spec_float) :
  lo' <= lo -> hi <= hi' -> normal_float lo hi f -> normal_float lo' hi' f.
Proof. intros ? ? (m & e & -> & Hm & He). exists m, e. repeat split; lia || done. Qed.

Lemma float_of_int_normal (z : Z) :
  0 < z < 2 ^ 53 -> normal_float (-52) 0 (float_of_int z) /\ SF2R (float_of_int z) = IZR z.
Proof.
  intros Hz. destruct (float_of_int_spec z Hz) as (m & e & -> & Hm & He & Hme). split.
  - exists m, e. done.
  - cbn. unfold F2R. rewrite Hme, mult_IZR, pow2_IZR by lia.
    rewrite Rmult_assoc, <- pow2_add. replace (- e + e) with 0 by lia. cbn. ring.
Qed.

(** Product of two normal doubles: relative error at most [2^-53]
    upward. *)
Lemma fmul_spec (a b : spec_float) (la ha lb hb : Z) :
  normal_float la ha a -> normal_float lb hb b ->
  -1074 <= la + lb + 52 -> ha + hb + 53 <= 970 ->
  normal_float (la + lb + 52) (ha + hb + 54) (SFmul prec emax a b) /\
  (SF2R (SFmul prec emax a b) <= SF2R a * SF2R b * (1 + powerRZ 2 (-53)))%R.
Proof.
  intros (ma & ea & -> & Hma & Hea) (mb & eb & -> & Hmb & Heb) Hlo Hhi.
  cbn [SFmul xorb].
  assert (Hprod : 2 ^ 104 <= Z.pos (ma * mb) < 2 ^ 106).
  { rewrite Pos2Z.inj_mul. change (2 ^ 104) with (2 ^ 52 * 2 ^ 52).
    change (2 ^ 106) with (2 ^ 53 * 2 ^ 53). nia. }
  pose proof (digits2_pos_range (ma * mb) 104 106 ltac:(lia) Hprod) as Hd.
  destruct (bra_R (ma * mb) (ea + eb) loc_Exact (Z.pos (ma * mb)) 1)
    as (r & Hr & Hnorm & Hub & _); try lia.
  { cbn. discriminate. }
  rewrite Hr. split.
  - eapply normal_float_weaken; [| |exact Hnorm]; lia.
  - eapply Rle_trans; [exact Hub|]. apply Req_le. cbn [SF2R]. unfold F2R.
    rewrite Pos2Z.inj_mul, mult_IZR, pow2_add. field.
Qed.

(** The location computed from a remainder sets the round bit only from
    half the divisor on. *)
Lemma new_location_round (mb q r : Z) :
  0 < mb -> 0 <= r < mb ->
  shr_r (shr_record_of_loc q (new_location mb r)) = true -> mb <= 2 * r.
Proof.
  intros Hmb Hr. unfold new_location, new_location_even, new_location_odd.
  destruct (Z.even mb); destruct (Z.eqb_spec r 0) as [|_]; cbn; try discriminate.
  - destruct (Z.compare_spec (2 * r) mb); cbn; try discriminate; lia.
  - destruct (Z.compare_spec (2 * r + 1) mb); cbn; try discriminate; lia.
Qed.

(** Quotient of two normal doubles: relative error at most [2^-53]
    upward, and never below an integer that the exact quotient reaches. *)
Lemma fdiv_spec (a b : spec_float) (la ha lb hb : Z) :
  normal_float la ha a -> normal_float lb hb b ->
  -1074 <= la - hb - 53 -> ha - lb - 52 <= 970 ->
  normal_float (la - hb - 53) (ha - lb - 51) (SFdiv prec emax a b) /\
  (SF2R (SFdiv prec emax a b) <= SF2R a / SF2R b * (1 + powerRZ 2 (-53)))%R /\
  (ha - lb - 52 <= 0 ->
   forall K : Z, (IZR K <= SF2R a / SF2R b)%R -> (IZR K <= SF2R (SFdiv prec emax a b))%R).
Proof.
  intros (ma & ea & -> & Hma & Hea) (mb & eb & -> & Hmb & Heb) Hlo Hhi.
  cbn [SFdiv xorb]. unfold SFdiv_core_binary. cbn [Zdigits2].
  rewrite (digits2_pos_unique ma 53), (digits2_pos_unique mb 53)
    by (change (53 - 1) with 52; lia).
  replace (53 + ea - (53 + eb)) with (ea - eb) by lia.
  rewrite fexp_normal by lia.
  rewrite Z.min_l by lia.
  replace (ea - eb - (ea - eb - 53)) with 53 by lia.
  rewrite Z.shiftl_mul_pow2 by lia.
  set (N := Z.pos ma * 2 ^ 53).
  pose proof (Z_div_mod N (Z.pos mb) ltac:(lia)) as Hdm.
  destruct (Z.div_eucl N (Z.pos mb)) as [q r]. destruct Hdm as [HN Hr].
  assert (Hq : 2 ^ 52 <= q < 2 ^ 54).
  { unfold N in HN. change (2 ^ 54) with (2 * 2 ^ 53). change (2 ^ 53) with (2 * 2 ^ 52) in *. nia. }
  destruct q as [|q|q]; [lia| |lia].
  pose proof (digits2_pos_range q 52 54 ltac:(lia) Hq) as Hd.
  destruct (bra_R q (ea - eb - 53) (new_location (Z.pos mb) r) N (Z.pos mb))
    as (res & Hres & Hnorm & Hub & Hlb); try lia.
  { intros Hbit. apply new_location_round in Hbit; lia. }
  rewrite Hres.
  set (d := Z.pos (digits2_pos q)) in *.
  assert (Hx : (IZR N / IZR (Z.pos mb) * powerRZ 2 (ea - eb - 53)
                = F2R (Z.pos ma) ea / F2R (Z.pos mb) eb)%R).
  { unfold N, F2R. rewrite mult_IZR, pow2_IZR by lia.
    replace (ea - eb - 53) with (ea + (- eb + -53)) by lia.
    rewrite !pow2_add.
    assert (powerRZ 2 (- eb) * powerRZ 2 eb = 1)%R as Hinv.
    { rewrite <- pow2_add. replace (- eb + eb) with 0 by lia. done. }
    assert (powerRZ 2 53 * powerRZ 2 (-53) = 1)%R as Hinv'.
    { rewrite <- pow2_add. done. }
    pose proof (pow2_pos eb). pose proof (pow2_pos (- eb)).
    assert (0 < IZR (Z.pos mb))%R by (apply IZR_lt; lia).
    apply (Rmult_eq_reg_r (IZR (Z.pos mb) * powerRZ 2 eb)); [|nra].
    field_simplify; [|nra|nra].
    transitivity (IZR (Z.pos ma) * powerRZ 2 ea * (powerRZ 2 53 * powerRZ 2 (-53))
                  * (powerRZ 2 (- eb) * powerRZ 2 eb))%R; [ring|].
    rewrite Hinv, Hinv'. ring. }
  cbn [SF2R]. rewrite Hx in Hub, Hlb.
  split; [|split].
  - eapply normal_float_weaken; [| |exact Hnorm]; lia.
  - exact Hub.
  - intros Hneg K HK.
    set (e1 := ea - eb - 53 + (d - 53)) in *.
    assert (He1 : e1 <= 0) by (unfold e1; lia).
    assert (HKj : (IZR (K * 2 ^ (- e1)) * powerRZ 2 e1 = IZR K)%R).
    { rewrite mult_IZR, pow2_IZR by lia. rewrite Rmult_assoc, <- pow2_add.
      replace (- e1 + e1) with 0 by lia. cbn. ring. }
    specialize (Hlb (K * 2 ^ (- e1))). rewrite HKj in Hlb. auto.
Qed.

(** [<] on normal doubles is [<] on their values. *)
Lemma fltb_spec (a b : spec_float) (la ha lb hb : Z) :
  normal_float la ha a -> normal_float lb hb b ->
  if SFltb a b then (SF2R a < SF2R b)%R else (SF2R b <= SF2R a)%R.
Proof.
  intros (ma & ea & -> & Hma & Hea) (mb & eb & -> & Hmb & Heb).
  unfold SFltb, SFcompare. cbn [SF2R]. unfold F2R.
  assert (Hstep : forall (m m' : positive) (e e' : Z),
            Z.pos m < 2 ^ 53 -> 2 ^ 52 <= Z.pos m' -> e < e' ->
            (IZR (Z.pos m) * powerRZ 2 e < IZR (Z.pos m') * powerRZ 2 e')%R).
  { intros m m' e e' Hm Hm' He.
    pose proof (pow2_pos e) as He0.
    assert (H1 : (powerRZ 2 (e + 1) <= powerRZ 2 e')%R) by (apply pow2_le; lia).
    rewrite pow2_add in H1. change (powerRZ 2 1) with (2 * 1)%R in H1.
    apply IZR_lt in Hm. apply IZR_le in Hm'.
    change (2 ^ 53) with (2 * 2 ^ 52) in Hm. rewrite mult_IZR in Hm.
    assert (0 < IZR (2 ^ 52))%R by (apply IZR_lt; lia).
    nra. }
  destruct (Z.compare_spec ea eb) as [->|Hlt|Hgt].
  - rewrite Pos.compare_cont_spec. cbn [Pos.switch_Eq].
    pose proof (pow2_pos eb).
    destruct (Pos.compare_spec ma mb) as [->|Hlt|Hgt]; cbn.
    + lra.
    + assert (IZR (Z.pos ma) < IZR (Z.pos mb))%R by (apply IZR_lt; lia). nra.
    + assert (IZR (Z.pos mb) < IZR (Z.pos ma))%R by (apply IZR_lt; lia). nra.
  - cbn. apply Hstep; lia.
  - cbn. apply Rlt_le. apply Hstep; lia.
Qed.

(** Truncation is the integer part. *)
Lemma float_trunc_spec (m : positive) (e : Z) :
  exists z, float_trunc (S754_finite false m e) = Some z /\
    (IZR z <= F2R (Z.pos m) e < IZR z + 1)%R.
Proof.
  cbn [float_trunc]. unfold F2R. destruct (Z.leb_spec 0 e) as [He|He].
  - exists (Z.pos m * 2 ^ e). split; [done|].
    rewrite mult_IZR, pow2_IZR by lia. lra.
  - exists (Z.pos m / 2 ^ (- e)). split; [done|].
    assert (H2 : 0 < 2 ^ (- e)) by (apply Z.pow_pos_nonneg; lia).
    pose proof (Z.mul_div_le (Z.pos m) (2 ^ (- e)) H2) as Hlo.
    pose proof (Z.mul_succ_div_gt (Z.pos m) (2 ^ (- e)) H2) as Hhi.
    set (z := Z.pos m / 2 ^ (- e)) in *.
    apply IZR_le in Hlo. apply IZR_lt in Hhi. unfold Z.succ in Hhi.
    rewrite mult_IZR, pow2_IZR in Hlo, Hhi by lia. rewrite plus_IZR in Hhi.
    assert (Hinv : (powerRZ 2 (- e) * powerRZ 2 e = 1)%R).
    { rewrite <- pow2_add. replace (- e + e) with 0 by lia. done. }
    pose proof (pow2_pos e). pose proof (pow2_pos (- e)).
    split.
    + apply (Rmult_le_reg_r (powerRZ 2 (- e))); [done|].
      rewrite Rmult_assoc, (Rmult_comm (powerRZ 2 e)), Hinv. nra.
    + apply (Rmult_lt_reg_r (powerRZ 2 (- e))); [done|].
      rewrite Rmult_assoc, (Rmult_comm (powerRZ 2 e)), Hinv. nra.
Qed.

Lemma float_trunc_normal (lo hi : Z) (f : spec_float) :
  normal_float lo hi f ->
  exists z, float_trunc f = Some z /\ (IZR z <= SF2R f < IZR z + 1)%R.
Proof. intros (m & e & -> & _). apply float_trunc_spec. Qed.

(** * Python arithmetic on exact operands *)

Lemma u53_bounds : (0 < u53)%R /\ (u53 * IZR (2 ^ 53) = 1)%R.
Proof.
  unfold u53. split; [apply pow2_pos|].
  rewrite pow2_IZR by lia. rewrite <- pow2_add. done.
Qed.

Lemma one_normal : normal_float (-52) (-52) one /\ SF2R one = 1%R.
Proof.
  split.
  - exists 4503599627370496%positive, (-52). repeat split; lia || done.
  - cbn. unfold F2R. change 4503599627370496 with (2 ^ 52).
    rewrite pow2_IZR by lia. rewrite <- pow2_add. done.
Qed.

Lemma IZR_floor_unique (z k : Z) (v : R) :
  (IZR z <= v < IZR z + 1)%R -> (IZR k <= v < IZR k + 1)%R -> z = k.
Proof.
  intros [Hz1 Hz2] [Hk1 Hk2].
  assert (z < k + 1) by (apply lt_IZR; rewrite plus_IZR; lra).
  assert (k < z + 1) by (apply lt_IZR; rewrite plus_IZR; lra).
  lia.
Qed.

Lemma int_of_float_normal (lo hi : Z) (f : float) :
  normal_float lo hi f ->
  exists z, int_of_float f = Ok z /\ (IZR z <= SF2R f < IZR z + 1)%R.
Proof.
  intros Hf. destruct (float_trunc_normal lo hi f Hf) as (z & Hz & Hb).
  exists z. split; [|done].
  destruct Hf as (m & e & -> & _). unfold int_of_float. by rewrite Hz.
Qed.

(** [int(a / b)] is the floor quotient, for operands that a double holds
    exactly. *)
Lemma truediv_floor (a b : Z) :
  0 <= a < 2 ^ 53 -> 0 < b < 2 ^ 53 ->
  (f ← truediv a b; int_of_float f) = Ok (a / b).
Proof.
  intros Ha Hb. unfold truediv.
  destruct (Z.eqb_spec b 0) as [|_]; [lia|].
  cbn [mbind result_bind rbind].
  destruct (float_of_int_normal b Hb) as [Hfb Hvb].
  destruct (Z.eq_dec a 0) as [->|Hne].
  - destruct Hfb as (mb & eb & -> & _). cbn. rewrite Z.div_0_l by lia. done.
  - destruct (float_of_int_normal a ltac:(lia)) as [Hfa Hva].
    destruct (fdiv_spec _ _ _ _ _ _ Hfa Hfb ltac:(lia) ltac:(lia)) as (Hq & Hub & Hlb).
    destruct (int_of_float_normal _ _ _ Hq) as (z & Hz & Hzb).
    rewrite Hz. f_equal.
    eapply IZR_floor_unique; [exact Hzb|].
    rewrite Hva, Hvb in *.
    assert (HA : (0 < IZR a)%R) by (apply IZR_lt; lia).
    assert (HB : (0 < IZR b)%R) by (apply IZR_lt; lia).
    pose proof (Z.mul_div_le a b ltac:(lia)) as Hlo.
    pose proof (Z.mul_succ_div_gt a b ltac:(lia)) as Hhi.
    set (K := a / b) in *.
    assert (Hhi' : a <= b * K + b - 1) by lia.
    apply IZR_le in Hlo, Hhi'. rewrite !mult_IZR in Hlo.
    rewrite minus_IZR, plus_IZR, mult_IZR in Hhi'.
    split.
    + apply Hlb; [lia|]. apply (Rmult_le_reg_r (IZR b)); [done|].
      unfold Rdiv. rewrite Rmult_assoc, Rinv_l by lra. lra.
    + eapply Rle_lt_trans; [exact Hub|].
      destruct u53_bounds as [Hu0 Hu1]. fold u53.
      assert (Hau : (IZR a * u53 < 1)%R).
      { assert (IZR a < IZR (2 ^ 53))%R by (apply IZR_lt; lia). nra. }
      apply (Rmult_lt_reg_r (IZR b)); [done|].
      replace (IZR a / IZR b * (1 + u53) * IZR b)%R with (IZR a * (1 + u53))%R
        by (field; lra).
      nra.
Qed.

(** [min] on normal doubles. *)
Lemma float_min_spec (a b : float) la ha lb hb :
  normal_float la ha a -> normal_float lb hb b ->
  (float_min a b = a \/ float_min a b = b) /\
  (SF2R (float_min a b) <= SF2R a)%R /\ (SF2R (float_min a b) <= SF2R b)%R.
Proof.
  intros Ha Hb. unfold float_min, float_lt.
  pose proof (fltb_spec b a _ _ _ _ Hb Ha) as H.
  destruct (SFltb b a); split; auto; lra.
Qed.

(** A quotient [m / w] with [0 < m < w < 2^31]: a normal double below 1. *)
Lemma ratio_spec (m w : Z) :
  0 < m -> m < w -> w < 2 ^ 31 ->
  let q := SFdiv prec emax (float_of_int m) (float_of_int w) in
  normal_float (-105) 1 q /\
  (SF2R q <= IZR m / IZR w * (1 + u53))%R /\ (SF2R q < 1)%R.
Proof.
  intros Hm Hmw Hw q.
  destruct (float_of_int_normal m ltac:(lia)) as [Hfm Hvm].
  destruct (float_of_int_normal w ltac:(lia)) as [Hfw Hvw].
  destruct (fdiv_spec _ _ _ _ _ _ Hfm Hfw ltac:(lia) ltac:(lia)) as (Hq & Hub & _).
  fold q in Hq, Hub. rewrite Hvm, Hvw in Hub. fold u53 in Hub.
  split; [done|]. split; [done|].
  eapply Rle_lt_trans; [exact Hub|].
  destruct u53_bounds as [Hu0 Hu1].
  assert (HW : (0 < IZR w)%R) by (apply IZR_lt; lia).
  assert (HM : (IZR m <= IZR w - 1)%R) by (rewrite <- minus_IZR; apply IZR_le; lia).
  assert (HM0 : (0 < IZR m)%R) by (apply IZR_lt; lia).
  assert (Hmu : (IZR m * u53 < 1)%R).
  { assert (IZR m < IZR (2 ^ 53))%R by (apply IZR_lt; lia). nra. }
  apply (Rmult_lt_reg_r (IZR w)); [done|].
  replace (IZR m / IZR w * (1 + u53) * IZR w)%R with (IZR m * (1 + u53))%R
    by (field; lra).
  nra.
Qed.

(** [int(w * s)] for a normal scale [s]: at most [w * s * (1 + u)]. *)
Lemma mul_trunc_spec (w : Z) (s : float) :
  0 < w < 2 ^ 31 -> normal_float (-105) 1 s ->
  exists z, int_of_float (mul_int_float w s) = Ok z /\
    (IZR z <= IZR w * SF2R s * (1 + u53))%R.
Proof.
  intros Hw Hs. unfold mul_int_float.
  destruct (float_of_int_normal w ltac:(lia)) as [Hfw Hvw].
  destruct (fmul_spec _ _ _ _ _ _ Hfw Hs ltac:(lia) ltac:(lia)) as (Hp & Hub).
  destruct (int_of_float_normal _ _ _ Hp) as (z & Hz & Hzb).
  exists z. split; [done|]. rewrite Hvw in Hub. fold u53 in Hub. lra.
Qed.

(** The scale factor computed by the clamp of [_apply_resize]. *)
Lemma clamp_scale_spec (W H mw mh : Z) :
  0 < W < 2 ^ 31 -> 0 < H < 2 ^ 31 ->
  let sc1 := if ((0 <? mw) && (mw <? W))%bool
             then float_min one (SFdiv prec emax (float_of_int mw) (float_of_int W))
             else one in
  let sc2 := if ((0 <? mh) && (mh <? H))%bool
             then float_min sc1 (SFdiv prec emax (float_of_int mh) (float_of_int H))
             else sc1 in
  normal_float (-105) 1 sc2 /\
  (SF2R sc2 <= 1)%R /\
  (0 < mw < W -> (SF2R sc2 <= IZR mw / IZR W * (1 + u53))%R /\ float_lt sc2 one = true) /\
  (0 < mh < H -> (SF2R sc2 <= IZR mh / IZR H * (1 + u53))%R /\ float_lt sc2 one = true).
Proof.
  intros HW HH sc1 sc2.
  destruct one_normal as [H1 Hv1].
  assert (H1' : normal_float (-105) 1 one) by (eapply normal_float_weaken; [| |exact H1]; lia).
  assert (Hlt : forall s, normal_float (-105) 1 s -> (SF2R s < 1)%R -> float_lt s one = true).
  { intros s Hs Hv. unfold float_lt.
    pose proof (fltb_spec s one _ _ _ _ Hs H1) as Hc.
    destruct (SFltb s one); [done|]. lra. }
  assert (Hsc1 : normal_float (-105) 1 sc1 /\ (SF2R sc1 <= 1)%R /\
                 (0 < mw < W -> (SF2R sc1 <= IZR mw / IZR W * (1 + u53))%R /\ (SF2R sc1 < 1)%R)).
  { unfold sc1. destruct (Z.ltb_spec 0 mw) as [Hmw|Hmw]; cbn [andb].
    - destruct (Z.ltb_spec mw W) as [Hlt'|Hge].
      + destruct (ratio_spec mw W Hmw Hlt' ltac:(lia)) as (Hq & Hub & Hq1).
        destruct (float_min_spec one _ _ _ _ _ H1' Hq) as (Hcase & Hle1 & Hle2).
        split; [destruct Hcase as [-> | ->]; done|].
        split; [lra|]. intros _. split; lra.
      + split; [done|]. split; [lra|]. lia.
    - split; [done|]. split; [lra|]. lia. }
  destruct Hsc1 as (Hn1 & Hle1 & Hmw1).
  assert (Hsc2 : normal_float (-105) 1 sc2 /\ (SF2R sc2 <= SF2R sc1)%R /\
                 (0 < mh < H -> (SF2R sc2 <= IZR mh / IZR H * (1 + u53))%R /\ (SF2R sc2 < 1)%R)).
  { unfold sc2. destruct (Z.ltb_spec 0 mh) as [Hmh|Hmh]; cbn [andb].
    - destruct (Z.ltb_spec mh H) as [Hlt'|Hge].
      + destruct (ratio_spec mh H Hmh Hlt' ltac:(lia)) as (Hq & Hub & Hq1).
        destruct (float_min_spec sc1 _ _ _ _ _ Hn1 Hq) as (Hcase & Hle & Hle2).
        split; [destruct Hcase as [-> | ->]; done|].
        split; [lra|]. intros _. split; lra.
      + split; [done|]. split; [lra|]. lia.
    - split; [done|]. split; [lra|]. lia. }
  destruct Hsc2 as (Hn2 & Hle2 & Hmh2).
  split; [done|]. split; [lra|]. split.
  - intros Hmw. destruct (Hmw1 Hmw) as [Ha Hb]. split; [lra|]. apply Hlt; [done|lra].
  - intros Hmh. destruct (Hmh2 Hmh) as [Ha Hb]. split; [lra|]. apply Hlt; [done|lra].
Qed.

(** [int(w * s)] against the bounds, for the scale of the clamp. *)
Lemma clamp_axis_bound (w m z : Z) (s : float) :
  0 < w < 2 ^ 31 -> normal_float (-105) 1 s -> float_lt s one = true ->
  (0 < m < w -> (SF2R s <= IZR m / IZR w * (1 + u53))%R) ->
  int_of_float (mul_int_float w s) = Ok z ->
  z <= w /\ (0 < m -> z <= m).
Proof.
  intros Hw Hs Hlt Hm Hz.
  destruct (mul_trunc_spec w s Hw Hs) as (z' & Hz' & Hub).
  rewrite Hz in Hz'. injection Hz' as <-.
  destruct one_normal as [H1 Hv1].
  pose proof (fltb_spec s one _ _ _ _ Hs H1) as Hc.
  unfold float_lt in Hlt. rewrite Hlt, Hv1 in Hc.
  pose proof (normal_float_SF2R _ _ _ Hs) as Hs0.
  destruct u53_bounds as [Hu0 Hu1].
  assert (HW : (0 < IZR w)%R) by (apply IZR_lt; lia).
  assert (Hwu : (IZR w * u53 < / 4)%R).
  { assert (IZR w < IZR (2 ^ 31))%R by (apply IZR_lt; lia).
    change (2 ^ 53) with (2 ^ 31 * 2 ^ 22) in Hu1. rewrite mult_IZR in Hu1.
    assert (4 <= IZR (2 ^ 22))%R by (apply IZR_le; lia).
    assert (0 < IZR (2 ^ 31))%R by (apply IZR_lt; lia).
    nra. }
  assert (Hzw : z <= w).
  { assert (z < w + 1); [|lia]. apply lt_IZR. rewrite plus_IZR. nra. }
  split; [done|]. intros Hm0.
  destruct (Z_lt_le_dec m w) as [Hlt'|Hge]; [|lia].
  specialize (Hm ltac:(lia)).
  assert (HM : (0 < IZR m)%R) by (apply IZR_lt; lia).
  assert (HMW : (IZR m < IZR w)%R) by (apply IZR_lt; lia).
  assert (Hws : (IZR w * SF2R s <= IZR m * (1 + u53))%R).
  { replace (IZR m * (1 + u53))%R with (IZR w * (IZR m / IZR w * (1 + u53)))%R
      by (field; lra).
    apply Rmult_le_compat_l; lra. }
  assert (z < m + 1); [|lia]. apply lt_IZR. rewrite plus_IZR.
  assert (Hmu : (IZR m * u53 < / 4)%R) by nra.
  assert (u53 < 1)%R.
  { assert (1 < IZR (2 ^ 53))%R by (apply IZR_lt; lia). nra. }
  nra.
Qed.

(** * The resize transform of delta_pix.py *)

Section Resize.
Context {pil : Pillow} {os : Os}.

Lemma percent_axis (w pct : Z) :
  0 < w < 2 ^ 31 -> 1 <= pct <= 100 ->
  (fw ← truediv (w * pct) 100; int_of_float fw) = Ok (w * pct / 100).
Proof. intros Hw Hp. apply truediv_floor; [|lia]. change (2 ^ 53) with (2 ^ 31 * 4194304). nia. Qed.

(** The percentage step alone. *)
Lemma apply_resize_percent (img : Image) (pct : Z) :
  0 < (im_size img).1 < 2 ^ 31 -> 0 < (im_size img).2 < 2 ^ 31 -> 1 <= pct <= 100 ->
  _apply_resize img pct 0 0 =
    if pct =? 100 then Ok img
    else Image_resize img (Z.max 1 ((im_size img).1 * pct / 100),
                           Z.max 1 ((im_size img).2 * pct / 100)).
Proof.
  intros Hw Hh Hp. unfold _apply_resize.
  destruct (im_size img) as [w h] eqn:Hsz. cbn [fst snd] in *.
  destruct (Z.eqb_spec pct 100) as [->|Hne]; cbn [negb].
  - reflexivity.
  - pose proof (percent_axis w pct Hw Hp) as Ew.
    pose proof (percent_axis h pct Hh Hp) as Eh.
    unfold mbind, result_bind, rbind in *.
    destruct (truediv (w * pct) 100) as [fw|e]; [|discriminate].
    rewrite Ew.
    destruct (truediv (h * pct) 100) as [fh|e]; [|discriminate].
    rewrite Eh.
    destruct (Image_resize img _) as [img1|e]; [|done].
    cbn. by destruct (im_size img1).
Qed.

(** Percentage first, then the clamp. *)
Lemma apply_resize_split (img : Image) (pct max_w max_h : Z) :
  _apply_resize img pct max_w max_h =
    (img1 ← _apply_resize img pct 0 0; _apply_resize img1 100 max_w max_h).
Proof.
  unfold _apply_resize. unfold mbind, result_bind, rbind.
  destruct (negb (pct =? 100)); cbn.
  - destruct (im_size img) as [w h].
    destruct (truediv (w * pct) 100) as [fw|e]; [|done].
    destruct (int_of_float fw) as [iw|e]; [|done].
    destruct (truediv (h * pct) 100) as [fh|e]; [|done].
    destruct (int_of_float fh) as [ih|e]; [|done].
    destruct (Image_resize img _) as [img1|e]; [|done].
    by destruct (im_size img1).
  - by destruct (im_size img).
Qed.

Lemma Image_resize_ok (im im' : Image) (size : Z * Z) :
  Image_resize im size = Ok im' -> im_size im' = size /\ im_mode im' = im_mode im.
Proof.
  unfold Image_resize, mbind, result_bind, rbind.
  destruct (pil_resample im size); [|discriminate]. by intros [= <-].
Qed.

Lemma Image_convert_ok (im im' : Image) (mode : string) :
  Image_convert im mode = Ok im' -> im_mode im' = mode /\ im_size im' = im_size im.
Proof.
  unfold Image_convert, mbind, result_bind, rbind.
  destruct (pil_convert_data im mode); [|discriminate]. by intros [= <-].
Qed.

Lemma truediv_ok (a b : Z) :
  b <> 0 -> truediv a b = Ok (SFdiv prec emax (float_of_int a) (float_of_int b)).
Proof. intros Hb. unfold truediv. by destruct (Z.eqb_spec b 0). Qed.

(** The clamp alone: what it returns is the image itself, or one resize
    to [(int(W * scale), int(H * scale))] for a single [scale < 1.0]. *)
Lemma apply_resize_clamp_shape (img1 : Image) (max_w max_h : Z) :
  0 < (im_size img1).1 -> 0 < (im_size img1).2 ->
  _apply_resize img1 100 max_w max_h = Ok img1 \/
  exists scale : float,
    float_lt scale one = true /\
    _apply_resize img1 100 max_w max_h =
      (w' ← int_of_float (mul_int_float (im_size img1).1 scale);
       h' ← int_of_float (mul_int_float (im_size img1).2 scale);
       Image_resize img1 (w', h')).
Proof.
  intros HW HH. unfold _apply_resize.
  change (negb (100 =? 100)) with false. cbv iota.
  unfold mbind, result_bind, rbind.
  destruct (im_size img1) as [W H] eqn:Hsz. cbn [fst snd] in *.
  destruct ((0 <? max_w) || (0 <? max_h))%bool; [|by left].
  rewrite (truediv_ok max_w W), (truediv_ok max_h H) by lia.
  set (sc1 := if ((0 <? max_w) && (max_w <? W))%bool
              then float_min one (SFdiv prec emax (float_of_int max_w) (float_of_int W))
              else one).
  set (sc2 := if ((0 <? max_h) && (max_h <? H))%bool
              then float_min sc1 (SFdiv prec emax (float_of_int max_h) (float_of_int H))
              else sc1).
  assert (E1 : (if ((0 <? max_w) && (max_w <? W))%bool
                then Ok (float_min one (SFdiv prec emax (float_of_int max_w) (float_of_int W)))
                else Ok one) = Ok sc1)
    by (unfold sc1; by destruct ((0 <? max_w) && (max_w <? W))%bool).
  rewrite E1.
  assert (E2 : (if ((0 <? max_h) && (max_h <? H))%bool
                then Ok (float_min sc1 (SFdiv prec emax (float_of_int max_h) (float_of_int H)))
                else Ok sc1) = Ok sc2)
    by (unfold sc2; by destruct ((0 <? max_h) && (max_h <? H))%bool).
  rewrite E2.
  destruct (float_lt sc2 one) eqn:Hlt; [|by left].
  right. exists sc2. done.
Qed.

(** The clamp alone, with its scale. *)
Lemma apply_resize_clamp_scale (img1 : Image) (max_w max_h : Z) :
  0 < (im_size img1).1 -> 0 < (im_size img1).2 ->
  _apply_resize img1 100 max_w max_h =
    (if (((0 <? max_w) || (0 <? max_h)) &&
         float_lt (clamp_scale (im_size img1).1 (im_size img1).2 max_w max_h) one)%bool
     then w' ← int_of_float (mul_int_float (im_size img1).1
                               (clamp_scale (im_size img1).1 (im_size img1).2 max_w max_h));
          h' ← int_of_float (mul_int_float (im_size img1).2
                               (clamp_scale (im_size img1).1 (im_size img1).2 max_w max_h));
          Image_resize img1 (w', h')
     else Ok img1).
Proof.
  intros HW HH. unfold _apply_resize, clamp_scale.
  change (negb (100 =? 100)) with false. cbv iota.
  unfold mbind, result_bind, rbind.
  destruct (im_size img1) as [W H] eqn:Hsz. cbn [fst snd] in *.
  destruct ((0 <? max_w) || (0 <? max_h))%bool; [|done]. cbn [andb].
  rewrite (truediv_ok max_w W), (truediv_ok max_h H) by lia.
  destruct ((0 <? max_w) && (max_w <? W))%bool, ((0 <? max_h) && (max_h <? H))%bool;
    reflexivity.
Qed.

Lemma apply_resize_noop (img : Image) (max_w max_h : Z) :
  max_w <= 0 \/ (im_size img).1 <= max_w ->
  max_h <= 0 \/ (im_size img).2 <= max_h ->
  _apply_resize img 100 max_w max_h = Ok img.
Proof.
  intros Hw Hh. unfold _apply_resize.
  change (negb (100 =? 100)) with false. cbv iota.
  unfold mbind, result_bind, rbind.
  destruct (im_size img) as [w h]. cbn [fst snd] in *.
  destruct ((0 <? max_w) || (0 <? max_h))%bool; [|done].
  assert (E1 : ((0 <? max_w) && (max_w <? w))%bool = false).
  { destruct (Z.ltb_spec 0 max_w), (Z.ltb_spec max_w w); try done; lia. }
  assert (E2 : ((0 <? max_h) && (max_h <? h))%bool = false).
  { destruct (Z.ltb_spec 0 max_h), (Z.ltb_spec max_h h); try done; lia. }
  rewrite E1, E2. reflexivity.
Qed.

(** The clamp never enlarges and respects the bounds. *)
Lemma apply_resize_clamp_bounds (img1 img' : Image) (max_w max_h : Z) :
  0 < (im_size img1).1 < 2 ^ 31 -> 0 < (im_size img1).2 < 2 ^ 31 ->
  _apply_resize img1 100 max_w max_h = Ok img' ->
  (im_size img').1 <= (im_size img1).1 /\ (im_size img').2 <= (im_size img1).2 /\
  (0 < max_w -> (im_size img').1 <= max_w) /\
  (0 < max_h -> (im_size img').2 <= max_h).
Proof.
  intros HW HH. unfold _apply_resize.
  change (negb (100 =? 100)) with false. cbv iota.
  unfold mbind, result_bind, rbind.
  destruct (im_size img1) as [W H] eqn:Hsz. cbn [fst snd] in *.
  pose proof (clamp_scale_spec W H max_w max_h HW HH) as Hspec. cbv zeta in Hspec.
  destruct ((0 <? max_w) || (0 <? max_h))%bool eqn:Hany.
  2:{ intros [= <-]. rewrite Hsz. cbn. apply orb_false_iff in Hany as [? ?]. lia. }
  rewrite (truediv_ok max_w W), (truediv_ok max_h H) by lia.
  set (sc1 := if ((0 <? max_w) && (max_w <? W))%bool
              then float_min one (SFdiv prec emax (float_of_int max_w) (float_of_int W))
              else one) in *.
  set (sc2 := if ((0 <? max_h) && (max_h <? H))%bool
              then float_min sc1 (SFdiv prec emax (float_of_int max_h) (float_of_int H))
              else sc1) in *.
  assert (E1 : (if ((0 <? max_w) && (max_w <? W))%bool
                then Ok (float_min one (SFdiv prec emax (float_of_int max_w) (float_of_int W)))
                else Ok one) = Ok sc1)
    by (unfold sc1; by destruct ((0 <? max_w) && (max_w <? W))%bool).
  rewrite E1.
  assert (E2 : (if ((0 <? max_h) && (max_h <? H))%bool
                then Ok (float_min sc1 (SFdiv prec emax (float_of_int max_h) (float_of_int H)))
                else Ok sc1) = Ok sc2)
    by (unfold sc2; by destruct ((0 <? max_h) && (max_h <? H))%bool).
  rewrite E2.
  destruct Hspec as (Hn & Hle & Hw & Hh).
  destruct (float_lt sc2 one) eqn:Hlt.
  - destruct (int_of_float (mul_int_float W sc2)) as [zw|] eqn:Ew; [|discriminate].
    destruct (int_of_float (mul_int_float H sc2)) as [zh|] eqn:Eh; [|discriminate].
    intros Hres. apply Image_resize_ok in Hres as [-> _]. cbn [fst snd].
    destruct (clamp_axis_bound W max_w zw sc2 HW Hn Hlt (fun Hm => proj1 (Hw Hm)) Ew).
    destruct (clamp_axis_bound H max_h zh sc2 HH Hn Hlt (fun Hm => proj1 (Hh Hm)) Eh).
    auto.
  - intros [= <-]. rewrite Hsz. cbn [fst snd].
    split; [lia|]. split; [lia|]. split.
    + intros Hm. destruct (Z_lt_le_dec max_w W) as [Hlt'|]; [|lia].
      destruct (Hw ltac:(lia)) as [_ Hc]. congruence.
    + intros Hm. destruct (Z_lt_le_dec max_h H) as [Hlt'|]; [|lia].
      destruct (Hh ltac:(lia)) as [_ Hc]. congruence.
Qed.

End Resize.

Lemma percent_dim_bounds (w pct : Z) :
  0 < w < 2 ^ 31 -> 1 <= pct <= 100 -> 0 < Z.max 1 (w * pct / 100) <= w.
Proof.
  intros Hw Hp. split; [lia|].
  assert (w * pct / 100 <= w); [|lia].
  apply Z.div_le_upper_bound; nia.
Qed.

(** The clamp at 50x30 with max width 40, computed in binary64. *)
Lemma clamp_example `{pil : Pillow} (img1 : Image) :
  im_size img1 = (50, 30) ->
  _apply_resize img1 100 40 0 = Image_resize img1 (40, 24).
Proof.
  intros Hsz. unfold _apply_resize. rewrite Hsz.
  change (negb (100 =? 100)) with false. cbv iota.
  unfold mbind, result_bind, rbind. rewrite Hsz.
  lazy -[Image_resize]. reflexivity.
Qed.

(** The clamp at 50x30 with both bounds, where the height decides: the
    scale is [min(1.0, 40/50, 15/30) = 0.5]. *)
Lemma clamp_example_height `{pil : Pillow} (img1 : Image) :
  im_size img1 = (50, 30) ->
  _apply_resize img1 100 40 15 = Image_resize img1 (25, 15).
Proof.
  intros Hsz. unfold _apply_resize. rewrite Hsz.
  change (negb (100 =? 100)) with false. cbv iota.
  unfold mbind, result_bind, rbind. rewrite Hsz.
  lazy -[Image_resize]. reflexivity.
Qed.

(** C3: the resize transform applies the percentage step first (each axis
    scaled by percent/100, floored, at least 1 px), then one uniform,
    downscale-only clamp to the maximum bounds.  The clamp leaves the
    image as it is when no bound is exceeded; when a bound is exceeded it
    resizes once, both axes by the same scale
    [min(1.0, max_w / W, max_h / H)] (over the bounds that are exceeded),
    which is below 1.0; its result is never larger than the image it was
    given and exceeds neither max_w nor max_h (when they are positive).
    A 100x60 image with resize_percent=50, max_width=40, max_height=0 is
    resized to 50x30 and then to exactly 40x24, and with max_height=15 to
    50x30 and then to 25x15. *)
Theorem apply_resize_percent_then_clamp `{pil : Pillow}
    (img : Image) (pct max_w max_h : Z) :
  0 < (im_size img).1 < 2 ^ 31 -> 0 < (im_size img).2 < 2 ^ 31 ->
  1 <= pct <= 100 ->
  _apply_resize img pct 0 0 =
    (if pct =? 100 then Ok img
     else Image_resize img (Z.max 1 ((im_size img).1 * pct / 100),
                            Z.max 1 ((im_size img).2 * pct / 100))) /\
  _apply_resize img pct max_w max_h =
    (img1 ← _apply_resize img pct 0 0; _apply_resize img1 100 max_w max_h) /\
  (forall img1, _apply_resize img pct 0 0 = Ok img1 ->
     _apply_resize img1 100 max_w max_h = Ok img1 \/
     exists scale : float,
       float_lt scale one = true /\
       _apply_resize img1 100 max_w max_h =
         (w' ← int_of_float (mul_int_float (im_size img1).1 scale);
          h' ← int_of_float (mul_int_float (im_size img1).2 scale);
          Image_resize img1 (w', h'))) /\
  (forall img1, _apply_resize img pct 0 0 = Ok img1 ->
     let W := (im_size img1).1 in
     let H := (im_size img1).2 in
     let scale := clamp_scale W H max_w max_h in
     im_size img1 = (Z.max 1 ((im_size img).1 * pct / 100),
                     Z.max 1 ((im_size img).2 * pct / 100)) /\
     _apply_resize img1 100 max_w max_h =
       (if (((0 <? max_w) || (0 <? max_h)) && float_lt scale one)%bool
        then w' ← int_of_float (mul_int_float W scale);
             h' ← int_of_float (mul_int_float H scale);
             Image_resize img1 (w', h')
        else Ok img1) /\
     ((max_w <= 0 \/ W <= max_w) -> (max_h <= 0 \/ H <= max_h) ->
      _apply_resize img1 100 max_w max_h = Ok img1) /\
     (0 < max_w < W \/ 0 < max_h < H ->
      (((0 <? max_w) || (0 <? max_h)) && float_lt scale one)%bool = true) /\
     (SF2R scale <= 1)%R /\
     (0 < max_w < W -> (SF2R scale <= IZR max_w / IZR W * (1 + u53))%R) /\
     (0 < max_h < H -> (SF2R scale <= IZR max_h / IZR H * (1 + u53))%R) /\
     (forall img', _apply_resize img1 100 max_w max_h = Ok img' ->
        (im_size img').1 <= W /\ (im_size img').2 <= H /\
        (0 < max_w -> (im_size img').1 <= max_w) /\
        (0 < max_h -> (im_size img').2 <= max_h))) /\
  (im_size img = (100, 60) ->
   _apply_resize img 50 40 0 =
     (img1 ← Image_resize img (50, 30); Image_resize img1 (40, 24)) /\
   _apply_resize img 50 40 15 =
     (img1 ← Image_resize img (50, 30); Image_resize img1 (25, 15))).
Proof.
  intros Hw Hh Hp.
  pose proof (apply_resize_percent img pct Hw Hh Hp) as Hpct.
  pose proof (percent_dim_bounds _ pct Hw Hp) as Bw.
  pose proof (percent_dim_bounds _ pct Hh Hp) as Bh.
  assert (Hsz1 : forall img1, _apply_resize img pct 0 0 = Ok img1 ->
            im_size img1 = (Z.max 1 ((im_size img).1 * pct / 100),
                            Z.max 1 ((im_size img).2 * pct / 100))).
  { intros img1 H1. rewrite Hpct in H1.
    destruct (Z.eqb_spec pct 100) as [->|Hne].
    - injection H1 as <-. rewrite !Z.div_mul by lia.
      destruct (im_size img) as [w h]. cbn [fst snd] in *. f_equal; lia.
    - by apply Image_resize_ok in H1 as [-> _]. }
  split; [exact Hpct|]. split; [apply apply_resize_split|]. split; [|split].
  - intros img1 H1. rewrite (surjective_pairing (im_size img1)) in *.
    apply apply_resize_clamp_shape; rewrite (Hsz1 img1 H1); cbn [fst snd]; lia.
  - intros img1 H1. cbv zeta. specialize (Hsz1 img1 H1).
    assert (HW : 0 < (im_size img1).1 < 2 ^ 31) by (rewrite Hsz1; cbn [fst snd]; lia).
    assert (HH : 0 < (im_size img1).2 < 2 ^ 31) by (rewrite Hsz1; cbn [fst snd]; lia).
    pose proof (clamp_scale_spec _ _ max_w max_h HW HH) as Hspec. cbv zeta in Hspec.
    fold (clamp_scale (im_size img1).1 (im_size img1).2 max_w max_h) in Hspec.
    destruct Hspec as (Hn & Hle & Hsw & Hsh).
    split; [done|]. split; [apply apply_resize_clamp_scale; lia|].
    split; [apply apply_resize_noop|]. split; [|split; [done|split; [|split]]].
    + intros [Hc | Hc].
      * destruct (Hsw Hc) as [_ ->]. destruct (Z.ltb_spec 0 max_w); [done|lia].
      * destruct (Hsh Hc) as [_ ->]. destruct (Z.ltb_spec 0 max_h); [|lia].
        by rewrite orb_true_r.
    + intros Hc. by destruct (Hsw Hc).
    + intros Hc. by destruct (Hsh Hc).
    + intros img' Hres. by apply (apply_resize_clamp_bounds img1 img' max_w max_h).
  - intros Hsz. split.
    + rewrite apply_resize_split.
      rewrite (apply_resize_percent img 50) by (rewrite ?Hsz; cbn; lia).
      rewrite Hsz. change (50 =? 100) with false. cbv iota. cbn [fst snd].
      change (Z.max 1 (100 * 50 / 100)) with 50. change (Z.max 1 (60 * 50 / 100)) with 30.
      unfold mbind, result_bind, rbind.
      destruct (Image_resize img (50, 30)) as [img1|e] eqn:E1; [|done].
      apply clamp_example. by apply Image_resize_ok in E1 as [-> _].
    + rewrite apply_resize_split.
      rewrite (apply_resize_percent img 50) by (rewrite ?Hsz; cbn; lia).
      rewrite Hsz. change (50 =? 100) with false. cbv iota. cbn [fst snd].
      change (Z.max 1 (100 * 50 / 100)) with 50. change (Z.max 1 (60 * 50 / 100)) with 30.
      unfold mbind, result_bind, rbind.
      destruct (Image_resize img (50, 30)) as [img1|e] eqn:E1; [|done].
      apply clamp_example_height. by apply Image_resize_ok in E1 as [-> _].
Qed.

(** The scenario of the specification, and one where the height bound
    decides, run on the concrete image library. *)
Lemma apply_resize_percent_then_clamp_witness :
  @_apply_resize Toy.pillow (mkImage "RGBA" (100, 60) "pixels") 50 40 0 =
    Ok (mkImage "RGBA" (40, 24) "pixels") /\
  @_apply_resize Toy.pillow (mkImage "RGBA" (100, 60) "pixels") 50 40 15 =
    Ok (mkImage "RGBA" (25, 15) "pixels").
Proof.
  destruct (@apply_resize_percent_then_clamp Toy.pillow
              (mkImage "RGBA" (100, 60) "pixels") 50 40 0)
    as (_ & _ & _ & _ & Hex); [cbn; lia | cbn; lia | lia |].
  destruct (Hex eq_refl) as [Hex1 _].
  destruct (@apply_resize_percent_then_clamp Toy.pillow
              (mkImage "RGBA" (100, 60) "pixels") 50 40 15)
    as (_ & _ & _ & _ & Hex'); [cbn; lia | cbn; lia | lia |].
  destruct (Hex' eq_refl) as [_ Hex2].
  split; [rewrite Hex1; reflexivity | rewrite Hex2; reflexivity].
Defined.

(** C4: for an image of positive size, a percentage in 1..100 and bounds
    max_w, max_h >= 0, the size returned by the resize transform exceeds
    neither max_w (when > 0) nor max_h (when > 0), and is at most the size
    the percentage step alone produces. *)
Theorem apply_resize_within_bounds `{pil : Pillow}
    (img img' : Image) (pct max_w max_h : Z) :
  0 < (im_size img).1 < 2 ^ 31 -> 0 < (im_size img).2 < 2 ^ 31 ->
  1 <= pct <= 100 -> 0 <= max_w -> 0 <= max_h ->
  _apply_resize img pct max_w max_h = Ok img' ->
  exists img1,
    _apply_resize img pct 0 0 = Ok img1 /\
    im_size img1 = (Z.max 1 ((im_size img).1 * pct / 100),
                    Z.max 1 ((im_size img).2 * pct / 100)) /\
    (0 < max_w -> (im_size img').1 <= max_w) /\
    (0 < max_h -> (im_size img').2 <= max_h) /\
    (im_size img').1 <= (im_size img1).1 /\
    (im_size img').2 <= (im_size img1).2.
Proof.
  intros Hw Hh Hp Hmw Hmh Hres.
  rewrite apply_resize_split in Hres.
  pose proof (apply_resize_percent img pct Hw Hh Hp) as Hpct.
  destruct (_apply_resize img pct 0 0) as [img1|e] eqn:E1; [|discriminate].
  cbn [mbind result_bind rbind] in Hres.
  pose proof (percent_dim_bounds _ pct Hw Hp) as Bw.
  pose proof (percent_dim_bounds _ pct Hh Hp) as Bh.
  assert (Hsz1 : im_size img1 = (Z.max 1 ((im_size img).1 * pct / 100),
                                 Z.max 1 ((im_size img).2 * pct / 100))).
  { destruct (Z.eqb_spec pct 100) as [->|Hne].
    - assert (Heq : img1 = img) by congruence. rewrite Heq, !Z.div_mul by lia.
      destruct (im_size img) as [w h]. cbn [fst snd] in *. f_equal; lia.
    - symmetry in Hpct. by apply Image_resize_ok in Hpct as [-> _]. }
  exists img1. split; [done|]. split; [done|].
  destruct (apply_resize_clamp_bounds img1 img' max_w max_h) as (B1 & B2 & B3 & B4).
  { rewrite Hsz1. cbn [fst snd]. lia. }
  { rewrite Hsz1. cbn [fst snd]. lia. }
  { done. }
  auto.
Qed.

(** The bounds at a 100x60 image, 50 percent, max width 40. *)
Lemma apply_resize_within_bounds_witness :
  exists img1,
    @_apply_resize Toy.pillow (mkImage "RGBA" (100, 60) "pixels") 50 0 0 = Ok img1 /\
    im_size img1 = (50, 30) /\
    (0 < 40 -> 40 <= 40) /\ (0 < 0 -> 24 <= 0) /\
    40 <= (im_size img1).1 /\ 24 <= (im_size img1).2.
Proof.
  apply (@apply_resize_within_bounds Toy.pillow
           (mkImage "RGBA" (100, 60) "pixels") (mkImage "RGBA" (40, 24) "pixels")
           50 40 0); cbn; try lia; reflexivity.
Defined.

(** * Calls that write a file *)

Section WriteCalls.
Context {pil : Pillow} {os : Os}.

(** A write that is cut short touches no other file. *)
Lemma cut_short_ne (path p : string) (fs : FS) :
  p <> path -> cut_short path fs !! p = fs !! p.
Proof.
  intros Hne. unfold cut_short.
  destruct (fs !! path); [by rewrite lookup_insert_ne|].
  destruct (os_created_left path fs); [by rewrite lookup_insert_ne|done].
Qed.

(** A write that is cut short removes no file. *)
Lemma cut_short_keeps (path p : string) (fs : FS) :
  is_Some (fs !! p) -> is_Some (cut_short path fs !! p).
Proof.
  intros Hp. destruct (decide (p = path)) as [->|Hne].
  - unfold cut_short. destruct Hp as [b Hb]. rewrite Hb.
    rewrite lookup_insert_eq. by eexists.
  - by rewrite cut_short_ne.
Qed.

(** A move that failed leaves every file but its target as it was. *)
Lemma move_failed_ne (src dst p : string) (fs : FS) :
  p <> dst -> move_failed src dst fs !! p = fs !! p.
Proof.
  intros Hne. unfold move_failed.
  destruct (os_move_left src dst fs); [by rewrite lookup_insert_ne|done].
Qed.

(** The ways [im.save] can end: before the file is open, once it is open,
    or with the file written. *)
Lemma Image_save_cases (im : Image) (path fmt : string)
    (kwargs : list (string * kwarg)) (fs : FS) :
  (exists e,
     Image_save im path fmt kwargs fs = (Raise e, fs, [EvEncode path fmt im kwargs]) /\
     (pil_save_prepare fmt kwargs im = Some e \/
      pil_save_prepare fmt kwargs im = None /\ os_open_error path fs = Some e)) \/
  (exists e,
     Image_save im path fmt kwargs fs =
       (Raise e, cut_short path fs, [EvEncode path fmt im kwargs]) /\
     pil_save_prepare fmt kwargs im = None /\ os_open_error path fs = None /\
     (pil_encode fmt kwargs im = Raise e \/
      exists bytes, pil_encode fmt kwargs im = Ok bytes /\
                    os_write_error path bytes fs = Some e)) \/
  (exists bytes,
     Image_save im path fmt kwargs fs =
       (Ok tt, <[path := bytes]> fs, [EvEncode path fmt im kwargs]) /\
     pil_save_prepare fmt kwargs im = None /\ os_open_error path fs = None /\
     pil_encode fmt kwargs im = Ok bytes /\ os_write_error path bytes fs = None).
Proof.
  unfold Image_save.
  destruct (pil_save_prepare fmt kwargs im) as [e|]; [left; eauto|].
  destruct (os_open_error path fs) as [e|]; [left; eauto|].
  destruct (pil_encode fmt kwargs im) as [bytes|e];
    [|right; left; exists e; eauto 10].
  destruct (os_write_error path bytes fs) as [e|] eqn:Ew.
  - right; left. exists e. eauto 10.
  - right; right. exists bytes. eauto 10.
Qed.

(** [im.save] touches no file but its own, whatever its outcome. *)
Lemma Image_save_frame (im : Image) (path fmt : string)
    (kwargs : list (string * kwarg)) (fs : FS) (p : string) :
  p <> path -> final_fs (Image_save im path fmt kwargs fs) !! p = fs !! p.
Proof.
  intros Hne.
  destruct (Image_save_cases im path fmt kwargs fs)
    as [(e & -> & _) | [(e & -> & _) | (bytes & -> & _)]]; unfold final_fs; cbn.
  - done.
  - by apply cut_short_ne.
  - by rewrite lookup_insert_ne.
Qed.

(** [im.save] removes no file, whatever its outcome. *)
Lemma Image_save_keeps (im : Image) (path fmt : string)
    (kwargs : list (string * kwarg)) (fs : FS) (p : string) :
  is_Some (fs !! p) -> is_Some (final_fs (Image_save im path fmt kwargs fs) !! p).
Proof.
  intros Hp.
  destruct (Image_save_cases im path fmt kwargs fs)
    as [(e & -> & _) | [(e & -> & _) | (bytes & -> & _)]]; unfold final_fs; cbn.
  - done.
  - by apply cut_short_keeps.
  - destruct (decide (p = path)) as [->|Hne].
    + rewrite lookup_insert_eq. by eexists.
    + by rewrite lookup_insert_ne.
Qed.

End WriteCalls.

(** The closing steps of a proof about the files of a run. *)
Ltac paths_fin :=
  repeat match goal with
         | |- _ /\ _ => split
         | |- forall _, _ => intro
         | H : is_Some _ |- _ => destruct H
         end;
  simpl in *; try done; try congruence; eauto.

(** Case analysis on the call of [im.save] in the goal. *)
Ltac destruct_save :=
  match goal with
  | |- context [Image_save ?im ?path ?fmt ?kw ?fs] =>
      let e := fresh "e" in
      let bytes := fresh "bytes" in
      let E := fresh "Esave" in
      destruct (Image_save_cases im path fmt kw fs)
        as [(e & E & ?) | [(e & E & ?) | (bytes & E & ?)]]; rewrite E
  end.

(** * Saving one image: delta_pix.py and convert_png_to_jpg.py *)

Section Save.
Context {pil : Pillow} {os : Os}.

(** Resizing keeps the colour mode. *)
Lemma apply_resize_mode (img img' : Image) (pct max_w max_h : Z) :
  _apply_resize img pct max_w max_h = Ok img' -> im_mode img' = im_mode img.
Proof.
  rewrite apply_resize_split. unfold mbind, result_bind, rbind.
  destruct (_apply_resize img pct 0 0) as [img1|] eqn:E1; [|discriminate].
  intros E2. transitivity (im_mode img1).
  - revert E2. unfold _apply_resize. change (negb (100 =? 100)) with false. cbv iota.
    unfold mbind, result_bind, rbind.
    destruct (im_size img1) as [W H].
    repeat case_match; try discriminate; intros E; simplify_eq; try done;
      by apply Image_resize_ok in E as [_ ->].
  - revert E1. unfold _apply_resize. unfold mbind, result_bind, rbind.
    destruct (im_size img) as [w h].
    change ((0 <? 0) || (0 <? 0))%bool with false.
    repeat case_match; try discriminate; intros E; simplify_eq; try done;
      repeat match goal with
             | H : Image_resize _ _ = Ok _ |- _ => apply Image_resize_ok in H as [_ ?]
             end; congruence.
Qed.

(** The loop body of the in-place worker catches what its conversion
    raises: the failure is logged with the text of the exception, and an
    exception can leave the body only from the progress computation. *)
Lemma run_item_catches (wcfg : JobConfig) (folder backup_folder : string)
    (total i : nat) (fname : string) (converted : nat) (fs : FS) (e : exn) :
  overwrite wcfg = true \/
    fs !! path_join folder (splitext_root fname +:+ ".webp") = None ->
  outcome (run_item_try wcfg folder backup_folder fname converted fs) = Raise e ->
  In (SigLog ("Failed: " +:+ fname +:+ " -> " +:+ str_exn e))
     (events (run_item wcfg folder backup_folder total i fname converted fs)) /\
  (forall e', outcome (run_item wcfg folder backup_folder total i fname converted fs)
                = Raise e' ->
     progress_percent i total = Raise e').
Proof.
  intros Hnoskip. unfold run_item, os_path_exists. unfold_M.
  assert (Hskip : (negb (overwrite wcfg) &&
                   bool_decide (is_Some (fs !! path_join folder
                                           (splitext_root fname +:+ ".webp"))))%bool = false).
  { destruct Hnoskip as [-> | Hd]; [done|]. rewrite Hd.
    rewrite bool_decide_false; [by rewrite andb_false_r|]. by intros [? ?]. }
  rewrite Hskip.
  destruct (run_item_try wcfg folder backup_folder fname converted fs)
    as [[[c|e0] fs1] ev1]; simpl; [discriminate|].
  intros [= ->].
  destruct (progress_percent i total) as [p|e1]; simpl; split;
    try (intros e'; congruence);
    apply in_or_app; left; apply in_or_app; right; simpl; auto.
Qed.

(** What the loop body of the in-place worker converts from, and the
    files at that moment: the original, or the file at the backup path
    once the original has been moved there if no file had that name. *)
Lemma run_item_try_raises (wcfg : JobConfig) (folder backup_folder fname : string)
    (converted : nat) (fs : FS) (e : exn) :
  let src := path_join folder fname in
  let bak := path_join backup_folder fname in
  let dst := path_join folder (splitext_root fname +:+ ".webp") in
  (keep_backup wcfg = false ->
   outcome (_convert_one wcfg src dst fs) = Raise e ->
   outcome (run_item_try wcfg folder backup_folder fname converted fs) = Raise e) /\
  (keep_backup wcfg = true -> is_Some (fs !! bak) ->
   outcome (_convert_one wcfg bak dst fs) = Raise e ->
   outcome (run_item_try wcfg folder backup_folder fname converted fs) = Raise e) /\
  (keep_backup wcfg = true -> fs !! bak = None ->
   outcome (shutil_move src bak fs) = Raise e ->
   outcome (run_item_try wcfg folder backup_folder fname converted fs) = Raise e) /\
  (keep_backup wcfg = true -> fs !! bak = None ->
   outcome (shutil_move src bak fs) = Ok tt ->
   outcome (_convert_one wcfg bak dst (final_fs (shutil_move src bak fs))) = Raise e ->
   outcome (run_item_try wcfg folder backup_folder fname converted fs) = Raise e).
Proof.
  cbv zeta. unfold run_item_try, os_path_exists.
  set (src := path_join folder fname).
  set (bak := path_join backup_folder fname).
  set (dst := path_join folder (splitext_root fname +:+ ".webp")).
  clearbody src bak dst. unfold_M.
  split; [|split; [|split]].
  - intros ->. cbn.
    destruct (_convert_one wcfg src dst fs) as [[[[]|e0] fs1] ev1]; cbn; [discriminate|by intros [= ->]].
  - intros -> Hbak. rewrite bool_decide_true by done. cbn.
    destruct (_convert_one wcfg bak dst fs) as [[[[]|e0] fs1] ev1]; cbn; [discriminate|by intros [= ->]].
  - intros -> Hbak. rewrite Hbak. rewrite bool_decide_false by (by intros [? ?]). cbn.
    destruct (shutil_move src bak fs) as [[[[]|e0] fs1] ev1]; cbn; [discriminate|by intros [= ->]].
  - intros -> Hbak. rewrite Hbak. rewrite bool_decide_false by (by intros [? ?]). cbn.
    destruct (shutil_move src bak fs) as [[[[]|e0] fs1] ev1]; cbn; [|discriminate].
    intros _.
    destruct (_convert_one wcfg bak dst fs1) as [[[[]|e1] fs2] ev2]; cbn; [discriminate|by intros [= ->]].
Qed.

(** What the image library raises leaves [_convert_one]. *)
Lemma convert_one_raises (wcfg : JobConfig) (src dst : string) (fs : FS) (e : exn) :
  (fs !! src = None -> e = file_not_found src ->
   outcome (_convert_one wcfg src dst fs) = Raise e) /\
  (forall bytes, fs !! src = Some bytes -> pil_decode bytes = Raise e ->
   outcome (_convert_one wcfg src dst fs) = Raise e) /\
  (forall bytes im0 im kwargs,
     fs !! src = Some bytes -> pil_decode bytes = Ok im0 ->
     Image_convert im0
       (if no_alpha wcfg then "RGB"
        else if (String.eqb (im_mode im0) "RGBA" || String.eqb (im_mode im0) "LA")%bool
             then "RGBA" else "RGB") = Ok im ->
     kwargs = (if no_alpha wcfg
               then [("quality", KwInt _lossy_quality); ("method", KwInt 6)]
               else [("lossless", KwBool true); ("method", KwInt 6)]) ->
     outcome (Image_save im dst "WEBP" kwargs fs) = Raise e ->
     outcome (_convert_one wcfg src dst fs) = Raise e).
Proof.
  unfold _convert_one, Image_open. unfold_M.
  split; [|split].
  - intros -> ->. done.
  - intros bytes -> ->. done.
  - intros bytes im0 im kwargs -> -> Hc -> Hs.
    cbn. destruct (no_alpha wcfg); rewrite Hc; cbn;
      destruct (Image_save im dst "WEBP" _ fs) as [[[[]|e0] fs1] ev1]; cbn in *; congruence.
Qed.

(** C2: the per-item save never lets an exception reach its caller: the
    outcome is always a pair [(ok, msg)]; when the try block raises [e], at
    whatever step, the pair is [(false, str(e))], and the try block does
    raise what the colour conversion, the resize, the encoder and the
    write raise (an encoder or a write that fails makes [im.save] raise,
    and an [im.save] that raises makes the result [(false, str(e))], with
    no file but the output touched).  The loop body of the in-place worker
    likewise catches the exception of its conversion and logs its text:
    what the move, the decoder or [im.save] raise leaves the try block of
    the body, and what leaves the try block is logged as
    [Failed: <name> -> <text>], so that an exception can leave the body
    only from the progress computation. *)
Theorem save_one_never_raises (img : Image) (out_path fmt : string)
    (cfg : ExportSettings) (fs : FS) :
  (exists ok msg, outcome (_save_one img out_path fmt cfg fs) = Ok (ok, msg)) /\
  (forall e, outcome (_save_one_body img out_path fmt cfg fs) = Raise e ->
     outcome (_save_one img out_path fmt cfg fs) = Ok (false, str_exn e)) /\
  (forall r, outcome (_save_one_body img out_path fmt cfg fs) = Ok r ->
     outcome (_save_one img out_path fmt cfg fs) = Ok (true, "ok")) /\
  (forall e, (drop_alpha cfg || String.eqb fmt "JPEG")%bool = true ->
     Image_convert img "RGB" = Raise e ->
     outcome (_save_one img out_path fmt cfg fs) = Ok (false, str_exn e)) /\
  (forall im e,
     (if (drop_alpha cfg || String.eqb fmt "JPEG")%bool
      then Image_convert img "RGB" else Ok img) = Ok im ->
     _apply_resize im (resize_percent cfg) (max_width cfg) (max_height cfg) = Raise e ->
     outcome (_save_one img out_path fmt cfg fs) = Ok (false, str_exn e)) /\
  (forall im1 im2 e,
     (if (drop_alpha cfg || String.eqb fmt "JPEG")%bool
      then Image_convert img "RGB" else Ok img) = Ok im1 ->
     _apply_resize im1 (resize_percent cfg) (max_width cfg) (max_height cfg) = Ok im2 ->
     outcome (Image_save im2 out_path fmt (save_kwargs fmt cfg) fs) = Raise e ->
     outcome (_save_one img out_path fmt cfg fs) = Ok (false, str_exn e) /\
     events (_save_one img out_path fmt cfg fs)
       = [EvEncode out_path fmt im2 (save_kwargs fmt cfg)] /\
     forall p, p <> out_path ->
       final_fs (_save_one img out_path fmt cfg fs) !! p = fs !! p) /\
  (forall im kwargs e,
     pil_save_prepare fmt kwargs im = None -> os_open_error out_path fs = None ->
     pil_encode fmt kwargs im = Raise e ->
     outcome (Image_save im out_path fmt kwargs fs) = Raise e) /\
  (forall im kwargs bytes e,
     pil_save_prepare fmt kwargs im = None -> os_open_error out_path fs = None ->
     pil_encode fmt kwargs im = Ok bytes ->
     os_write_error out_path bytes fs = Some e ->
     outcome (Image_save im out_path fmt kwargs fs) = Raise e) /\
  (forall im kwargs e,
     pil_save_prepare fmt kwargs im = Some e \/
     pil_save_prepare fmt kwargs im = None /\ os_open_error out_path fs = Some e ->
     outcome (Image_save im out_path fmt kwargs fs) = Raise e) /\
  (forall e, outcome (_save_one_body img out_path fmt cfg fs) = Raise e ->
     forall im kwargs, last (events (_save_one img out_path fmt cfg fs))
                       = Some (EvEncode out_path fmt im kwargs) ->
     outcome (Image_save im out_path fmt kwargs fs) = Raise e /\
     forall p, p <> out_path ->
       final_fs (_save_one img out_path fmt cfg fs) !! p = fs !! p) /\
  (forall wcfg folder backup_folder total i fname converted wfs e,
     overwrite wcfg = true \/
       wfs !! path_join folder (splitext_root fname +:+ ".webp") = None ->
     outcome (run_item_try wcfg folder backup_folder fname converted wfs) = Raise e ->
     In (SigLog ("Failed: " +:+ fname +:+ " -> " +:+ str_exn e))
        (events (run_item wcfg folder backup_folder total i fname converted wfs)) /\
     (forall e', outcome (run_item wcfg folder backup_folder total i fname converted wfs)
                   = Raise e' ->
        progress_percent i total = Raise e')) /\
  (forall wcfg folder backup_folder fname converted wfs e,
     let src := path_join folder fname in
     let bak := path_join backup_folder fname in
     let dst := path_join folder (splitext_root fname +:+ ".webp") in
     (keep_backup wcfg = false ->
      outcome (_convert_one wcfg src dst wfs) = Raise e ->
      outcome (run_item_try wcfg folder backup_folder fname converted wfs) = Raise e) /\
     (keep_backup wcfg = true -> is_Some (wfs !! bak) ->
      outcome (_convert_one wcfg bak dst wfs) = Raise e ->
      outcome (run_item_try wcfg folder backup_folder fname converted wfs) = Raise e) /\
     (keep_backup wcfg = true -> wfs !! bak = None ->
      outcome (shutil_move src bak wfs) = Raise e ->
      outcome (run_item_try wcfg folder backup_folder fname converted wfs) = Raise e) /\
     (keep_backup wcfg = true -> wfs !! bak = None ->
      outcome (shutil_move src bak wfs) = Ok tt ->
      outcome (_convert_one wcfg bak dst (final_fs (shutil_move src bak wfs))) = Raise e ->
      outcome (run_item_try wcfg folder backup_folder fname converted wfs) = Raise e)) /\
  (forall wcfg src dst wfs e,
     (forall bytes, wfs !! src = Some bytes -> pil_decode bytes = Raise e ->
      outcome (_convert_one wcfg src dst wfs) = Raise e) /\
     (forall bytes im0 im kwargs,
        wfs !! src = Some bytes -> pil_decode bytes = Ok im0 ->
        Image_convert im0
          (if no_alpha wcfg then "RGB"
           else if (String.eqb (im_mode im0) "RGBA" || String.eqb (im_mode im0) "LA")%bool
                then "RGBA" else "RGB") = Ok im ->
        kwargs = (if no_alpha wcfg
                  then [("quality", KwInt _lossy_quality); ("method", KwInt 6)]
                  else [("lossless", KwBool true); ("method", KwInt 6)]) ->
        outcome (Image_save im dst "WEBP" kwargs wfs) = Raise e ->
        outcome (_convert_one wcfg src dst wfs) = Raise e)).
Proof.
  split; [|split; [|split; [|split; [|split; [|split; [|split; [|split;
    [|split; [|split; [|split; [|split]]]]]]]]]]].
  11: { intros. by apply run_item_catches. }
  11: { intros. by apply run_item_try_raises. }
  11: { intros wcfg src dst wfs e.
        destruct (convert_one_raises wcfg src dst wfs e) as (_ & H2 & H3).
        split; [exact H2 | exact H3]. }
  7: { intros im kwargs e Hh Ho He. unfold Image_save, outcome. by rewrite Hh, Ho, He. }
  7: { intros im kwargs bytes e Hh Ho He Hw. unfold Image_save, outcome.
       by rewrite Hh, Ho, He, Hw. }
  7: { intros im kwargs e [Hh | [Hh Ho]]; unfold Image_save, outcome;
         by rewrite Hh, ?Ho. }
  6: { intros im1 im2 e Hc Hr Hs.
       pose proof (Image_save_frame im2 out_path fmt (save_kwargs fmt cfg) fs) as Hfr.
       unfold _save_one, _save_one_body. fold (save_kwargs fmt cfg). unfold_M.
       rewrite Hc, Hr. cbn.
       destruct (Image_save im2 out_path fmt (save_kwargs fmt cfg) fs)
         as [[[[]|e0] fs1] ev1] eqn:Es; cbn in *; [discriminate|].
       injection Hs as ->. split; [done|]. split; [|done].
       destruct (Image_save_cases im2 out_path fmt (save_kwargs fmt cfg) fs)
         as [(e1 & E & _) | [(e1 & E & _) | (bytes & E & _)]];
         rewrite E in Es; by simplify_eq. }
  6: { intros e He im kwargs Hlast. revert He Hlast.
       unfold _save_one, _save_one_body. unfold_M.
       destruct (if (drop_alpha cfg || String.eqb fmt "JPEG")%bool
                 then Image_convert img "RGB" else Ok img) as [im1|e1]; cbn;
         [|discriminate].
       destruct (_apply_resize im1 _ _ _) as [im2|e2]; cbn; [|discriminate].
       match goal with
       | |- context [Image_save im2 out_path fmt ?kw fs] =>
           pose proof (Image_save_frame im2 out_path fmt kw fs) as Hfr;
           destruct (Image_save_cases im2 out_path fmt kw fs)
             as [(e1 & E & _) | [(e1 & E & _) | (bytes & E & _)]];
           revert Hfr; unfold final_fs; rewrite E; cbn
       end; intros Hfr; try discriminate;
         intros [= ->] [= <- <-]; rewrite E; done. }
  all: unfold _save_one, _save_one_body; unfold_M.
  - destruct (if (drop_alpha cfg || String.eqb fmt "JPEG")%bool
              then Image_convert img "RGB" else Ok img) as [im1|e1]; cbn; [|eauto].
    destruct (_apply_resize im1 _ _ _) as [im2|e2]; cbn; [|eauto].
    destruct (Image_save im2 out_path fmt _ fs) as [[[[]|e0] fs1] ev1]; cbn; eauto.
  - intros e.
    destruct (if (drop_alpha cfg || String.eqb fmt "JPEG")%bool
              then Image_convert img "RGB" else Ok img) as [im1|e1]; cbn;
      [|by intros [= ->]].
    destruct (_apply_resize im1 _ _ _) as [im2|e2]; cbn; [|by intros [= ->]].
    destruct (Image_save im2 out_path fmt _ fs) as [[[[]|e0] fs1] ev1]; cbn;
      [discriminate|by intros [= ->]].
  - intros r.
    destruct (if (drop_alpha cfg || String.eqb fmt "JPEG")%bool
              then Image_convert img "RGB" else Ok img) as [im1|e1]; cbn;
      [|discriminate].
    destruct (_apply_resize im1 _ _ _) as [im2|e2]; cbn; [|discriminate].
    destruct (Image_save im2 out_path fmt _ fs) as [[[[]|e0] fs1] ev1]; cbn;
      [done|discriminate].
  - intros e Hc He. rewrite Hc, He. done.
  - intros im e Hc He. rewrite Hc, He. done.
Qed.

(** The only event of [_save_one] is the call of the encoder, on the
    converted and resized image. *)
Lemma save_one_events (img : Image) (out_path fmt : string)
    (cfg : ExportSettings) (fs : FS) :
  events (_save_one img out_path fmt cfg fs) = [] \/
  exists im1 im2 kwargs,
    (if (drop_alpha cfg || String.eqb fmt "JPEG")%bool
     then Image_convert img "RGB" else Ok img) = Ok im1 /\
    _apply_resize im1 (resize_percent cfg) (max_width cfg) (max_height cfg) = Ok im2 /\
    events (_save_one img out_path fmt cfg fs) = [EvEncode out_path fmt im2 kwargs].
Proof.
  unfold _save_one, _save_one_body. unfold_M.
  destruct (if (drop_alpha cfg || String.eqb fmt "JPEG")%bool
            then Image_convert img "RGB" else Ok img) as [im1|] eqn:E1; [|by left].
  destruct (_apply_resize im1 _ _ _) as [im2|] eqn:E2; [|by left].
  right. exists im1, im2.
  exists (if String.eqb fmt "PNG" then [("optimize", KwBool (png_optimize cfg))]
          else if String.eqb fmt "JPEG" then [("quality", KwInt (jpg_quality cfg))]
          else if String.eqb fmt "WEBP" then
            if webp_lossless cfg
            then [("lossless", KwBool true); ("method", KwInt 6)]
            else [("quality", KwInt (webp_quality cfg)); ("method", KwInt 6)]
          else []).
  split; [done|]. split; [done|].
  by destruct_save.
Qed.

Lemma resize_and_convert_events (input_path output_path : string)
    (size : Z * Z) (quality : Z) (fs : FS) :
  (exists e,
     outcome (PngToJpg.resize_and_convert input_path output_path size quality fs) = Raise e /\
     events (PngToJpg.resize_and_convert input_path output_path size quality fs)
       = [EvOpen input_path]) \/
  exists im,
    im_mode im = "RGB" /\ im_size im = size /\
    events (PngToJpg.resize_and_convert input_path output_path size quality fs)
      = [EvOpen input_path; EvEncode output_path "JPEG" im [("quality", KwInt quality)]].
Proof.
  unfold PngToJpg.resize_and_convert, Image_open. unfold_M.
  destruct (fs !! input_path) as [bytes|]; [|left; by eexists].
  destruct (pil_decode bytes) as [im0|]; [|left; by eexists].
  destruct (Image_convert im0 "RGB") as [im1|] eqn:E1; [|left; by eexists].
  destruct (Image_resize im1 size) as [im2|] eqn:E2; [|left; by eexists].
  apply Image_convert_ok in E1 as [M1 _]. apply Image_resize_ok in E2 as [S2 M2].
  right. exists im2. split; [congruence|]. split; [done|].
  by destruct_save.
Qed.

(** C5: whatever the image and the settings, the image handed to the JPEG
    encoder is in mode RGB, which carries no alpha channel, in the export
    path ([_save_one], for any value of [drop_alpha]) and in the standalone
    PNG to JPG tool ([resize_and_convert]). *)
Theorem jpeg_encoder_gets_rgb (img : Image) (out_path fmt : string)
    (cfg : ExportSettings) (input_path output_path : string)
    (size : Z * Z) (quality : Z) (fs : FS) :
  Forall jpeg_gets_rgb (events (_save_one img out_path fmt cfg fs)) /\
  Forall jpeg_gets_rgb
    (events (PngToJpg.resize_and_convert input_path output_path size quality fs)).
Proof.
  split.
  - destruct (save_one_events img out_path fmt cfg fs)
      as [->|(im1 & im2 & kw & E1 & E2 & ->)]; [constructor|].
    constructor; [|constructor]. simpl. intros Hf. subst fmt.
    rewrite orb_true_r in E1. apply Image_convert_ok in E1 as [M1 _].
    apply apply_resize_mode in E2. rewrite E2, M1. done.
  - destruct (resize_and_convert_events input_path output_path size quality fs)
      as [(e & _ & ->)|(im & Hm & _ & ->)].
    + by repeat constructor.
    + constructor; [done|]. constructor; [|constructor].
      simpl. intros _. by rewrite Hm.
Qed.

(** C10: the standalone tool resamples every source to exactly 1024x1024
    and encodes it as JPEG at quality 90, whatever the size of the source
    (so smaller images are upscaled and the aspect ratio is not kept):
    every call of the encoder is of that kind, and for an entry that can
    be moved to the backup folder and decoded the call is made, on the RGB
    conversion of the source resampled to 1024x1024; when the encoder and
    the write succeed the output file holds the encoder's result and the
    entry is counted. *)
Theorem png_to_jpg_always_1024 (folder backup_folder filename : string)
    (count : nat) (fs : FS) :
  let r := PngToJpg.main_item folder backup_folder filename count fs in
  let input_path := path_join folder filename in
  let backup_path := path_join backup_folder filename in
  let output_path := path_join folder (splitext_root filename +:+ ".jpg") in
  Forall jpeg_1024_q90 (events r) /\
  (forall src_bytes im0 im1 im2,
     str_endswith (str_lower filename) ".png" = true ->
     fs !! input_path = Some src_bytes ->
     os_move_error input_path backup_path fs = None ->
     pil_decode src_bytes = Ok im0 ->
     Image_convert im0 "RGB" = Ok im1 ->
     Image_resize im1 (1024, 1024) = Ok im2 ->
     im_mode im2 = "RGB" /\ im_size im2 = (1024, 1024) /\
     In (EvOpen backup_path) (events r) /\
     In (EvEncode output_path "JPEG" im2 [("quality", KwInt 90)]) (events r) /\
     (forall bytes,
        let fs1 := <[backup_path := src_bytes]> (delete input_path fs) in
        pil_save_prepare "JPEG" [("quality", KwInt 90)] im2 = None ->
        os_open_error output_path fs1 = None ->
        pil_encode "JPEG" [("quality", KwInt 90)] im2 = Ok bytes ->
        os_write_error output_path bytes fs1 = None ->
        outcome r = Ok (S count) /\
        final_fs r !! output_path = Some bytes)) /\
  (forall src_bytes src_im,
     fs !! input_path = Some src_bytes ->
     pil_decode src_bytes = Ok src_im ->
     outcome r = Ok (S count) ->
     exists im,
       im_size im = (1024, 1024) /\
       In (EvEncode output_path "JPEG" im [("quality", KwInt 90)]) (events r)).
Proof.
  cbv zeta. unfold PngToJpg.main_item.
  set (input_path := path_join folder filename).
  set (backup_path := path_join backup_folder filename).
  set (output_path := path_join folder (splitext_root filename +:+ ".jpg")).
  split; [|split].
  - destruct (str_endswith (str_lower filename) ".png"); [|constructor].
    unfold shutil_move. unfold_M.
    destruct (fs !! input_path) as [bytes|] eqn:Ein; [|by repeat constructor].
    destruct (os_move_error input_path backup_path fs); [by repeat constructor|].
    pose proof (resize_and_convert_events backup_path output_path PngToJpg.default_size
                  PngToJpg.default_quality (<[backup_path:=bytes]> (delete input_path fs)))
      as Hev.
    unfold events, outcome in Hev.
    destruct (PngToJpg.resize_and_convert backup_path output_path PngToJpg.default_size
                PngToJpg.default_quality (<[backup_path:=bytes]> (delete input_path fs)))
      as [[[[]|e] fs1] ev1]; cbn in *;
      destruct Hev as [(e' & _ & ->)|(im & Hm & Hs & ->)]; repeat constructor; done.
  - intros src_bytes im0 im1 im2 Hpng Hin Hmv Hd Hc Hr. rewrite Hpng.
    pose proof (Image_convert_ok _ _ _ Hc) as [M1 _].
    pose proof (Image_resize_ok _ _ _ Hr) as [S2 M2].
    split; [congruence|]. split; [done|].
    unfold shutil_move, PngToJpg.resize_and_convert, Image_open,
      PngToJpg.default_size, PngToJpg.default_quality.
    unfold_M. rewrite Hin, Hmv. cbn. rewrite lookup_insert_eq. cbn.
    rewrite Hd. cbn. rewrite Hc. cbn. rewrite Hr. cbn.
    split; [|split].
    + destruct_save; cbn; auto.
    + destruct_save; cbn; auto.
    + intros bytes Hh Ho He Hw. unfold Image_save. rewrite Hh, Ho, He, Hw. cbn.
      by rewrite lookup_insert_eq.
  - destruct (str_endswith (str_lower filename) ".png").
    2:{ unfold_M. cbn. intros ? ? _ _ [= Hc]. lia. }
    unfold shutil_move. unfold_M.
    intros src_bytes src_im Hin _. rewrite Hin.
    destruct (os_move_error input_path backup_path fs).
    { cbn. intros [= Hc]. lia. }
    pose proof (resize_and_convert_events backup_path output_path PngToJpg.default_size
                  PngToJpg.default_quality
                  (<[backup_path:=src_bytes]> (delete input_path fs))) as Hev.
    unfold events, outcome in Hev.
    destruct (PngToJpg.resize_and_convert backup_path output_path PngToJpg.default_size
                PngToJpg.default_quality
                (<[backup_path:=src_bytes]> (delete input_path fs)))
      as [[[[]|e] fs1] ev1]; cbn in *.
    + destruct Hev as [(e & [=] & _)|(im & Hm & Hs & ->)].
      intros _. exists im. split; [done|]. cbn. auto.
    + intros [= Hc]. lia.
Qed.

End Save.

(** An encoder that fails on a WebP export: the result is the failure with
    the text of the encoder's exception. *)
Lemma save_one_never_raises_witness :
  outcome (@_save_one Toy.pillow Toy.os (mkImage "RGB" (10, 10) "poison")
             "/out/a.webp" "WEBP"
             (mkExportSettings ["WEBP"] 100 true 90 true 90 false 0 0) ∅)
    = Ok (false, "encoder error") /\
  events (@_save_one Toy.pillow Toy.os (mkImage "RGB" (10, 10) "poison")
             "/out/a.webp" "WEBP"
             (mkExportSettings ["WEBP"] 100 true 90 true 90 false 0 0) ∅)
    = [EvEncode "/out/a.webp" "WEBP" (mkImage "RGB" (10, 10) "poison")
         (save_kwargs "WEBP" (mkExportSettings ["WEBP"] 100 true 90 true 90 false 0 0))].
Proof.
  pose proof (@save_one_never_raises Toy.pillow Toy.os
                (mkImage "RGB" (10, 10) "poison") "/out/a.webp" "WEBP"
                (mkExportSettings ["WEBP"] 100 true 90 true 90 false 0 0) ∅) as H.
  destruct H as (_ & _ & _ & _ & _ & H & _).
  destruct (H (mkImage "RGB" (10, 10) "poison") (mkImage "RGB" (10, 10) "poison")
              (Exn "OSError" "encoder error")) as (H1 & H2 & _).
  - reflexivity.
  - vm_compute. reflexivity.
  - vm_compute. reflexivity.
  - split; [exact H1 | exact H2].
Defined.

(** A 3x2 source goes to the encoder as 1024x1024. *)
Example png_to_jpg_upscales :
  events (@PngToJpg.main_item Toy.pillow Toy.os "/pics/set" "/pics/set_PNG" "tiny.png" 0
            (<["/pics/set/tiny.png" := "rgb-3x2"]> ∅)) =
  [EvMove "/pics/set/tiny.png" "/pics/set_PNG/tiny.png";
   EvOpen "/pics/set_PNG/tiny.png";
   EvEncode "/pics/set/tiny.jpg" "JPEG" (mkImage "RGB" (1024, 1024) "pixels")
     [("quality", KwInt 90)];
   EvPrint "Converted: tiny.png → tiny.jpg"].
Proof. vm_compute. reflexivity. Qed.

(** The same entry through the theorem: the 3x2 source is resampled to
    1024x1024, encoded at quality 90, written and counted. *)
Lemma png_to_jpg_always_1024_witness :
  In (EvEncode "/pics/set/tiny.jpg" "JPEG" (mkImage "RGB" (1024, 1024) "pixels")
        [("quality", KwInt 90)])
     (events (@PngToJpg.main_item Toy.pillow Toy.os "/pics/set" "/pics/set_PNG"
                "tiny.png" 0 (<["/pics/set/tiny.png" := "rgb-3x2"]> ∅))) /\
  outcome (@PngToJpg.main_item Toy.pillow Toy.os "/pics/set" "/pics/set_PNG"
             "tiny.png" 0 (<["/pics/set/tiny.png" := "rgb-3x2"]> ∅)) = Ok 1%nat /\
  final_fs (@PngToJpg.main_item Toy.pillow Toy.os "/pics/set" "/pics/set_PNG"
              "tiny.png" 0 (<["/pics/set/tiny.png" := "rgb-3x2"]> ∅))
    !! "/pics/set/tiny.jpg" = Some "JPEG:RGB:pixels".
Proof.
  pose proof (@png_to_jpg_always_1024 Toy.pillow Toy.os "/pics/set" "/pics/set_PNG"
                "tiny.png" 0 (<["/pics/set/tiny.png" := "rgb-3x2"]> ∅)) as H.
  cbv zeta in H. destruct H as (_ & H & _).
  destruct (H "rgb-3x2" (mkImage "RGB" (3, 2) "pixels") (mkImage "RGB" (3, 2) "pixels")
              (mkImage "RGB" (1024, 1024) "pixels"))
    as (_ & _ & _ & Henc & Hdone).
  - reflexivity.
  - vm_compute. reflexivity.
  - reflexivity.
  - reflexivity.
  - reflexivity.
  - reflexivity.
  - destruct (Hdone "JPEG:RGB:pixels") as [Hout Hfile]; try reflexivity.
    split; [exact Henc|]. split; [exact Hout | exact Hfile].
Defined.

(** * File names of the in-place worker *)

(** [os.path.join] and [+] keep the last character of their last
    argument, which tells a [.webp] name from a [.png] name. *)
Lemma str_last_app (a b : string) :
  b <> EmptyString -> str_last (a +:+ b) = str_last b.
Proof.
  intros Hb. induction a as [|c a IH]; [done|].
  change (String c a +:+ b) with (String c (a +:+ b)).
  destruct (a +:+ b) as [|d r] eqn:E.
  - destruct a as [|c' a'].
    + change (EmptyString +:+ b) with b in E. congruence.
    + change (String c' a' +:+ b) with (String c' (a' +:+ b)) in E. discriminate.
  - exact IH.
Qed.

Lemma str_endswith_last (s suf : string) :
  suf <> EmptyString -> str_endswith s suf = true -> str_last s = str_last suf.
Proof.
  intros Hs. induction s as [|c s IH].
  - destruct suf; [done|discriminate].
  - change (str_endswith (String c s) suf)
      with (String.eqb (String c s) suf || str_endswith s suf)%bool.
    intros [H%String.eqb_eq | H]%orb_true_iff; [by subst|].
    destruct s as [|d r]; [|by apply IH].
    destruct suf; [done|discriminate].
Qed.

Lemma str_last_lower (s : string) :
  str_last (str_lower s) = lower_ascii <$> str_last s.
Proof.
  induction s as [|c s IH]; [done|].
  destruct s as [|d r]; [done|]. exact IH.
Qed.

Lemma lower_ascii_g (c : ascii) :
  lower_ascii c = "g"%char -> c = "g"%char \/ c = "G"%char.
Proof.
  destruct c as [[] [] [] [] [] [] [] []]; vm_compute; intros H;
    first [discriminate H | by left | by right].
Qed.

Lemma path_join_last (a b : string) :
  b <> EmptyString -> str_last (path_join a b) = str_last b.
Proof.
  intros Hb. unfold path_join.
  repeat case_match; try done; subst;
    rewrite ?str_last_app; try done; by rewrite str_last_app.
Qed.

Lemma is_png_last (fname : string) :
  is_png fname = true -> str_last fname = Some "g"%char \/ str_last fname = Some "G"%char.
Proof.
  unfold is_png. intros H%str_endswith_last; [|done].
  rewrite str_last_lower in H. cbn in H.
  destruct (str_last fname) as [c|]; [|done].
  injection H as H%lower_ascii_g. destruct H as [-> | ->]; auto.
Qed.

(** The output of an entry is never the entry itself. *)
Lemma dst_ne_src (folder fname : string) :
  is_png fname = true ->
  path_join folder (splitext_root fname +:+ ".webp") <> path_join folder fname.
Proof.
  intros Hpng Heq. apply (f_equal str_last) in Heq.
  assert (fname <> EmptyString) by (intros ->; by vm_compute in Hpng).
  rewrite !path_join_last in Heq; [|done|by destruct (splitext_root fname)].
  rewrite str_last_app in Heq by done. cbn in Heq.
  destruct (is_png_last fname Hpng) as [E|E]; rewrite E in Heq; discriminate.
Qed.

(** The backup of an entry is never its output. *)
Lemma bak_ne_dst (folder backup_folder fname : string) :
  is_png fname = true ->
  path_join backup_folder fname <> path_join folder (splitext_root fname +:+ ".webp").
Proof.
  intros Hpng Heq.
  assert (Hl : str_last (path_join backup_folder fname) = Some "p"%char).
  { rewrite Heq, path_join_last.
    - by rewrite str_last_app.
    - by destruct (splitext_root fname). }
  rewrite path_join_last in Hl.
  - destruct (is_png_last fname Hpng) as [H|H]; rewrite H in Hl; discriminate.
  - intros ->. discriminate.
Qed.

Lemma progress_percent_ok (i total : nat) :
  (0 < total)%nat -> Z.of_nat i * 100 < 2 ^ 53 -> Z.of_nat total < 2 ^ 53 ->
  progress_percent i total = Ok (Z.of_nat i * 100 / Z.of_nat total).
Proof. intros Ht Hi Htot. apply truediv_floor; lia. Qed.

(** * The loop body of the in-place worker *)

Section LoopBody.
Context {pil : Pillow} {os : Os}.

(** What [_convert_one] can do: fail on its source; hand one image to
    [im.save] and fail there, which leaves every file but the output as it
    was; or write the output. *)
Lemma convert_one_spec (cfg : JobConfig) (src dst : string) (fs : FS) :
  (exists e, _convert_one cfg src dst fs = (Raise e, fs, [EvOpen src])) \/
  (exists e im kw fs',
     (fs' = fs \/ fs' = cut_short dst fs) /\
     _convert_one cfg src dst fs = (Raise e, fs', [EvOpen src; EvEncode dst "WEBP" im kw])) \/
  (exists im kw bytes,
     _convert_one cfg src dst fs =
       (Ok tt, <[dst := bytes]> fs, [EvOpen src; EvEncode dst "WEBP" im kw])).
Proof.
  unfold _convert_one, Image_open. unfold_M.
  destruct (fs !! src) as [b|]; [|left; by eexists].
  destruct (pil_decode b) as [im|]; [|left; by eexists].
  destruct (no_alpha cfg).
  - destruct (Image_convert im "RGB") as [im1|]; [|left; by eexists].
    destruct_save; cbn; right; [left|left|right]; eauto 10.
  - destruct (Image_convert im _) as [im1|]; [|left; by eexists].
    destruct_save; cbn; right; [left|left|right]; eauto 10.
Qed.

(** A conversion that fails leaves every file but the output as it was. *)
Lemma convert_one_failed_frame (dst : string) (fs fs' : FS) (p : string) :
  fs' = fs \/ fs' = cut_short dst fs -> p <> dst -> fs' !! p = fs !! p.
Proof. intros [-> | ->] Hne; [done|by apply cut_short_ne]. Qed.

(** C6: with overwrite off and the output already there, the entry is
    skipped: the skip line is logged, the progress is reported, nothing is
    opened or decoded, the file system is untouched, and the worker goes on
    to the next entry. *)
Theorem skip_without_decode (cfg : JobConfig) (folder backup_folder : string)
    (total i : nat) (fname : string) (converted : nat) (fs : FS) :
  overwrite cfg = false ->
  is_Some (fs !! path_join folder (splitext_root fname +:+ ".webp")) ->
  (0 < total)%nat -> Z.of_nat i * 100 < 2 ^ 53 -> Z.of_nat total < 2 ^ 53 ->
  run_item cfg folder backup_folder total i fname converted fs =
    (Ok converted, fs,
     [SigLog ("Skip (already exists): " +:+ splitext_root fname +:+ ".webp");
      SigProgress (Z.of_nat i * 100 / Z.of_nat total)]) /\
  (forall stopped pending trace,
     worker_step cfg folder backup_folder total
       (mkWState fs stopped (InItem fname) pending i converted trace) =
     mkWState fs stopped AtLoopHead pending (S i) converted
       (trace ++ [SigLog ("Skip (already exists): " +:+ splitext_root fname +:+ ".webp");
                  SigProgress (Z.of_nat i * 100 / Z.of_nat total)])).
Proof.
  intros Hov Hdst Ht Hi Htot.
  assert (Hrun : run_item cfg folder backup_folder total i fname converted fs =
    (Ok converted, fs,
     [SigLog ("Skip (already exists): " +:+ splitext_root fname +:+ ".webp");
      SigProgress (Z.of_nat i * 100 / Z.of_nat total)])).
  { unfold run_item, os_path_exists. unfold_M.
    rewrite bool_decide_true by done. rewrite Hov. cbn [negb andb].
    by rewrite progress_percent_ok. }
  split; [done|]. intros. unfold worker_step. cbn [ws_pc ws_index ws_converted ws_fs].
  by rewrite Hrun.
Qed.

(** C9: with keep_backup on and a file of the entry's name already in the
    backup folder, the entry is not moved: nothing is moved or removed, the
    source file stays as it was in the source folder, and the conversion
    opens the file of the backup folder. *)
Theorem existing_backup_is_reused (cfg : JobConfig) (folder backup_folder : string)
    (total i : nat) (fname : string) (converted : nat) (fs : FS) :
  keep_backup cfg = true ->
  is_png fname = true ->
  is_Some (fs !! path_join backup_folder fname) ->
  overwrite cfg = true \/
    fs !! path_join folder (splitext_root fname +:+ ".webp") = None ->
  let r := run_item cfg folder backup_folder total i fname converted fs in
  final_fs r !! path_join folder fname = fs !! path_join folder fname /\
  forallb (fun ev => negb (is_move_or_remove ev)) (events r) = true /\
  head (events r) = Some (EvOpen (path_join backup_folder fname)) /\
  (forall p, In (EvOpen p) (events r) -> p = path_join backup_folder fname).
Proof.
  intros Hkeep Hpng Hbak Hnoskip. cbv zeta.
  pose proof (dst_ne_src folder fname Hpng) as Hne.
  unfold run_item, run_item_try, os_path_exists. unfold_M.
  set (src := path_join folder fname) in *.
  set (bak := path_join backup_folder fname) in *.
  set (dst := path_join folder (splitext_root fname +:+ ".webp")) in *.
  clearbody src bak dst.
  assert (Hskip : (negb (overwrite cfg) && bool_decide (is_Some (fs !! dst)))%bool = false).
  { destruct Hnoskip as [-> | Hd]; [done|]. rewrite Hd.
    rewrite bool_decide_false; [by rewrite andb_false_r|]. by intros [? ?]. }
  clear Hnoskip.
  rewrite Hskip, Hkeep. rewrite (bool_decide_true _ Hbak). cbn [negb].
  destruct (convert_one_spec cfg bak dst fs)
    as [(e & ->) | [(e & im & kw & fs' & Hfs' & ->) | (im & kw & bytes & ->)]];
    simpl; destruct (progress_percent i total); simpl;
    rewrite ?lookup_insert_ne by done;
    rewrite ?(convert_one_failed_frame dst fs fs' src Hfs') by done;
    (split; [done|]); (split; [done|]); (split; [done|]);
    intros p Hin; repeat (destruct Hin as [Hin|Hin]; [congruence|]); done.
Qed.

(** C1 (amended): in in-place mode the original is never lost by a failed
    conversion.  With keep_backup off the original is removed only after
    [_convert_one] returned normally: a failed conversion leaves the
    original, and every file but the output, as it was, and an original
    that is gone means that the conversion succeeded.  With keep_backup on,
    a failed conversion leaves the original at the backup path when it was
    moved there (no file of that name was in the backup folder), and
    untouched at its original path when a file of that name already was in
    the backup folder or when the move itself failed. *)
Theorem originals_survive_failed_encode (cfg : JobConfig)
    (folder backup_folder : string) (total i : nat) (fname : string)
    (converted : nat) (fs : FS) :
  let src := path_join folder fname in
  let bak := path_join backup_folder fname in
  let dst := path_join folder (splitext_root fname +:+ ".webp") in
  let r := run_item cfg folder backup_folder total i fname converted fs in
  is_png fname = true ->
  (keep_backup cfg = false ->
   (forall e, outcome (_convert_one cfg src dst fs) = Raise e ->
      final_fs r !! src = fs !! src /\
      (forall p, p <> dst -> final_fs r !! p = fs !! p) /\
      forallb (fun ev => negb (is_move_or_remove ev)) (events r) = true) /\
   (existsb is_remove (events r) = true ->
      outcome (_convert_one cfg src dst fs) = Ok tt /\
      exists post,
        events r = events (_convert_one cfg src dst fs) ++
                   SigLog ("Converted: " +:+ fname +:+ " → " +:+ splitext_root fname +:+ ".webp")
                   :: EvRemove src :: post) /\
   (is_Some (fs !! src) -> final_fs r !! src = None ->
      outcome (_convert_one cfg src dst fs) = Ok tt)) /\
  (keep_backup cfg = true -> fs !! bak = None ->
   overwrite cfg = true \/ fs !! dst = None ->
   forall bytes,
     fs !! src = Some bytes ->
     (forall e,
        os_move_error src bak fs = None ->
        outcome (_convert_one cfg bak dst (<[bak := bytes]> (delete src fs))) = Raise e ->
        final_fs r !! bak = Some bytes /\ existsb is_remove (events r) = false) /\
     (forall e,
        os_move_error src bak fs = Some e ->
        final_fs r !! src = Some bytes /\ existsb is_remove (events r) = false /\
        In (SigLog ("Failed: " +:+ fname +:+ " -> " +:+ str_exn e)) (events r))) /\
  (keep_backup cfg = true -> is_Some (fs !! bak) ->
   forall e,
     outcome (_convert_one cfg bak dst fs) = Raise e ->
     final_fs r !! src = fs !! src /\ final_fs r !! bak = fs !! bak /\
     (forall p, p <> dst -> final_fs r !! p = fs !! p) /\
     forallb (fun ev => negb (is_move_or_remove ev)) (events r) = true).
Proof.
  cbv zeta. intros Hpng.
  pose proof (dst_ne_src folder fname Hpng) as Hds.
  pose proof (bak_ne_dst folder backup_folder fname Hpng) as Hbd.
  revert Hds Hbd.
  set (src := path_join folder fname).
  set (bak := path_join backup_folder fname).
  set (dst := path_join folder (splitext_root fname +:+ ".webp")).
  intros Hds Hbd.
  assert (Hsd : src <> dst) by congruence.
  unfold run_item, run_item_try, os_path_exists, shutil_move, os_remove.
  fold src bak dst. clearbody src bak dst. unfold_M.
  split; [|split].
  - intros Hkeep. rewrite Hkeep. cbn [negb].
    destruct (negb (overwrite cfg) && bool_decide (is_Some (fs !! dst)))%bool.
    { destruct (progress_percent i total); simpl; paths_fin. }
    destruct (convert_one_spec cfg src dst fs)
      as [(e & ->) | [(e & im & kw & fs' & Hfs' & ->) | (im & kw & bytes & ->)]]; simpl.
    + destruct (progress_percent i total); simpl; paths_fin.
    + pose proof (convert_one_failed_frame dst fs fs' src Hfs' Hsd) as Hsrc.
      pose proof (fun p => convert_one_failed_frame dst fs fs' p Hfs') as Hfr.
      destruct (progress_percent i total); simpl; paths_fin.
    + destruct (decide (is_Some (<[dst:=bytes]> fs !! src))) as [Hs|Hs].
      * rewrite (bool_decide_true _ Hs). destruct Hs as [b Hb]. rewrite Hb. simpl.
        destruct (os_remove_error src (<[dst:=bytes]> fs)); simpl;
          destruct (progress_percent i total); simpl;
          (split; [done|]); (split; [|done]); intros _; (split; [done|]);
          eexists; reflexivity.
      * rewrite (bool_decide_false _ Hs). simpl.
        destruct (progress_percent i total); simpl; paths_fin.
  - intros Hkeep Hbak Hnoskip bytes Hsrc.
    assert (Hskip : (negb (overwrite cfg) && bool_decide (is_Some (fs !! dst)))%bool = false).
    { destruct Hnoskip as [-> | Hd]; [done|]. rewrite Hd.
      rewrite bool_decide_false; [by rewrite andb_false_r|]. by intros [? ?]. }
    rewrite Hskip, Hkeep.
    assert (Hnb : ~ is_Some (fs !! bak)) by (rewrite Hbak; by intros [? ?]).
    rewrite (bool_decide_false _ Hnb).
    cbn [negb]. rewrite Hsrc.
    assert (Hsb : src <> bak) by congruence.
    split.
    + intros e Hmv Hconv. rewrite Hmv.
      destruct (convert_one_spec cfg bak dst (<[bak:=bytes]> (delete src fs)))
        as [(e' & E) | [(e' & im & kw & fs' & Hfs' & E) | (im & kw & b' & E)]];
        rewrite E in Hconv |- *; simpl in *; try discriminate;
        destruct (progress_percent i total); simpl;
        rewrite ?(convert_one_failed_frame dst _ fs' bak Hfs') by done;
        by rewrite lookup_insert_eq.
    + intros e Hmv. rewrite Hmv. simpl.
      destruct (progress_percent i total); simpl;
        rewrite move_failed_ne by done; (split; [done|]); (split; [done|]); auto.
  - intros Hkeep Hbak e Hconv. rewrite Hkeep.
    destruct (negb (overwrite cfg) && bool_decide (is_Some (fs !! dst)))%bool.
    { destruct (progress_percent i total); simpl; paths_fin. }
    rewrite (bool_decide_true _ Hbak). cbn [negb].
    destruct (convert_one_spec cfg bak dst fs)
      as [(e' & E) | [(e' & im & kw & fs' & Hfs' & E) | (im & kw & b' & E)]];
      rewrite E in Hconv |- *; simpl in *; try discriminate;
      destruct (progress_percent i total); simpl;
      try (pose proof (fun p => convert_one_failed_frame dst fs fs' p Hfs') as Hfr);
      paths_fin.
Qed.

End LoopBody.

(** A skipped entry: [c.webp] is already there. *)
Lemma skip_without_decode_witness :
  @run_item Toy.pillow Toy.os (mkJobConfig "/pics/set" true false false)
    "/pics/set" "/pics/set_PNG" 3 3 "c.png" 1
    (<["/pics/set/c.png" := "rgb-3x2"]> (<["/pics/set/c.webp" := "old"]> ∅)) =
  (Ok 1%nat, <["/pics/set/c.png" := "rgb-3x2"]> (<["/pics/set/c.webp" := "old"]> ∅),
   [SigLog "Skip (already exists): c.webp"; SigProgress 100]).
Proof.
  refine (proj1 (@skip_without_decode Toy.pillow Toy.os (mkJobConfig "/pics/set" true false false)
           "/pics/set" "/pics/set_PNG" 3 3 "c.png" 1
           (<["/pics/set/c.png" := "rgb-3x2"]> (<["/pics/set/c.webp" := "old"]> ∅))
           _ _ _ _ _)).
  - reflexivity.
  - vm_compute. eexists. reflexivity.
  - lia.
  - vm_compute. reflexivity.
  - vm_compute. reflexivity.
Defined.

(** An entry whose name is already taken in the backup folder. *)
Lemma existing_backup_is_reused_witness :
  let fs : FS := <["/pics/set/b.png" := "rgb-3x2"]>
                   (<["/pics/set_PNG/b.png" := "old-rgb-8x8"]> ∅) in
  let r := @run_item Toy.pillow Toy.os (mkJobConfig "/pics/set" true false false)
             "/pics/set" "/pics/set_PNG" 2 1 "b.png" 0 fs in
  final_fs r !! path_join "/pics/set" "b.png" = fs !! path_join "/pics/set" "b.png" /\
  forallb (fun ev => negb (is_move_or_remove ev)) (events r) = true /\
  head (events r) = Some (EvOpen (path_join "/pics/set_PNG" "b.png")) /\
  (forall p, In (EvOpen p) (events r) -> p = path_join "/pics/set_PNG" "b.png").
Proof.
  refine (@existing_backup_is_reused Toy.pillow Toy.os (mkJobConfig "/pics/set" true false false)
            "/pics/set" "/pics/set_PNG" 2 1 "b.png" 0
            (<["/pics/set/b.png" := "rgb-3x2"]>
               (<["/pics/set_PNG/b.png" := "old-rgb-8x8"]> ∅)) _ _ _ _).
  - reflexivity.
  - vm_compute. reflexivity.
  - vm_compute. eexists. reflexivity.
  - right. vm_compute. reflexivity.
Defined.

(** C1 as stated fails: with keep_backup on and a file of the same name
    already in the backup folder, a failed encode leaves the original in
    the source folder; what sits at the backup path is the older file. *)
Lemma failed_encode_original_not_at_backup :
  let fs : FS := <["/pics/set/b.png" := "rgb-3x2"]>
                   (<["/pics/set_PNG/b.png" := "rgb-poison"]> ∅) in
  let r := @run_item Toy.pillow Toy.os (mkJobConfig "/pics/set" true false false)
             "/pics/set" "/pics/set_PNG" 1 1 "b.png" 0 fs in
  events r = [EvOpen "/pics/set_PNG/b.png";
              EvEncode "/pics/set/b.webp" "WEBP" (mkImage "RGB" (10, 10) "poison")
                [("lossless", KwBool true); ("method", KwInt 6)];
              SigLog "Failed: b.png -> encoder error";
              SigProgress 100] /\
  fs !! "/pics/set/b.png" = Some "rgb-3x2" /\
  final_fs r !! "/pics/set_PNG/b.png" = Some "rgb-poison" /\
  final_fs r !! "/pics/set/b.png" = Some "rgb-3x2".
Proof. vm_compute. repeat split; reflexivity. Qed.

(** A moved original whose encoding fails is found at the backup path; an
    original converted in place whose encoding fails, over an output that
    was already there, is still in the source folder. *)
Lemma originals_survive_failed_encode_witness :
  (let fs : FS := <["/pics/set/b.png" := "rgb-poison"]> ∅ in
   let r := @run_item Toy.pillow Toy.os (mkJobConfig "/pics/set" true false false)
              "/pics/set" "/pics/set_PNG" 1 1 "b.png" 0 fs in
   final_fs r !! "/pics/set_PNG/b.png" = Some "rgb-poison" /\
   existsb is_remove (events r) = false) /\
  (let fs : FS := <["/pics/set/b.png" := "rgb-poison"]>
                    (<["/pics/set/b.webp" := "old"]> ∅) in
   let r := @run_item Toy.pillow Toy.os (mkJobConfig "/pics/set" false true false)
              "/pics/set" "/pics/set_PNG" 1 1 "b.png" 0 fs in
   final_fs r !! "/pics/set/b.png" = Some "rgb-poison").
Proof.
  split.
  - pose proof (@originals_survive_failed_encode Toy.pillow Toy.os
                  (mkJobConfig "/pics/set" true false false)
                  "/pics/set" "/pics/set_PNG" 1 1 "b.png" 0
                  (<["/pics/set/b.png" := "rgb-poison"]> ∅)) as H.
    cbv zeta in H.
    assert (Hpng : is_png "b.png" = true) by (vm_compute; reflexivity).
    destruct (H Hpng) as (_ & H2 & _).
    assert (Hbak : (<["/pics/set/b.png" := "rgb-poison"]> ∅ : FS)
                     !! path_join "/pics/set_PNG" "b.png" = None)
      by (vm_compute; reflexivity).
    assert (Hdst : (<["/pics/set/b.png" := "rgb-poison"]> ∅ : FS)
                     !! path_join "/pics/set" (splitext_root "b.png" +:+ ".webp") = None)
      by (vm_compute; reflexivity).
    assert (Hsrc : (<["/pics/set/b.png" := "rgb-poison"]> ∅ : FS)
                     !! path_join "/pics/set" "b.png" = Some "rgb-poison")
      by (vm_compute; reflexivity).
    destruct (H2 eq_refl Hbak (or_intror Hdst) "rgb-poison" Hsrc) as [Ha _].
    apply (Ha (Exn "OSError" "encoder error")); vm_compute; reflexivity.
  - pose proof (@originals_survive_failed_encode Toy.pillow Toy.os
                  (mkJobConfig "/pics/set" false true false)
                  "/pics/set" "/pics/set_PNG" 1 1 "b.png" 0
                  (<["/pics/set/b.png" := "rgb-poison"]>
                     (<["/pics/set/b.webp" := "old"]> ∅))) as H.
    cbv zeta in H.
    assert (Hpng : is_png "b.png" = true) by (vm_compute; reflexivity).
    destruct (H Hpng) as (H1 & _).
    destruct (H1 eq_refl) as (Ha & _).
    destruct (Ha (Exn "OSError" "encoder error")) as (Hsrc & _).
    + vm_compute. reflexivity.
    + cbv zeta. etrans; [exact Hsrc|]. vm_compute. reflexivity.
Defined.

(** The output that was there is lost in that run: the file is opened
    for writing before the encoder fails. *)
Example failed_encode_empties_existing_output :
  final_fs (@run_item Toy.pillow Toy.os (mkJobConfig "/pics/set" false true false)
              "/pics/set" "/pics/set_PNG" 1 1 "b.png" 0
              (<["/pics/set/b.png" := "rgb-poison"]>
                 (<["/pics/set/b.webp" := "old"]> ∅)))
    !! "/pics/set/b.webp" = Some "".
Proof. vm_compute. reflexivity. Qed.

(** * Batch export of delta_pix.py *)

Section Batch.
Context {pil : Pillow} {os : Os}.

(** [load_image] never raises and leaves the file system alone. *)
Lemma load_image_spec (path : string) (fs : FS) :
  (exists im, load_image path fs = (Ok (Some im), fs, [EvOpen path])) \/
  (exists e, load_image path fs =
     (Ok None, fs, [EvOpen path; EvPrint ("load_image error: " +:+ str_exn e)])).
Proof.
  unfold load_image, Image_open. unfold_M.
  destruct (fs !! path) as [b|]; [|right; by eexists].
  destruct (pil_decode b); [left|right]; by eexists.
Qed.

(** [_save_one] always returns a pair. *)
Lemma save_one_total (img : Image) (out_path fmt : string)
    (cfg : ExportSettings) (fs : FS) :
  exists ok msg fs' evs, _save_one img out_path fmt cfg fs = (Ok (ok, msg), fs', evs).
Proof.
  unfold _save_one. unfold_M.
  destruct (_save_one_body img out_path fmt cfg fs) as [[[[ok msg]|e] fs1] ev1].
  - by exists ok, msg, fs1, ev1.
  - by exists false, (str_exn e), fs1, (ev1 ++ []).
Qed.

(** The loops of [_export_batch] always return, with the errors so far
    as a prefix. *)
Lemma export_formats_total (img : Image) (path base out_dir : string)
    (cfg : ExportSettings) (fmts : list string) (errors : list string) (fs : FS) :
  exists errs fs' evs,
    export_formats img path base out_dir cfg fmts errors fs = (Ok (errors ++ errs), fs', evs).
Proof.
  revert errors fs. induction fmts as [|fmt rest IH]; intros errors fs.
  - exists [], fs, []. cbn. by rewrite app_nil_r.
  - cbn [export_formats]. unfold_M.
    destruct (save_one_total img (path_join out_dir (base +:+ format_ext fmt)) fmt cfg fs)
      as (ok & msg & fs1 & ev1 & ->).
    destruct ok.
    + destruct (IH errors fs1) as (errs & fs2 & ev2 & ->). by exists errs, fs2, (ev1 ++ ev2).
    + destruct (IH (errors ++ [basename path +:+ " → " +:+ fmt +:+ ": " +:+ msg]) fs1)
        as (errs & fs2 & ev2 & ->).
      exists ((basename path +:+ " → " +:+ fmt +:+ ": " +:+ msg) :: errs), fs2, (ev1 ++ ev2).
      rewrite <- (app_assoc errors [_] errs). reflexivity.
Qed.

Lemma export_images_total (out_dir : string) (cfg : ExportSettings)
    (images : list string) (errors : list string) (fs : FS) :
  exists errs fs' evs,
    export_images out_dir cfg images errors fs = (Ok (errors ++ errs), fs', evs).
Proof.
  revert errors fs. induction images as [|path rest IH]; intros errors fs.
  - exists [], fs, []. cbn. by rewrite app_nil_r.
  - cbn [export_images]. unfold mbind, M_bind, bind.
    destruct (load_image_spec path fs) as [(im & ->)|(e & ->)].
    + destruct (export_formats_total im path (splitext_root (basename path)) out_dir cfg
                  (formats cfg) errors fs) as (errs1 & fs1 & ev1 & ->).
      destruct (IH (errors ++ errs1) fs1) as (errs2 & fs2 & ev2 & ->).
      exists (errs1 ++ errs2), fs2. eexists.
      rewrite (app_assoc errors errs1 errs2). reflexivity.
    + destruct (IH (errors ++ ["Open failed: " +:+ path]) fs) as (errs & fs2 & ev2 & ->).
      exists (("Open failed: " +:+ path) :: errs), fs2. eexists.
      rewrite <- (app_assoc errors [_] errs). reflexivity.
Qed.

(** C7 (amended): in batch export a source that fails to decode yields
    exactly one error entry, "Open failed: <path>", whatever the requested
    formats; nothing is encoded or written for it, and the batch goes on
    with the remaining sources and always returns its list of errors. *)
Theorem undecodable_source_one_error (out_dir : string) (cfg : ExportSettings)
    (path : string) (rest : list string) (errors : list string) (fs : FS) :
  outcome (load_image path fs) = Ok None ->
  (let r := export_images out_dir cfg rest (errors ++ ["Open failed: " +:+ path]) fs in
   export_images out_dir cfg (path :: rest) errors fs =
     (outcome r, final_fs r, events (load_image path fs) ++ events r)) /\
  existsb is_encode (events (load_image path fs)) = false /\
  final_fs (load_image path fs) = fs /\
  (exists errs,
     outcome (export_images out_dir cfg (path :: rest) errors fs)
       = Ok (errors ++ ("Open failed: " +:+ path) :: errs)) /\
  (forall images, exists errs,
     outcome (_export_batch images out_dir cfg fs) = Ok errs).
Proof.
  intros Hload.
  assert (Hl : exists e, load_image path fs =
     (Ok None, fs, [EvOpen path; EvPrint ("load_image error: " +:+ str_exn e)])).
  { destruct (load_image_spec path fs) as [(im & E)|H]; [|done].
    rewrite E in Hload. discriminate. }
  destruct Hl as (e & Hl).
  assert (Hstep : export_images out_dir cfg (path :: rest) errors fs =
     (outcome (export_images out_dir cfg rest (errors ++ ["Open failed: " +:+ path]) fs),
      final_fs (export_images out_dir cfg rest (errors ++ ["Open failed: " +:+ path]) fs),
      events (load_image path fs) ++
      events (export_images out_dir cfg rest (errors ++ ["Open failed: " +:+ path]) fs))).
  { cbn [export_images]. unfold mbind, M_bind, bind. rewrite Hl.
    unfold outcome, final_fs, events.
    by destruct (export_images out_dir cfg rest _ fs) as [[? ?] ?]. }
  split; [exact Hstep|]. rewrite Hl. split; [done|]. split; [done|]. split.
  - rewrite Hstep.
    destruct (export_images_total out_dir cfg rest (errors ++ ["Open failed: " +:+ path]) fs)
      as (errs & fs2 & ev2 & ->).
    exists errs. unfold outcome. cbn. by rewrite <- app_assoc.
  - intros images. unfold _export_batch. unfold_M.
    destruct (export_images_total out_dir cfg images [] fs) as (errs & fs2 & ev2 & ->).
    exists errs. cbn. by destruct errs.
Qed.

End Batch.

(** C7 as stated fails: with formats PNG and JPEG and one source that does
    not decode, the batch reports one error, "Open failed: <path>", not one
    per format, and the entry does not carry the decoder's message. *)
Lemma corrupt_source_reports_once :
  let cfg := mkExportSettings ["PNG"; "JPEG"] 100 true 90 false 90 false 0 0 in
  let fs : FS := <["/in/bad.png" := "garbage"]> ∅ in
  let r := @_export_batch Toy.pillow Toy.os ["/in/bad.png"] "/out" cfg fs in
  outcome r = Ok ["Open failed: /in/bad.png"] /\
  events r = [EvOpen "/in/bad.png";
              EvPrint "load_image error: cannot identify image file";
              EvDialog Warning "Export Done (with errors)" "Open failed: /in/bad.png"] /\
  final_fs r = fs.
Proof. vm_compute. repeat split; reflexivity. Qed.

(** A batch of one undecodable and one good source. *)
Lemma undecodable_source_one_error_witness :
  let cfg := mkExportSettings ["PNG"; "JPEG"] 100 true 90 false 90 false 0 0 in
  let fs : FS := <["/in/bad.png" := "garbage"]> (<["/in/ok.png" := "rgba-100x60"]> ∅) in
  exists errs,
    outcome (@export_images Toy.pillow Toy.os "/out" cfg ["/in/bad.png"; "/in/ok.png"] [] fs)
      = Ok ([] ++ "Open failed: /in/bad.png" :: errs).
Proof.
  refine (proj1 (proj2 (proj2 (proj2 (@undecodable_source_one_error Toy.pillow Toy.os "/out"
            (mkExportSettings ["PNG"; "JPEG"] 100 true 90 false 90 false 0 0)
            "/in/bad.png" ["/in/ok.png"] []
            (<["/in/bad.png" := "garbage"]> (<["/in/ok.png" := "rgba-100x60"]> ∅)) _))))).
  vm_compute. reflexivity.
Defined.

(** * The stop flag of the in-place worker *)

Section Machine.
Context {pil : Pillow} {os : Os}.
Variables (cfg : JobConfig) (folder backup_folder : string) (total : nat).

(** Setting a set flag changes nothing. *)
Lemma stop_idempotent (s : WState) : ws_stopped s = true -> stop s = s.
Proof. destruct s. cbn. by intros ->. Qed.

(** A finished worker stays as it is. *)
Lemma exec_finished (sched : list action) (s : WState) :
  ws_stopped s = true -> ws_pc s = Finished ->
  exec cfg folder backup_folder total sched s = s.
Proof.
  intros Hst Hpc. induction sched as [|[|] rest IH]; cbn [exec]; [done| |].
  - unfold worker_step. by rewrite Hpc.
  - by rewrite stop_idempotent.
Qed.

Lemma exec_stopped (sched : list action) (s : WState) :
  ws_stopped s = true ->
  ws_stopped (exec cfg folder backup_folder total sched s) = true.
Proof.
  revert s. induction sched as [|[|] rest IH]; intros s Hst; cbn [exec]; [done| |].
  - apply IH. unfold worker_step, finish.
    repeat case_match; cbn; done.
  - apply IH. by destruct s.
Qed.

(** One loop body always comes back: the [try] block cannot raise, and
    the progress value is the floor of [i * 100 / total]. *)
Lemma run_item_returns (i : nat) (fname : string) (converted : nat) (fs : FS) :
  (0 < total)%nat -> Z.of_nat i * 100 < 2 ^ 53 -> Z.of_nat total < 2 ^ 53 ->
  exists c fs' evs,
    run_item cfg folder backup_folder total i fname converted fs =
      (Ok c, fs', evs ++ [SigProgress (Z.of_nat i * 100 / Z.of_nat total)]).
Proof.
  intros Ht Hi Htot. unfold run_item, os_path_exists. unfold_M.
  rewrite (progress_percent_ok i total Ht Hi Htot).
  destruct (negb (overwrite cfg) && _)%bool.
  - eexists _, _, [_]. reflexivity.
  - destruct (run_item_try cfg folder backup_folder fname converted fs)
      as [[[c|e] fs1] ev1]; simpl.
    + exists c, fs1, ev1. reflexivity.
    + exists converted, fs1,
        (ev1 ++ [SigLog ("Failed: " +:+ fname +:+ " -> " +:+ str_exn e)]).
      simpl. by rewrite <- app_assoc.
Qed.

(** With the flag set, one step at the loop head ends the run. *)
Lemma step_stopped_head (s : WState) :
  ws_stopped s = true -> ws_pc s = AtLoopHead ->
  worker_step cfg folder backup_folder total s = finish s (stop_events s).
Proof.
  intros H1 H2. unfold worker_step, stop_events. rewrite H2, H1.
  by destruct (ws_pending s).
Qed.

(** With the flag set and the worker at the loop head, the run is over as
    soon as the worker is scheduled. *)
Lemma exec_stopped_head (sched : list action) (s : WState) :
  ws_stopped s = true -> ws_pc s = AtLoopHead -> (1 <= works sched)%nat ->
  exec cfg folder backup_folder total sched s = finish s (stop_events s).
Proof.
  intros Hst Hpc. induction sched as [|[|] rest IH]; cbn [exec works].
  - lia.
  - intros _. rewrite step_stopped_head by done. by apply exec_finished.
  - intros Hw. rewrite stop_idempotent by done. by apply IH.
Qed.

(** With the flag set during an entry, the entry is completed and the run
    is over at the next visit of the loop head. *)
Lemma exec_stopped_item (sched : list action) (s : WState) (fname : string)
    (c : nat) (fs' : FS) (evs : list event) :
  ws_stopped s = true -> ws_pc s = InItem fname ->
  run_item cfg folder backup_folder total (ws_index s) fname (ws_converted s) (ws_fs s)
    = (Ok c, fs', evs) ->
  (2 <= works sched)%nat ->
  exec cfg folder backup_folder total sched s =
    mkWState fs' true Finished (ws_pending s) (S (ws_index s)) c
      (ws_trace s ++ evs ++
       match ws_pending s with
       | [] => [SigDone c]
       | _ :: _ => [SigLog "Stopped by user."; SigDone c]
       end).
Proof.
  intros Hst Hpc Hrun. induction sched as [|[|] rest IH]; cbn [exec works].
  - lia.
  - intros Hw. unfold worker_step at 1. rewrite Hpc, Hrun, Hst.
    rewrite exec_stopped_head by (done || lia).
    unfold finish, stop_events. cbn. rewrite <- app_assoc. by destruct (ws_pending s).
  - intros Hw. rewrite stop_idempotent by done. by apply IH.
Qed.

(** C8: [stop] sets the flag and nothing else, and the flag stays set.
    Once it is set the worker starts no further entry: the flag is read
    at the loop head, before each entry, and from there the run ends with
    the line [Stopped by user.] (when entries were still waiting) and
    [done(converted)], with the waiting entries and every file left as
    they were.  An entry in progress when [stop] is called runs to
    completion exactly as it would have without the call, its conversion
    is counted, and the run then ends in the same way, with the [done]
    event carrying the count. *)
Theorem stop_is_cooperative (s : WState) (sched : list action) :
  (0 < total)%nat -> Z.of_nat (ws_index s) * 100 < 2 ^ 53 -> Z.of_nat total < 2 ^ 53 ->
  let step := worker_step cfg folder backup_folder total in
  let s' := exec cfg folder backup_folder total (Stop :: sched) s in
  (ws_stopped (stop s) = true /\ ws_pc (stop s) = ws_pc s /\ ws_fs (stop s) = ws_fs s /\
   ws_pending (stop s) = ws_pending s /\ ws_index (stop s) = ws_index s /\
   ws_converted (stop s) = ws_converted s /\ ws_trace (stop s) = ws_trace s) /\
  ws_stopped s' = true /\
  (ws_pc s = AtLoopHead -> (1 <= works sched)%nat ->
   ws_pc s' = Finished /\
   ws_trace s' =
     ws_trace s ++
     match ws_pending s with
     | [] => [SigDone (ws_converted s)]
     | _ :: _ => [SigLog "Stopped by user."; SigDone (ws_converted s)]
     end /\
   ws_fs s' = ws_fs s /\ ws_converted s' = ws_converted s /\
   ws_pending s' = ws_pending s) /\
  (forall fname, ws_pc s = InItem fname ->
   exists c fs' evs,
     run_item cfg folder backup_folder total (ws_index s) fname (ws_converted s) (ws_fs s)
       = (Ok c, fs', evs) /\
     last evs = Some (SigProgress (Z.of_nat (ws_index s) * 100 / Z.of_nat total)) /\
     ((2 <= works sched)%nat ->
      ws_pc s' = Finished /\
      ws_trace s' =
        ws_trace s ++ evs ++
        match ws_pending s with
        | [] => [SigDone c]
        | _ :: _ => [SigLog "Stopped by user."; SigDone c]
        end /\
      ws_fs s' = fs' /\ ws_converted s' = c /\ ws_pending s' = ws_pending s)) /\
  (forall s0 fname, ws_pc s0 = InItem fname -> step (stop s0) = stop (step s0)).
Proof.
  intros Ht Hi Htot. cbv zeta. cbn [exec].
  assert (Hst : ws_stopped (stop s) = true) by done.
  split; [done|]. split; [by apply exec_stopped|]. split; [|split].
  - intros Hpc Hw. rewrite exec_stopped_head by done.
    unfold finish, stop_events, stop. cbn. by destruct (ws_pending s).
  - intros fname Hpc.
    destruct (run_item_returns (ws_index s) fname (ws_converted s) (ws_fs s) Ht Hi Htot)
      as (c & fs' & evs & Hrun).
    exists c, fs', (evs ++ [SigProgress (Z.of_nat (ws_index s) * 100 / Z.of_nat total)]).
    split; [done|]. split; [by rewrite last_snoc|].
    intros Hw.
    rewrite (exec_stopped_item sched (stop s) fname c fs'
               (evs ++ [SigProgress (Z.of_nat (ws_index s) * 100 / Z.of_nat total)]))
      by done.
    done.
  - intros s0 fname Hpc. unfold worker_step, stop. cbn. rewrite Hpc.
    by destruct (run_item _ _ _ _ _ _ _ _) as [[[c|e] fs1] ev1].
Qed.

End Machine.

(** A stop requested while [a.png] is being converted and [b.png] waits:
    [a.png] is converted and counted, [b.png] is not started. *)
Lemma stop_is_cooperative_witness :
  let cfg := mkJobConfig "/pics/set" true false false in
  let fs : FS := <["/pics/set/a.png" := "rgba-100x60"]>
                   (<["/pics/set/b.png" := "rgb-3x2"]> ∅) in
  let s := mkWState fs false (InItem "a.png") ["b.png"] 1 0 [] in
  let s' := @exec Toy.pillow Toy.os cfg "/pics/set" "/pics/set_PNG" 2
              [Stop; Work; Work; Work] s in
  exists c fs' evs,
    @run_item Toy.pillow Toy.os cfg "/pics/set" "/pics/set_PNG" 2 1 "a.png" 0 fs
      = (Ok c, fs', evs) /\
    ws_pc s' = Finished /\
    ws_trace s' = [] ++ evs ++ [SigLog "Stopped by user."; SigDone c] /\
    ws_fs s' = fs' /\ ws_converted s' = c /\ ws_pending s' = ["b.png"].
Proof.
  cbv zeta.
  destruct (@stop_is_cooperative Toy.pillow Toy.os
              (mkJobConfig "/pics/set" true false false) "/pics/set" "/pics/set_PNG" 2
              (mkWState (<["/pics/set/a.png" := "rgba-100x60"]>
                           (<["/pics/set/b.png" := "rgb-3x2"]> ∅))
                        false (InItem "a.png") ["b.png"] 1 0 [])
              [Work; Work; Work])
    as (_ & _ & _ & H & _).
  - lia.
  - vm_compute. reflexivity.
  - vm_compute. reflexivity.
  - destruct (H "a.png" eq_refl) as (c & fs' & evs & Hrun & _ & Hend).
    exists c, fs', evs. split; [exact Hrun|].
    apply Hend. cbn. lia.
Defined.

(** The same run in full: one conversion, then the stop line and
    [done(1)]; [b.png] is neither opened nor moved. *)
Example stop_during_first_entry :
  ws_trace (@exec Toy.pillow Toy.os (mkJobConfig "/pics/set" true false false)
              "/pics/set" "/pics/set_PNG" 2 [Stop; Work; Work; Work]
              (mkWState (<["/pics/set/a.png" := "rgba-100x60"]>
                           (<["/pics/set/b.png" := "rgb-3x2"]> ∅))
                        false (InItem "a.png") ["b.png"] 1 0 [])) =
  [EvMove "/pics/set/a.png" "/pics/set_PNG/a.png";
   EvOpen "/pics/set_PNG/a.png";
   EvEncode "/pics/set/a.webp" "WEBP" (mkImage "RGBA" (100, 60) "pixels")
     [("lossless", KwBool true); ("method", KwInt 6)];
   SigLog "Converted: a.png → a.webp";
   SigProgress 50;
   SigLog "Stopped by user.";
   SigDone 1].
Proof. vm_compute. reflexivity. Qed.

Import PngToJpg.

(** * More facts on file names *)

Lemma has_sep_app (a b : string) :
  has_sep (a +:+ b) = (has_sep a || has_sep b)%bool.
Proof.
  induction a as [|c a IH]; [done|].
  change (String c a +:+ b) with (String c (a +:+ b)). cbn [has_sep].
  rewrite IH. by destruct (Ascii.eqb c "/").
Qed.

Lemma has_sep_basename (p : string) : has_sep (basename p) = false.
Proof.
  induction p as [|c p IH]; [done|]. cbn [basename].
  destruct (has_sep p) eqn:Hp; [done|].
  destruct (Ascii.eqb c "/") eqn:Hc; [done|].
  cbn [has_sep]. by rewrite Hc, Hp.
Qed.

Lemma rsplit_dot_app (s pre ext : string) :
  rsplit_dot s = Some (pre, ext) -> s = pre +:+ ext.
Proof.
  revert pre ext. induction s as [|c s IH]; intros pre ext; [done|].
  cbn [rsplit_dot]. destruct (rsplit_dot s) as [[pre' ext']|].
  - intros [= <- <-]. change (String c pre' +:+ ext') with (String c (pre' +:+ ext')).
    f_equal. by apply IH.
  - destruct (Ascii.eqb c "."); [|done]. by intros [= <- <-].
Qed.

Lemma has_sep_splitext_root (name : string) :
  has_sep name = false -> has_sep (splitext_root name) = false.
Proof.
  intros Hn. unfold splitext_root.
  destruct (rsplit_dot name) as [[pre ext]|] eqn:E; [|done].
  destruct (all_dots pre); [done|].
  apply rsplit_dot_app in E. rewrite E, has_sep_app in Hn.
  by apply orb_false_iff in Hn as [? _].
Qed.

Lemma str_length_app (a b : string) :
  String.length (a +:+ b) = (String.length a + String.length b)%nat.
Proof.
  induction a as [|c a IH]; [done|].
  change (String c a +:+ b) with (String c (a +:+ b)). cbn [String.length]. by rewrite IH.
Qed.

(** Two strings that are equal have the same suffix of a given length. *)
Lemma str_app_inv_suffix (x y t1 t2 : string) :
  String.length t1 = String.length t2 ->
  x +:+ t1 = y +:+ t2 -> x = y /\ t1 = t2.
Proof.
  revert y. induction x as [|c x IH]; intros [|d y] Hlen Heq.
  - done.
  - exfalso. change ("" +:+ t1) with t1 in Heq. rewrite Heq in Hlen.
    rewrite str_length_app in Hlen. cbn [String.length] in Hlen. lia.
  - exfalso. change ("" +:+ t2) with t2 in Heq. rewrite <- Heq in Hlen.
    rewrite str_length_app in Hlen. cbn [String.length] in Hlen. lia.
  - change (String c x +:+ t1) with (String c (x +:+ t1)) in Heq.
    change (String d y +:+ t2) with (String d (y +:+ t2)) in Heq.
    injection Heq as -> Heq. destruct (IH y Hlen Heq) as [-> ->]. done.
Qed.

Lemma str_lower_app (a b : string) :
  str_lower (a +:+ b) = str_lower a +:+ str_lower b.
Proof.
  induction a as [|c a IH]; [done|].
  change (String c a +:+ b) with (String c (a +:+ b)). cbn [str_lower].
  rewrite IH. done.
Qed.

Lemma str_lower_length (s : string) : String.length (str_lower s) = String.length s.
Proof. induction s as [|c s IH]; [done|]. cbn. by rewrite IH. Qed.

(** A name that ends with a suffix is a stem followed by that suffix. *)
Lemma str_endswith_app (s suf : string) :
  str_endswith s suf = true -> exists stem, s = stem +:+ suf.
Proof.
  induction s as [|c s IH]; cbn [str_endswith].
  - rewrite orb_false_r. intros ->%String.eqb_eq. by exists "".
  - intros [->%String.eqb_eq | H]%orb_true_iff; [by exists ""|].
    destruct (IH H) as [stem ->]. by exists (String c stem).
Qed.

(** The names the tools convert: a stem and an extension that reads
    [".png"] in lower case. *)
Lemma is_png_split (fname : string) :
  is_png fname = true ->
  exists stem ext, fname = stem +:+ ext /\ str_lower ext = ".png".
Proof.
  unfold is_png. induction fname as [|c s IH].
  - cbn. discriminate.
  - cbn [str_lower str_endswith].
    intros [Heq%String.eqb_eq | H]%orb_true_iff.
    + exists "", (String c s). done.
    + destruct (IH H) as (stem & ext & -> & Hext). by exists (String c stem), ext.
Qed.

Lemma lower_ascii_dot (c : ascii) : lower_ascii c = "."%char -> c = "."%char.
Proof.
  destruct c as [[] [] [] [] [] [] [] []]; vm_compute; congruence.
Qed.

Lemma lower_ascii_not_dot (c d : ascii) :
  lower_ascii c = d -> d <> "."%char -> Ascii.eqb c "." = false.
Proof.
  intros H Hd. destruct (Ascii.eqb_spec c "."); [|done]. subst. by vm_compute in Hd.
Qed.

(** [rsplit_dot] finds the extension of such a name. *)
Lemma rsplit_dot_png (stem ext : string) :
  str_lower ext = ".png" -> rsplit_dot (stem +:+ ext) = Some (stem, ext).
Proof.
  intros Hext.
  assert (Hbase : rsplit_dot ext = Some ("", ext)).
  { destruct ext as [|c0 [|c1 [|c2 [|c3 [|]]]]]; try discriminate.
    cbn [str_lower] in Hext. injection Hext as H0 H1 H2 H3.
    apply lower_ascii_dot in H0 as ->.
    cbn [rsplit_dot].
    rewrite (lower_ascii_not_dot _ _ H3), (lower_ascii_not_dot _ _ H2),
      (lower_ascii_not_dot _ _ H1) by done.
    done. }
  induction stem as [|c stem IH]; [done|].
  change (String c stem +:+ ext) with (String c (stem +:+ ext)).
  cbn [rsplit_dot]. by rewrite IH.
Qed.

Lemma splitext_root_png (stem ext : string) :
  str_lower ext = ".png" ->
  splitext_root (stem +:+ ext) = if all_dots stem then stem +:+ ext else stem.
Proof. intros Hext. unfold splitext_root. by rewrite rsplit_dot_png. Qed.

(** [os.path.join] keeps its second argument as the end of the path. *)
Lemma path_join_suffix (a b : string) : exists pfx, path_join a b = pfx +:+ b.
Proof.
  unfold path_join.
  assert (H : exists pfx, (if (String.eqb a "" || str_endswith a "/")%bool
                           then a +:+ b else a +:+ "/" +:+ b) = pfx +:+ b).
  { destruct (String.eqb a "" || str_endswith a "/")%bool; [by exists a|].
    exists (a +:+ "/"). clear. induction a as [|c a IH]; [done|].
    change (String c a +:+ "/" +:+ b) with (String c (a +:+ "/" +:+ b)).
    change ((String c a +:+ "/") +:+ b) with (String c ((a +:+ "/") +:+ b)).
    by rewrite IH. }
  destruct b as [|c b]; [done|].
  destruct (Ascii.eqb_spec c "/") as [->|Hc].
  - by exists "".
  - destruct c as [[] [] [] [] [] [] [] []]; try done.
Qed.

Lemma str_app_assoc (a b c : string) : (a +:+ b) +:+ c = a +:+ (b +:+ c).
Proof.
  induction a as [|x a IH]; [done|].
  change ((String x a +:+ b) +:+ c) with (String x ((a +:+ b) +:+ c)).
  by rewrite IH.
Qed.

(** A path that ends in [".jpg"] or [".webp"] is not the path of a PNG
    entry, whatever the two folders. *)
Lemma png_path_ne_other_ext (a b fname root suf : string) :
  is_png fname = true ->
  String.length suf = 4%nat -> str_lower suf <> ".png" ->
  path_join a (root +:+ suf) <> path_join b fname.
Proof.
  intros (stem & ext & -> & Hext)%is_png_split Hlen Hsuf Heq.
  destruct (path_join_suffix a (root +:+ suf)) as [p1 E1].
  destruct (path_join_suffix b (stem +:+ ext)) as [p2 E2].
  rewrite E1, E2, <- !str_app_assoc in Heq.
  apply str_app_inv_suffix in Heq as [_ ->].
  - done.
  - rewrite Hlen, <- (str_lower_length ext), Hext. done.
Qed.

(** * More on the resize transform *)

Section ResizeMore.
Context {pil : Pillow} {os : Os}.

(** X1: an image that is already within the bounds is returned as it is: the
    clamp never enlarges and does not resample. *)
Theorem apply_resize_identity_within_bounds (img : Image) (max_w max_h : Z) :
  max_w <= 0 \/ (im_size img).1 <= max_w ->
  max_h <= 0 \/ (im_size img).2 <= max_h ->
  _apply_resize img 100 max_w max_h = Ok img.
Proof. apply apply_resize_noop. Qed.

(** X2: the transform is idempotent: its result goes through the clamp
    unchanged. *)
Theorem apply_resize_idempotent (img img' : Image) (pct max_w max_h : Z) :
  0 < (im_size img).1 < 2 ^ 31 -> 0 < (im_size img).2 < 2 ^ 31 ->
  1 <= pct <= 100 ->
  _apply_resize img pct max_w max_h = Ok img' ->
  _apply_resize img' 100 max_w max_h = Ok img'.
Proof.
  intros Hw Hh Hp Hres.
  rewrite apply_resize_split in Hres.
  pose proof (apply_resize_percent img pct Hw Hh Hp) as Hpct.
  destruct (_apply_resize img pct 0 0) as [img1|e] eqn:E1; [|discriminate].
  cbn [mbind result_bind rbind] in Hres.
  pose proof (percent_dim_bounds _ pct Hw Hp) as Bw.
  pose proof (percent_dim_bounds _ pct Hh Hp) as Bh.
  assert (Hsz1 : im_size img1 = (Z.max 1 ((im_size img).1 * pct / 100),
                                 Z.max 1 ((im_size img).2 * pct / 100))).
  { destruct (Z.eqb_spec pct 100) as [->|Hne].
    - assert (Heq : img1 = img) by congruence. rewrite Heq, !Z.div_mul by lia.
      destruct (im_size img) as [w h]. cbn [fst snd] in *. f_equal; lia.
    - symmetry in Hpct. by apply Image_resize_ok in Hpct as [-> _]. }
  destruct (apply_resize_clamp_bounds img1 img' max_w max_h) as (B1 & B2 & B3 & B4).
  { rewrite Hsz1. cbn [fst snd]. lia. }
  { rewrite Hsz1. cbn [fst snd]. lia. }
  { done. }
  apply apply_resize_noop.
  - destruct (Z_lt_le_dec 0 max_w); [right; auto|left; lia].
  - destruct (Z_lt_le_dec 0 max_h); [right; auto|left; lia].
Qed.
End ResizeMore.

Lemma apply_resize_identity_within_bounds_witness :
  @_apply_resize Toy.pillow (mkImage "RGBA" (100, 60) "pixels") 100 200 0 =
    Ok (mkImage "RGBA" (100, 60) "pixels").
Proof.
  apply (@apply_resize_identity_within_bounds Toy.pillow); cbn; [right|left]; lia.
Defined.

Lemma apply_resize_idempotent_witness :
  @_apply_resize Toy.pillow (mkImage "RGBA" (40, 24) "pixels") 100 40 0 =
    Ok (mkImage "RGBA" (40, 24) "pixels").
Proof.
  apply (@apply_resize_idempotent Toy.pillow (mkImage "RGBA" (100, 60) "pixels") _ 50 40 0);
    cbn; try lia; reflexivity.
Defined.

Lemma mul_trunc_range (w : Z) (s : float) :
  0 < w < 2 ^ 31 -> normal_float (-105) 1 s ->
  exists z, int_of_float (mul_int_float w s) = Ok z /\ 0 <= z /\
    (IZR z <= IZR w * SF2R s * (1 + u53))%R.
Proof.
  intros Hw Hs. unfold mul_int_float.
  destruct (float_of_int_normal w ltac:(lia)) as [Hfw Hvw].
  destruct (fmul_spec _ _ _ _ _ _ Hfw Hs ltac:(lia) ltac:(lia)) as (Hp & Hub).
  destruct (int_of_float_normal _ _ _ Hp) as (z & Hz & Hzb).
  pose proof (normal_float_SF2R _ _ _ Hp) as Hpos.
  exists z. split; [done|]. split.
  - assert (-1 < z); [|lia]. apply lt_IZR. lra.
  - rewrite Hvw in Hub. fold u53 in Hub. lra.
Qed.

Section ResizeZero.
Context {pil : Pillow} {os : Os}.

(** X3: the clamp has no lower limit of one pixel: when the height bound
    shrinks the image by more than its width, the width asked of the
    resampler is 0. *)
Theorem apply_resize_clamp_zero_width (img : Image) (max_w max_h : Z) :
  0 < (im_size img).1 < 2 ^ 31 -> 0 < (im_size img).2 < 2 ^ 31 ->
  0 < max_h -> (im_size img).1 * max_h < (im_size img).2 ->
  exists h', 0 <= h' <= max_h /\
    _apply_resize img 100 max_w max_h = Image_resize img (0, h').
Proof.
  intros HW HH Hmh Hthin. unfold _apply_resize.
  change (negb (100 =? 100)) with false. cbv iota.
  unfold mbind, result_bind, rbind.
  destruct (im_size img) as [W H] eqn:Hsz. cbn [fst snd] in *.
  pose proof (clamp_scale_spec W H max_w max_h HW HH) as Hspec. cbv zeta in Hspec.
  assert (Hany : ((0 <? max_w) || (0 <? max_h))%bool = true).
  { apply orb_true_iff. right. by apply Z.ltb_lt. }
  rewrite Hany.
  rewrite (truediv_ok max_w W), (truediv_ok max_h H) by lia.
  set (sc1 := if ((0 <? max_w) && (max_w <? W))%bool
              then float_min one (SFdiv prec emax (float_of_int max_w) (float_of_int W))
              else one) in *.
  set (sc2 := if ((0 <? max_h) && (max_h <? H))%bool
              then float_min sc1 (SFdiv prec emax (float_of_int max_h) (float_of_int H))
              else sc1) in *.
  assert (E1 : (if ((0 <? max_w) && (max_w <? W))%bool
                then Ok (float_min one (SFdiv prec emax (float_of_int max_w) (float_of_int W)))
                else Ok one) = Ok sc1)
    by (unfold sc1; by destruct ((0 <? max_w) && (max_w <? W))%bool).
  rewrite E1.
  assert (E2 : (if ((0 <? max_h) && (max_h <? H))%bool
                then Ok (float_min sc1 (SFdiv prec emax (float_of_int max_h) (float_of_int H)))
                else Ok sc1) = Ok sc2)
    by (unfold sc2; by destruct ((0 <? max_h) && (max_h <? H))%bool).
  rewrite E2.
  destruct Hspec as (Hn & Hle & _ & Hh).
  assert (HmhH : 0 < max_h < H) by nia.
  destruct (Hh HmhH) as [Hub Hlt]. rewrite Hlt.
  destruct (mul_trunc_range W sc2 HW Hn) as (zw & Ew & Hzw0 & Hzw).
  destruct (mul_trunc_range H sc2 HH Hn) as (zh & Eh & Hzh0 & Hzh).
  rewrite Ew, Eh.
  destruct (clamp_axis_bound H max_h zh sc2 HH Hn Hlt (fun Hm => proj1 (Hh Hm)) Eh) as [_ Hzh'].
  exists zh. split; [lia|].
  enough (zw = 0) as -> by done.
  assert (zw < 1); [|lia]. apply lt_IZR.
  destruct u53_bounds as [Hu0 Hu1].
  pose proof (normal_float_SF2R _ _ _ Hn) as Hs0.
  assert (HWr : (1 <= IZR W)%R) by (apply IZR_le; lia).
  assert (HHr : (0 < IZR H)%R) by (apply IZR_lt; lia).
  assert (HMr : (0 < IZR max_h)%R) by (apply IZR_lt; lia).
  assert (Hprod : (IZR W * IZR max_h <= IZR H - 1)%R).
  { rewrite <- mult_IZR, <- minus_IZR. apply IZR_le. lia. }
  assert (Hhu : (IZR H * u53 < / 4)%R).
  { assert (IZR H < IZR (2 ^ 31))%R by (apply IZR_lt; lia).
    change (2 ^ 53) with (2 ^ 31 * 2 ^ 22) in Hu1. rewrite mult_IZR in Hu1.
    assert (4 <= IZR (2 ^ 22))%R by (apply IZR_le; lia).
    assert (0 < IZR (2 ^ 31))%R by (apply IZR_lt; lia).
    nra. }
  assert (Hu : (u53 < 1)%R).
  { assert (1 < IZR (2 ^ 53))%R by (apply IZR_lt; lia). nra. }
  (* W * s <= (H - 1) / H * (1 + u) *)
  assert (Hws : (IZR W * SF2R sc2 * IZR H <= (IZR H - 1) * (1 + u53))%R).
  { assert (SF2R sc2 * IZR H <= IZR max_h * (1 + u53))%R.
    { replace (IZR max_h * (1 + u53))%R with (IZR max_h / IZR H * (1 + u53) * IZR H)%R
        by (field; lra).
      apply Rmult_le_compat_r; lra. }
    nra. }
  assert (Hfin : (IZR zw * IZR H < IZR H)%R).
  { assert (IZR zw * IZR H <= (IZR H - 1) * (1 + u53) * (1 + u53))%R.
    { replace (IZR zw * IZR H)%R with (IZR H * IZR zw)%R by ring.
      assert (IZR H * IZR zw <= IZR H * (IZR W * SF2R sc2 * (1 + u53)))%R
        by (apply Rmult_le_compat_l; lra).
      nra. }
    nra. }
  nra.
Qed.
End ResizeZero.

Lemma apply_resize_clamp_zero_width_witness :
  exists h', 0 <= h' <= 10 /\
    @_apply_resize Toy.pillow (mkImage "RGB" (100, 10000) "pixels") 100 0 10 =
      @Image_resize Toy.pillow (mkImage "RGB" (100, 10000) "pixels") (0, h').
Proof.
  apply (@apply_resize_clamp_zero_width Toy.pillow (mkImage "RGB" (100, 10000) "pixels") 0 10);
    cbn; lia.
Defined.

(** * More on saving and on the batch *)

Section SaveMore.
Context {pil : Pillow} {os : Os}.

(** The three ways [_save_one] can end: before [im.save] is called, with
    a failure of [im.save], or with the output written. *)
Lemma save_one_cases (img : Image) (out_path fmt : string)
    (cfg : ExportSettings) (fs : FS) :
  (exists msg, _save_one img out_path fmt cfg fs = (Ok (false, msg), fs, [])) \/
  (exists msg im fs',
     im_mode im = (if (drop_alpha cfg || String.eqb fmt "JPEG")%bool
                   then "RGB" else im_mode img) /\
     (fs' = fs \/ fs' = cut_short out_path fs) /\
     _save_one img out_path fmt cfg fs =
       (Ok (false, msg), fs', [EvEncode out_path fmt im (save_kwargs fmt cfg)])) \/
  (exists im bytes,
     im_mode im = (if (drop_alpha cfg || String.eqb fmt "JPEG")%bool
                   then "RGB" else im_mode img) /\
     pil_encode fmt (save_kwargs fmt cfg) im = Ok bytes /\
     _save_one img out_path fmt cfg fs =
       (Ok (true, "ok"), <[out_path := bytes]> fs,
        [EvEncode out_path fmt im (save_kwargs fmt cfg)])).
Proof.
  unfold _save_one, _save_one_body. unfold_M.
  fold (save_kwargs fmt cfg).
  destruct (if (drop_alpha cfg || String.eqb fmt "JPEG")%bool
            then Image_convert img "RGB" else Ok img) as [im1|e1] eqn:E1;
    [|left; by eexists].
  assert (Hm1 : im_mode im1 = (if (drop_alpha cfg || String.eqb fmt "JPEG")%bool
                               then "RGB" else im_mode img)).
  { destruct (drop_alpha cfg || String.eqb fmt "JPEG")%bool.
    - by apply Image_convert_ok in E1 as [-> _].
    - congruence. }
  destruct (_apply_resize im1 _ _ _) as [im2|e2] eqn:E2; [|left; by eexists].
  apply apply_resize_mode in E2. rewrite <- Hm1, <- E2.
  destruct_save; cbn.
  - right; left. exists (str_exn e), im2, fs. auto.
  - right; left. exists (str_exn e), im2, (cut_short out_path fs). auto.
  - right; right. exists im2, bytes. split; [done|]. split; [|done]. tauto.
Qed.

(** A failed [_save_one] removes no file and changes none but its output. *)
Lemma save_failed_keeps (out_path : string) (fs fs' : FS) (p : string) :
  fs' = fs \/ fs' = cut_short out_path fs ->
  is_Some (fs !! p) -> is_Some (fs' !! p).
Proof. intros [-> | ->] Hp; [done|by apply cut_short_keeps]. Qed.

(** X4: [_save_one] writes one file, at [out_path], when it reports success;
    when it reports a failure the files are as they were, or the output
    file is cut short (the failure came after the file had been opened
    for writing); in both cases no other path changes and no file
    disappears, and it neither opens, moves nor removes a file. *)
Theorem save_one_writes_only_out_path (img : Image) (out_path fmt : string)
    (cfg : ExportSettings) (fs : FS) :
  let r := _save_one img out_path fmt cfg fs in
  (forall msg, outcome r = Ok (false, msg) ->
     final_fs r = fs \/ final_fs r = cut_short out_path fs) /\
  (events r = [] -> final_fs r = fs) /\
  (forall msg, outcome r = Ok (true, msg) ->
     exists bytes, final_fs r = <[out_path := bytes]> fs) /\
  (forall p, p <> out_path -> final_fs r !! p = fs !! p) /\
  (forall p, is_Some (fs !! p) -> is_Some (final_fs r !! p)) /\
  Forall (fun ev => exists im kwargs, ev = EvEncode out_path fmt im kwargs) (events r) /\
  (length (events r) <= 1)%nat.
Proof.
  cbv zeta.
  destruct (save_one_cases img out_path fmt cfg fs)
    as [[msg ->] | [(msg & im & fs' & _ & Hfs' & ->) | (im & bytes & _ & _ & ->)]];
    unfold outcome, final_fs, events; cbn [fst snd].
  - repeat split; try done; auto.
  - split; [done|]. split; [done|]. split; [done|]. split; [|split; [|split]].
    + intros p Hp. by eapply convert_one_failed_frame.
    + intros p Hp. by eapply save_failed_keeps.
    + repeat constructor. by eexists _, _.
    + cbn. lia.
  - split; [done|]. split; [done|]. split; [by eexists|]. split; [|split; [|split]].
    + intros p Hp. by rewrite lookup_insert_ne.
    + intros p Hp. destruct (decide (p = out_path)) as [->|Hne].
      * rewrite lookup_insert_eq. by eexists.
      * by rewrite lookup_insert_ne.
    + repeat constructor. by eexists _, _.
    + cbn; lia.
Qed.

(** X5: what the encoder is given by [_save_one]: an RGB image when the alpha
    channel is dropped or the format is JPEG, and otherwise an image in
    the mode of the source, resizing included; the keyword arguments
    are those of the format. *)
Theorem save_one_encoder_input (img : Image) (out_path fmt : string)
    (cfg : ExportSettings) (fs : FS) :
  Forall (fun ev =>
            match ev with
            | EvEncode p f im kwargs =>
                p = out_path /\ f = fmt /\
                im_mode im = (if (drop_alpha cfg || String.eqb fmt "JPEG")%bool
                              then "RGB" else im_mode img) /\
                kwargs = save_kwargs fmt cfg
            | _ => False
            end)
         (events (_save_one img out_path fmt cfg fs)).
Proof.
  destruct (save_one_cases img out_path fmt cfg fs)
    as [[msg ->] | [(msg & im & fs' & Hm & _ & ->) | (im & bytes & Hm & _ & ->)]];
    unfold events; cbn [fst snd]; repeat constructor; done.
Qed.

(** X6: [load_image] never raises and never changes a file; it returns
    [None] exactly when the file is missing or does not decode, and the
    decoded image otherwise. *)
Theorem load_image_result (path : string) (fs : FS) :
  final_fs (load_image path fs) = fs /\
  (outcome (load_image path fs) = Ok None <->
     fs !! path = None \/
     exists bytes e, fs !! path = Some bytes /\ pil_decode bytes = Raise e) /\
  (forall im, outcome (load_image path fs) = Ok (Some im) <->
     exists bytes, fs !! path = Some bytes /\ pil_decode bytes = Ok im) /\
  (forall e, outcome (load_image path fs) <> Raise e).
Proof.
  unfold load_image, Image_open. unfold_M.
  destruct (fs !! path) as [bytes|] eqn:Hp; cbn.
  - destruct (pil_decode bytes) as [im|e] eqn:Hd; cbn.
    + split; [done|]. split; [|split].
      * split; [done|]. intros [?|(b & e & ? & ?)]; [done|]. congruence.
      * intros im'. split.
        -- intros [= <-]. by exists bytes.
        -- intros (b & Hb & Hd'). congruence.
      * done.
    + split; [done|]. split; [|split].
      * split; [|done]. intros _. right. by exists bytes, e.
      * intros im'. split; [done|]. intros (b & Hb & Hd'). congruence.
      * done.
  - split; [done|]. split; [|split].
    + split; [|done]. by left.
    + intros im'. split; [done|]. by intros (b & Hb & _).
    + done.
Qed.

(** ** The batch *)

(** Writing a file of [dir], completely or not, is a write inside [dir]. *)
Lemma writes_inside_insert (dir name bytes : string) (fs : FS) :
  has_sep name = false -> writes_inside dir fs (<[path_join dir name := bytes]> fs).
Proof.
  intros Hname p. destruct (decide (p = path_join dir name)) as [->|Hne].
  - right. exists name, bytes. by rewrite lookup_insert_eq.
  - left. by rewrite lookup_insert_ne.
Qed.

Lemma writes_inside_cut_short (dir name : string) (fs : FS) :
  has_sep name = false -> writes_inside dir fs (cut_short (path_join dir name) fs).
Proof.
  intros Hname. unfold cut_short.
  destruct (fs !! path_join dir name); [by apply writes_inside_insert|].
  destruct (os_created_left _ fs); [by apply writes_inside_insert|].
  intros p. by left.
Qed.

(** One save of the batch: what [export_formats] needs to know of it. *)
Lemma save_one_step (img : Image) (out_dir name fmt : string)
    (cfg : ExportSettings) (fs : FS) :
  has_sep name = false ->
  exists ok msg fs1 evs1,
    _save_one img (path_join out_dir name) fmt cfg fs = (Ok (ok, msg), fs1, evs1) /\
    Forall (fun ev => is_encode ev = true) evs1 /\
    (forall p, is_Some (fs !! p) -> is_Some (fs1 !! p)) /\
    writes_inside out_dir fs fs1 /\
    (ok = true -> is_Some (fs1 !! path_join out_dir name)).
Proof.
  intros Hname.
  destruct (save_one_cases img (path_join out_dir name) fmt cfg fs)
    as [[msg ->] | [(msg & im & fs' & _ & Hfs' & ->) | (im & bytes & _ & _ & ->)]].
  - exists false, msg, fs, []. split; [done|]. split; [done|]. split; [done|].
    split; [by left|done].
  - exists false, msg, fs', [EvEncode (path_join out_dir name) fmt im (save_kwargs fmt cfg)].
    split; [done|]. split; [by repeat constructor|]. split; [|split; [|done]].
    + intros p. by apply (save_failed_keeps (path_join out_dir name)).
    + destruct Hfs' as [-> | ->]; [by left|by apply writes_inside_cut_short].
  - exists true, "ok", (<[path_join out_dir name := bytes]> fs),
      [EvEncode (path_join out_dir name) fmt im (save_kwargs fmt cfg)].
    split; [done|]. split; [by repeat constructor|]. split; [|split].
    + intros p Hp. destruct (decide (p = path_join out_dir name)) as [->|Hne].
      * rewrite lookup_insert_eq. by eexists.
      * by rewrite lookup_insert_ne.
    + by apply writes_inside_insert.
    + intros _. rewrite lookup_insert_eq. by eexists.
Qed.

Lemma writes_inside_trans (dir : string) (fs1 fs2 fs3 : FS) :
  writes_inside dir fs1 fs2 -> writes_inside dir fs2 fs3 -> writes_inside dir fs1 fs3.
Proof.
  intros H12 H23 p. destruct (H23 p) as [Heq | Hw]; [|by right].
  rewrite Heq. apply H12.
Qed.

Lemma export_formats_spec (img : Image) (path base out_dir : string)
    (cfg : ExportSettings) (fmts errors : list string) (fs : FS) :
  has_sep base = false ->
  exists errs fs' evs,
    export_formats img path base out_dir cfg fmts errors fs
      = (Ok (errors ++ errs), fs', evs) /\
    (length errs <= length fmts)%nat /\
    Forall (fun ev => is_encode ev = true) evs /\
    (forall p, is_Some (fs !! p) -> is_Some (fs' !! p)) /\
    writes_inside out_dir fs fs'.
Proof.
  intros Hbase.
  revert errors fs. induction fmts as [|fmt rest IH]; intros errors fs.
  - exists [], fs, []. cbn. rewrite app_nil_r. repeat split; auto. by left.
  - cbn [export_formats].
    assert (Hname : has_sep (base +:+ format_ext fmt) = false).
    { rewrite has_sep_app, Hbase. unfold format_ext. by repeat case_match. }
    unfold mbind at 1. unfold M_bind, bind.
    destruct (save_one_step img out_dir (base +:+ format_ext fmt) fmt cfg fs Hname)
      as (ok & msg & fs1 & evs1 & -> & Hev1 & Hkeep1 & Hin1 & _).
    destruct ok.
    + destruct (IH errors fs1) as (errs & fs' & evs & -> & Hlen & Hev & Hkeep & Hin).
      exists errs, fs', (evs1 ++ evs). cbn [length].
      split; [done|]. split; [lia|]. split; [by apply Forall_app|]. split; [auto|].
      by eapply writes_inside_trans.
    + destruct (IH (errors ++ [basename path +:+ " → " +:+ fmt +:+ ": " +:+ msg]) fs1)
        as (errs & fs' & evs & -> & Hlen & Hev & Hkeep & Hin).
      eexists (_ :: errs), fs', (evs1 ++ evs). rewrite <- app_assoc. cbn [app length].
      split; [done|]. split; [lia|]. split; [by apply Forall_app|]. split; [auto|].
      by eapply writes_inside_trans.
Qed.

Lemma export_images_spec (out_dir : string) (cfg : ExportSettings)
    (images errors : list string) (fs : FS) :
  exists errs fs' evs,
    export_images out_dir cfg images errors fs = (Ok (errors ++ errs), fs', evs) /\
    (length errs <= length images * Nat.max 1 (length (formats cfg)))%nat /\
    Forall (fun ev => is_dialog ev = false) evs /\
    (forall p, is_Some (fs !! p) -> is_Some (fs' !! p)) /\
    writes_inside out_dir fs fs'.
Proof.
  revert errors fs. induction images as [|path rest IH]; intros errors fs.
  - exists [], fs, []. cbn. rewrite app_nil_r.
    split; [done|]. split; [lia|]. split; [done|]. split; [done|]. by left.
  - cbn [export_images]. unfold mbind at 1. unfold M_bind, bind.
    destruct (load_image_spec path fs) as [[im ->] | [e ->]].
    + destruct (export_formats_spec im path (splitext_root (basename path)) out_dir cfg
                  (formats cfg) errors fs)
        as (errs1 & fs1 & evs1 & E1 & Hlen1 & Hev1 & Hkeep1 & Hin1).
      { apply has_sep_splitext_root, has_sep_basename. }
      unfold mbind at 1. unfold M_bind, bind. rewrite E1.
      destruct (IH (errors ++ errs1) fs1) as (errs & fs' & evs & -> & Hlen & Hev & Hkeep & Hin).
      exists (errs1 ++ errs), fs', ([EvOpen path] ++ evs1 ++ evs).
      rewrite <- app_assoc. split; [done|]. split; [|split; [|split]].
      * rewrite length_app. cbn [length]. lia.
      * apply Forall_app. split; [by repeat constructor|].
        apply Forall_app. split; [|done].
        eapply Forall_impl; [exact Hev1|]. by intros [] ?.
      * auto.
      * by eapply writes_inside_trans.
    + destruct (IH (errors ++ ["Open failed: " +:+ path]) fs)
        as (errs & fs' & evs & -> & Hlen & Hev & Hkeep & Hin).
      eexists (_ :: errs), fs', (_ ++ evs).
      rewrite <- app_assoc. split; [done|]. split; [|split; [|split]].
      * cbn [length]. lia.
      * apply Forall_app. split; [by repeat constructor|done].
      * done.
      * done.
Qed.

(** X7: [_export_batch] ends with exactly one dialog: the information box when
    no error was collected, and otherwise the warning that lists the
    first twenty errors; a source contributes at most one error for each
    requested format, or one when it cannot be opened.  Nothing is
    raised. *)
Theorem export_batch_closing_dialog (images : list string) (out_dir : string)
    (cfg : ExportSettings) (fs : FS) :
  exists errs fs' evs dialog,
    _export_batch images out_dir cfg fs = (Ok errs, fs', evs ++ [dialog]) /\
    Forall (fun ev => is_dialog ev = false) evs /\
    dialog = match errs with
             | [] => EvDialog Information "Export" "Batch export completed."
             | _ :: _ => EvDialog Warning "Export Done (with errors)"
                           (String.concat newline (take 20 errs))
             end /\
    (length errs <= length images * Nat.max 1 (length (formats cfg)))%nat.
Proof.
  unfold _export_batch. unfold_M.
  destruct (export_images_spec out_dir cfg images [] fs)
    as (errs & fs' & evs & -> & Hlen & Hev & _ & _).
  cbn [app]. exists errs, fs', evs. destruct errs as [|e errs]; eexists; done.
Qed.

(** X8: the batch only adds or replaces files directly inside the output
    directory: no file disappears, and a path whose content changed is
    [out_dir] joined with a name without separator. *)
Theorem export_batch_writes_inside_out_dir (images : list string) (out_dir : string)
    (cfg : ExportSettings) (fs : FS) :
  let fs' := final_fs (_export_batch images out_dir cfg fs) in
  (forall p, is_Some (fs !! p) -> is_Some (fs' !! p)) /\
  (forall p, fs' !! p = fs !! p \/
     exists name bytes, has_sep name = false /\ p = path_join out_dir name /\
                        fs' !! p = Some bytes).
Proof.
  cbv zeta. unfold _export_batch. unfold_M.
  destruct (export_images_spec out_dir cfg images [] fs)
    as (errs & fs' & evs & -> & _ & _ & Hkeep & Hin).
  destruct errs; cbn [fst snd]; done.
Qed.

(** X9: the sources of a batch are processed one after the other: a batch
    over [l1 ++ l2] is the batch over [l1] followed by the batch over
    [l2] on the files and with the errors the first left. *)
Theorem export_images_app (out_dir : string) (cfg : ExportSettings)
    (l1 l2 errors : list string) (fs : FS) :
  export_images out_dir cfg (l1 ++ l2) errors fs =
    (errors1 ← export_images out_dir cfg l1 errors;
     export_images out_dir cfg l2 errors1) fs.
Proof.
  revert errors fs. induction l1 as [|path rest IH]; intros errors fs.
  - cbn [app export_images]. unfold_M.
    by destruct (export_images out_dir cfg l2 errors fs) as [[[?|?] ?] ?]; rewrite ?app_nil_r.
  - cbn [app export_images]. unfold_M.
    destruct (load_image path fs) as [[[[im|]|e] fs1] evs1]; [| |done].
    + destruct (export_formats im path _ out_dir cfg (formats cfg) errors fs1)
        as [[[errs2|e2] fs2] evs2]; [|done].
      rewrite IH.
      destruct (export_images out_dir cfg rest errs2 fs2) as [[[errs3|e3] fs3] evs3];
        [|by rewrite !app_assoc].
      destruct (export_images out_dir cfg l2 errs3 fs3) as [[[?|?] ?] ?];
        by rewrite !app_assoc.
    + rewrite IH.
      destruct (export_images out_dir cfg rest _ fs1) as [[[errs3|e3] fs3] evs3]; [|done].
      destruct (export_images out_dir cfg l2 errs3 fs3) as [[[?|?] ?] ?];
        by rewrite !app_assoc.
Qed.
End SaveMore.

(** * More on the loop body of the in-place worker *)

Lemma count_converted_app (l1 l2 : list event) :
  count_converted (l1 ++ l2) = (count_converted l1 + count_converted l2)%nat.
Proof. unfold count_converted. by rewrite List.filter_app, length_app. Qed.


Lemma prefix_app (p s : string) : String.prefix p (p +:+ s) = true.
Proof.
  induction p as [|c p IH]; [by destruct s|].
  change (String c p +:+ s) with (String c (p +:+ s)). cbn [String.prefix].
  destruct (ascii_dec c c); [done|congruence].
Qed.

Lemma converted_log_yes (s : string) :
  is_converted_log (SigLog ("Converted: " +:+ s)) = true.
Proof. apply prefix_app. Qed.

(** X10: the percentage reported after an entry lies between 0 and 100, does
    not decrease from one entry to a later one, and is 100 after the last
    entry. *)
Theorem progress_percent_monotone (i j total : nat) :
  (0 < total)%nat -> (i <= j <= total)%nat -> Z.of_nat total * 100 < 2 ^ 53 ->
  exists p q,
    progress_percent i total = Ok p /\ progress_percent j total = Ok q /\
    0 <= p <= q /\ q <= 100 /\ (j = total -> q = 100).
Proof.
  intros Ht Hij Hb.
  exists (Z.of_nat i * 100 / Z.of_nat total), (Z.of_nat j * 100 / Z.of_nat total).
  rewrite !progress_percent_ok by lia.
  split; [done|]. split; [done|].
  assert (HT : 0 < Z.of_nat total) by lia.
  split; [|split].
  - split; [apply Z.div_pos; lia|]. apply Z.div_le_mono; lia.
  - replace 100 with (Z.of_nat total * 100 / Z.of_nat total) at 2
      by (rewrite Z.mul_comm; apply Z.div_mul; lia).
    apply Z.div_le_mono; lia.
  - intros ->. rewrite Z.mul_comm. apply Z.div_mul. lia.
Qed.

Lemma progress_percent_monotone_witness :
  exists p q,
    progress_percent 1 3 = Ok p /\ progress_percent 3 3 = Ok q /\
    0 <= p <= q /\ q <= 100 /\ (3%nat = 3%nat -> q = 100).
Proof. apply progress_percent_monotone; lia. Defined.

Section LoopBodyMore.
Context {pil : Pillow} {os : Os}.








End LoopBodyMore.


(** * Whole runs of the in-place worker *)

Section MachineMore.
Context {pil : Pillow} {os : Os}.
Variables (cfg : JobConfig) (folder backup_folder : string) (total : nat).

(** A finished worker stays as it is, apart from the flag. *)
Lemma exec_finished_any (sched : list action) (s : WState) :
  ws_pc s = Finished ->
  ws_pc (exec cfg folder backup_folder total sched s) = Finished /\
  ws_fs (exec cfg folder backup_folder total sched s) = ws_fs s /\
  ws_trace (exec cfg folder backup_folder total sched s) = ws_trace s /\
  ws_converted (exec cfg folder backup_folder total sched s) = ws_converted s.
Proof.
  revert s. induction sched as [|a sched IH]; intros s Hpc; [done|].
  destruct a; cbn [exec].
  - unfold worker_step. rewrite Hpc. by apply IH.
  - destruct (IH (stop s) Hpc) as (? & ? & ? & ?). done.
Qed.


(** X13: once the worker has emitted [done] or [error] nothing follows: no
    event is added, no file changes and the count stays, whatever is
    scheduled afterwards, calls of [stop] included. *)
Theorem finished_worker_is_silent (sched : list action) (s : WState) :
  ws_pc s = Finished ->
  ws_pc (exec cfg folder backup_folder total sched s) = Finished /\
  ws_fs (exec cfg folder backup_folder total sched s) = ws_fs s /\
  ws_trace (exec cfg folder backup_folder total sched s) = ws_trace s /\
  ws_converted (exec cfg folder backup_folder total sched s) = ws_converted s.
Proof. apply exec_finished_any. Qed.

End MachineMore.

Section RunMore.
Context {pil : Pillow} {os : Os}.

(** [os.makedirs] changes no file and emits nothing. *)
Lemma os_makedirs_cases (path : string) (fs : FS) :
  (exists e, os_makedirs path fs = (Raise e, fs, [])) \/
  os_makedirs path fs = (Ok tt, fs, []).
Proof.
  unfold os_makedirs. destruct (fs !! path); [left; by eexists|].
  destruct (os_makedirs_error path fs); [left; by eexists|by right].
Qed.



(** X15: a run that has nothing to convert: when the folder is missing the
    only event is the error signal, and when it holds no PNG entry the
    worker logs it and reports [done(0)]; in both cases no file is
    touched, whatever the schedule. *)
Theorem run_nothing_to_do (cfg : JobConfig) (listing : list string)
    (sched : list action) (fs : FS) :
  (ws_trace (run cfg false listing sched fs) =
     [SigError ("Folder not found: " +:+ str_rstrip is_sep_or_backslash (folder cfg))] /\
   ws_fs (run cfg false listing sched fs) = fs /\
   ws_converted (run cfg false listing sched fs) = 0%nat) /\
  (filter (fun f => is_png f = true) listing = [] ->
   ws_trace (run cfg true listing sched fs) =
     [SigLog "No PNG files found in the selected folder."; SigDone 0] /\
   ws_fs (run cfg true listing sched fs) = fs /\
   ws_converted (run cfg true listing sched fs) = 0%nat).
Proof.
  split.
  - unfold run, run_init. cbn [negb]. cbv zeta.
    match goal with
    | |- context [exec ?c ?f ?b ?t sched ?s] =>
        destruct (exec_finished_any c f b t sched s eq_refl) as (_ & -> & -> & ->)
    end. done.
  - intros Hnone. unfold run, run_init. rewrite Hnone. cbn [negb length Nat.eqb]. cbv zeta.
    match goal with
    | |- context [exec ?c ?f ?b ?t sched ?s] =>
        destruct (exec_finished_any c f b t sched s eq_refl) as (_ & -> & -> & ->)
    end. done.
Qed.
End RunMore.

Lemma finished_worker_is_silent_witness :
  ws_trace (@exec Toy.pillow Toy.os (mkJobConfig "/pics" true false false) "/pics" "/pics_PNG" 0
              [Stop; Work; Work] (mkWState ∅ false Finished [] 1 0 [SigDone 0])) =
    [SigDone 0].
Proof.
  refine (proj1 (proj2 (proj2 (@finished_worker_is_silent Toy.pillow Toy.os
            (mkJobConfig "/pics" true false false) "/pics" "/pics_PNG" 0
            [Stop; Work; Work] (mkWState ∅ false Finished [] 1 0 [SigDone 0]) _)))).
  reflexivity.
Defined.


(** * Files of a converted entry *)

(** X16: the name of the output keeps the stem of the entry, whatever the case
    of its extension; an entry whose stem is empty or made of dots only
    keeps its whole name. *)
Theorem output_name_keeps_stem (fname : string) :
  is_png fname = true ->
  exists stem ext,
    fname = stem +:+ ext /\ str_lower ext = ".png" /\
    splitext_root fname +:+ ".webp" =
      (if all_dots stem then fname else stem) +:+ ".webp" /\
    splitext_root fname +:+ ".jpg" =
      (if all_dots stem then fname else stem) +:+ ".jpg".
Proof.
  intros (stem & ext & -> & Hext)%is_png_split.
  exists stem, ext. rewrite splitext_root_png by done. done.
Qed.

Lemma output_name_keeps_stem_witness :
  exists stem ext,
    "Photo.PNG" = stem +:+ ext /\ str_lower ext = ".png" /\
    splitext_root "Photo.PNG" +:+ ".webp" =
      (if all_dots stem then "Photo.PNG" else stem) +:+ ".webp" /\
    splitext_root "Photo.PNG" +:+ ".jpg" =
      (if all_dots stem then "Photo.PNG" else stem) +:+ ".jpg".
Proof. apply (output_name_keeps_stem "Photo.PNG"). reflexivity. Defined.

Section ItemSuccess.
Context {pil : Pillow} {os : Os}.

(** X17: a converted entry.  Without keep_backup the output holds what the
    encoder returned and the original is deleted, unless the removal is
    refused: then the original stays and a warning with the text of the
    exception is logged.  With keep_backup and no earlier backup of that
    name, the original has left the source folder for the backup path
    whether or not the conversion succeeds, and the output is written
    when it succeeds, unless the move is refused: then the original stays
    in the source folder, nothing is converted and the failure is
    logged. *)
Theorem converted_entry_files (cfg : JobConfig) (folder backup_folder : string)
    (total i : nat) (fname : string) (converted : nat) (fs : FS) (bytes : string) :
  let src := path_join folder fname in
  let bak := path_join backup_folder fname in
  let dst := path_join folder (splitext_root fname +:+ ".webp") in
  let r := run_item cfg folder backup_folder total i fname converted fs in
  is_png fname = true ->
  fs !! src = Some bytes ->
  overwrite cfg = true \/ fs !! dst = None ->
  (keep_backup cfg = false ->
   forall out, final_fs (_convert_one cfg src dst fs) !! dst = Some out ->
     outcome (_convert_one cfg src dst fs) = Ok tt ->
     final_fs r !! dst = Some out /\
     (os_remove_error src (final_fs (_convert_one cfg src dst fs)) = None ->
      final_fs r !! src = None) /\
     (forall e, os_remove_error src (final_fs (_convert_one cfg src dst fs)) = Some e ->
        final_fs r !! src = Some bytes /\
        In (SigLog ("Warn: failed to delete original " +:+ fname +:+ ": " +:+ str_exn e))
           (events r))) /\
  (keep_backup cfg = true -> fs !! bak = None -> bak <> src ->
   (os_move_error src bak fs = None ->
    final_fs r !! src = None /\ final_fs r !! bak = Some bytes /\
    final_fs r !! dst =
      final_fs (_convert_one cfg bak dst (<[bak := bytes]> (delete src fs))) !! dst) /\
   (forall e, os_move_error src bak fs = Some e ->
      final_fs r !! src = Some bytes /\ final_fs r !! dst = fs !! dst /\
      forallb (fun ev => negb (is_encode ev)) (events r) = true /\
      In (SigLog ("Failed: " +:+ fname +:+ " -> " +:+ str_exn e)) (events r))).
Proof.
  cbv zeta. intros Hpng Hsrc Hnoskip.
  pose proof (dst_ne_src folder fname Hpng) as Hds.
  pose proof (bak_ne_dst folder backup_folder fname Hpng) as Hbd.
  unfold run_item, run_item_try, os_path_exists, shutil_move, os_remove.
  set (src := path_join folder fname) in *.
  set (bak := path_join backup_folder fname) in *.
  set (dst := path_join folder (splitext_root fname +:+ ".webp")) in *.
  set (warn := "Warn: failed to delete original " +:+ fname +:+ ": ").
  set (failed := "Failed: " +:+ fname +:+ " -> ").
  clearbody src bak dst warn failed. unfold_M.
  assert (Hskip : (negb (overwrite cfg) && bool_decide (is_Some (fs !! dst)))%bool = false).
  { destruct Hnoskip as [-> | Hd]; [done|]. rewrite Hd.
    rewrite bool_decide_false; [by rewrite andb_false_r|]. by intros [? ?]. }
  rewrite Hskip. split.
  - intros -> out. cbn [negb].
    destruct (convert_one_spec cfg src dst fs)
      as [(e & ->) | [(e & im & kw & fs' & Hfs' & ->) | (im & kw & b' & ->)]];
      simpl; try done.
    rewrite lookup_insert_eq. intros [= ->] _.
    assert (Hs2 : <[dst:=out]> fs !! src = Some bytes) by (by rewrite lookup_insert_ne).
    rewrite (bool_decide_true (is_Some (<[dst:=out]> fs !! src))) by (by rewrite Hs2).
    simpl. rewrite Hs2. simpl.
    destruct (os_remove_error src (<[dst:=out]> fs)) as [er|]; simpl;
      destruct (progress_percent i total); simpl;
      rewrite ?lookup_delete_eq, ?lookup_delete_ne, ?lookup_insert_eq by done;
      (split; [done|]); (split; [done|]); intros e' [= <-]; (split; [done|]); auto 10.
  - intros -> Hbak Hbs. cbn [negb].
    rewrite bool_decide_false by (rewrite Hbak; by intros [? ?]).
    cbn [negb]. rewrite Hsrc. split.
    + intros ->.
      destruct (convert_one_spec cfg bak dst (<[bak:=bytes]> (delete src fs)))
        as [(e & ->) | [(e & im & kw & fs' & Hfs' & ->) | (im & kw & b' & ->)]]; simpl;
        destruct (progress_percent i total); simpl;
        rewrite ?(convert_one_failed_frame dst _ fs' src Hfs') by done;
        rewrite ?(convert_one_failed_frame dst _ fs' bak Hfs') by done;
        rewrite ?(lookup_insert_ne _ dst) by done;
        rewrite ?lookup_insert_eq, ?(lookup_insert_ne _ bak src), ?lookup_delete_eq by done;
        done.
    + intros e ->. simpl.
      destruct (progress_percent i total); simpl;
        rewrite !move_failed_ne by done; (split; [done|]); (split; [done|]);
        (split; [done|]); auto.
Qed.
End ItemSuccess.

Lemma converted_entry_files_witness :
  final_fs (@run_item Toy.pillow Toy.os (mkJobConfig "/pics/set" true false false)
              "/pics/set" "/pics/set_PNG" 1 1 "a.png" 0
              (<["/pics/set/a.png" := "junk"]> ∅)) !! "/pics/set/a.png" = None /\
  final_fs (@run_item Toy.pillow Toy.os (mkJobConfig "/pics/set" true false false)
              "/pics/set" "/pics/set_PNG" 1 1 "a.png" 0
              (<["/pics/set/a.png" := "junk"]> ∅)) !! "/pics/set_PNG/a.png" = Some "junk".
Proof.
  assert (H1 : is_png "a.png" = true) by reflexivity.
  assert (H2 : (<["/pics/set/a.png" := "junk"]> ∅ : FS) !! path_join "/pics/set" "a.png"
               = Some "junk") by (vm_compute; reflexivity).
  assert (H3 : overwrite (mkJobConfig "/pics/set" true false false) = true \/
               (<["/pics/set/a.png" := "junk"]> ∅ : FS)
                 !! path_join "/pics/set" (splitext_root "a.png" +:+ ".webp") = None)
    by (right; vm_compute; reflexivity).
  assert (H4 : (<["/pics/set/a.png" := "junk"]> ∅ : FS) !! path_join "/pics/set_PNG" "a.png"
               = None) by (vm_compute; reflexivity).
  assert (H5 : path_join "/pics/set_PNG" "a.png" <> path_join "/pics/set" "a.png")
    by discriminate.
  destruct (proj1 (proj2 (@converted_entry_files Toy.pillow Toy.os
             (mkJobConfig "/pics/set" true false false)
             "/pics/set" "/pics/set_PNG" 1 1 "a.png" 0
             (<["/pics/set/a.png" := "junk"]> ∅) "junk" H1 H2 H3) eq_refl H4 H5) eq_refl)
    as (R1 & R2 & _).
  split; [exact R1|exact R2].
Defined.

(** An original under [/pinned/] cannot be removed: it stays next to its
    output, and the worker logs a warning and still counts the entry. *)
Example refused_removal_keeps_original :
  let r := @run_item Toy.pillow Toy.os (mkJobConfig "/pinned/set" false true false)
             "/pinned/set" "/pinned/set_PNG" 1 1 "a.png" 0
             (<["/pinned/set/a.png" := "rgb-3x2"]> ∅) in
  final_fs r !! "/pinned/set/a.png" = Some "rgb-3x2" /\
  final_fs r !! "/pinned/set/a.webp" = Some "WEBP:RGB:pixels" /\
  outcome r = Ok 1%nat /\
  In (SigLog ("Warn: failed to delete original a.png: " +:+
              "[Errno 13] Permission denied: '/pinned/set/a.png'"))
     (events r).
Proof. vm_compute. repeat split; auto 10. Qed.

(** * convert_png_to_jpg.py: the loop *)
Section JpgLoop.
Context {pil : Pillow} {os : Os}.

Lemma resize_and_convert_cases (input_path output_path : string) (size : Z * Z)
    (quality : Z) (fs : FS) :
  (exists e fs' evs,
     resize_and_convert input_path output_path size quality fs = (Raise e, fs', evs) /\
     (fs' = fs \/ fs' = cut_short output_path fs) /\
     count_converted evs = 0%nat) \/
  (exists bytes evs, resize_and_convert input_path output_path size quality fs
                       = (Ok tt, <[output_path := bytes]> fs, evs) /\
                     count_converted evs = 0%nat).
Proof.
  unfold resize_and_convert, Image_open. unfold_M.
  destruct (fs !! input_path) as [b|]; [|left; eexists _, _, _; eauto].
  destruct (pil_decode b) as [im|]; [|left; eexists _, _, _; eauto].
  destruct (Image_convert im "RGB") as [im1|]; [|left; eexists _, _, _; eauto].
  destruct (Image_resize im1 size) as [im2|]; [|left; eexists _, _, _; eauto].
  destruct_save; cbn; [left|left|right].
  - eexists _, _, _; eauto.
  - eexists _, _, _; eauto.
  - by eexists _, _.
Qed.

Lemma not_converted_failed_to (s : string) :
  String.prefix "Converted: " ("Failed to convert " +:+ s) = false.
Proof. done. Qed.

(** One entry of the PNG to JPG tool. *)
Lemma main_item_inv (folder backup_folder filename : string) (count : nat) (fs : FS) :
  exists c' fs' evs,
    main_item folder backup_folder filename count fs = (Ok c', fs', evs) /\
    c' = (count + count_converted evs)%nat /\
    (count_converted evs <= if is_png filename then 1 else 0)%nat /\
    (is_png filename = false -> fs' = fs /\ evs = []).
Proof.
  unfold main_item. fold (is_png filename).
  destruct (is_png filename) eqn:Hpng.
  2:{ exists count, fs, []. unfold_M. cbn. repeat split; auto; lia. }
  unfold shutil_move. unfold_M.
  set (line := "Converted: " +:+ filename +:+ " → " +:+ splitext_root filename +:+ ".jpg").
  assert (Hline : String.prefix "Converted: " line = true) by apply prefix_app.
  clearbody line.
  destruct (fs !! path_join folder filename) as [b|].
  - destruct (os_move_error (path_join folder filename)
                (path_join backup_folder filename) fs) as [em|].
    { simpl. eexists _, _, _. split; [reflexivity|].
      unfold count_converted. cbn [List.filter is_converted_log].
      rewrite not_converted_failed_to. cbn. split; [lia|]. split; [lia|done]. }
    destruct (resize_and_convert_cases (path_join backup_folder filename)
                (path_join folder (splitext_root filename +:+ ".jpg"))
                default_size default_quality
                (<[path_join backup_folder filename := b]>
                   (delete (path_join folder filename) fs)))
      as [(e & fs' & evs & -> & _ & Hc) | (bytes & evs & -> & Hc)]; simpl.
    + eexists _, _, _. split; [reflexivity|].
      change (EvMove ?a ?b :: ?l) with ([EvMove a b] ++ l).
      rewrite !count_converted_app, Hc.
      unfold count_converted. cbn [List.filter is_converted_log].
      rewrite not_converted_failed_to. cbn. split; [lia|]. split; [lia|done].
    + eexists _, _, _. split; [reflexivity|].
      change (EvMove ?a ?b :: ?l) with ([EvMove a b] ++ l).
      rewrite !count_converted_app, Hc.
      unfold count_converted. cbn [List.filter is_converted_log].
      rewrite Hline. cbn. split; [lia|]. split; [lia|done].
  - simpl. eexists _, _, _. split; [reflexivity|].
    unfold count_converted. cbn [List.filter is_converted_log].
    rewrite not_converted_failed_to. cbn. split; [lia|]. split; [lia|done].
Qed.

(** The loop of [main] returns a count. *)
Lemma main_loop_count (folder backup_folder : string) (listing : list string) :
  forall count fs, exists c' fs' evs,
    main_loop folder backup_folder listing count fs = (Ok c', fs', evs) /\
    c' = (count + count_converted evs)%nat /\
    (count_converted evs <= length (filter (fun f => is_png f = true) listing))%nat.
Proof.
  induction listing as [|f rest IH]; intros count fs0.
  - exists count, fs0, []. cbn. repeat split; auto; lia.
  - cbn [main_loop]. unfold mbind, M_bind, bind.
    destruct (main_item_inv folder backup_folder f count fs0)
      as (c1 & fs1 & evs1 & -> & Hc1 & Hle1 & _).
    destruct (IH c1 fs1) as (c' & fs' & evs & -> & Hc' & Hle).
    exists c', fs', (evs1 ++ evs). split; [done|].
    rewrite count_converted_app. split; [lia|].
    rewrite filter_cons. destruct (decide (is_png f = true)) as [Hp|Hp].
    + rewrite Hp in Hle1. cbn [length]. lia.
    + apply not_true_is_false in Hp. rewrite Hp in Hle1. lia.
Qed.

(** X18: once the backup folder has been created, the PNG to JPG tool never
    stops on an error: [main] returns a count, which is the number of
    "Converted:" lines printed and at most the number of entries whose name
    ends in [.png].  The folder is created outside the [try]: when
    [os.makedirs] raises (a file has the name of the backup folder, for
    instance), the exception leaves [main] before any entry is looked at. *)
Theorem png_to_jpg_count (folder : string) (listing : list string) (fs : FS) :
  let backup_folder := path_join (dirname folder) (basename folder +:+ "_PNG") in
  (outcome (os_makedirs backup_folder fs) = Ok tt ->
   exists n fs' evs,
     main folder listing fs = (Ok n, fs', evs) /\
     n = count_converted evs /\
     (n <= length (filter (fun f => is_png f = true) listing))%nat) /\
  (forall e, outcome (os_makedirs backup_folder fs) = Raise e ->
     main folder listing fs = (Raise e, fs, [])) /\
  (forall e,
     outcome (os_makedirs backup_folder fs) = Raise e <->
     (is_Some (fs !! backup_folder) /\ e = file_exists backup_folder) \/
     (fs !! backup_folder = None /\ os_makedirs_error backup_folder fs = Some e)).
Proof.
  cbv zeta. unfold main.
  set (backup_folder := path_join _ _). clearbody backup_folder.
  split; [|split].
  - unfold_M.
    destruct (os_makedirs_cases backup_folder fs) as [(e & E)| E]; rewrite E; cbn;
      [discriminate|]. intros _.
    destruct (main_loop_count folder backup_folder listing 0%nat fs)
      as (c' & fs' & evs & -> & -> & Hle).
    exists (count_converted evs), fs', evs. done.
  - intros e. unfold_M.
    destruct (os_makedirs_cases backup_folder fs) as [(e' & E)| E]; rewrite E; cbn;
      [|discriminate]. by intros [= ->].
  - intros e. unfold os_makedirs, outcome.
    destruct (fs !! backup_folder) as [b|]; cbn.
    + split.
      * intros [= <-]. left. split; [by eexists|done].
      * intros [[_ ->] | [[=] _]]. done.
    + destruct (os_makedirs_error backup_folder fs) as [e'|]; cbn; split.
      * intros [= <-]. by right.
      * intros [[[? [=]] _] | [_ [= ->]]]. done.
      * discriminate.
      * intros [[[? [=]] _] | [_ [=]]].
Qed.

(** X19: the PNG to JPG tool moves the original first.  When the move
    succeeds, the bytes of the entry are at the backup path, in place of
    any file that was there, and no longer in the source folder, whether
    the conversion succeeded or failed; the output is written on success,
    and after a failure the files are those the move left, with the
    output cut short when it had been opened.  When the move is refused
    the entry stays in the source folder and nothing is opened or
    encoded. *)
Theorem png_to_jpg_moves_original_first (folder backup_folder filename : string)
    (count : nat) (fs : FS) (bytes : string) :
  let input_path := path_join folder filename in
  let backup_path := path_join backup_folder filename in
  let output_path := path_join folder (splitext_root filename +:+ ".jpg") in
  let moved := <[backup_path := bytes]> (delete input_path fs) in
  let r := main_item folder backup_folder filename count fs in
  is_png filename = true ->
  fs !! input_path = Some bytes ->
  backup_path <> input_path ->
  (os_move_error input_path backup_path fs = None ->
   final_fs r !! backup_path = Some bytes /\
   final_fs r !! input_path = None /\
   head (events r) = Some (EvMove input_path backup_path) /\
   (outcome r = Ok count /\
      (final_fs r = moved \/ final_fs r = cut_short output_path moved) \/
    outcome r = Ok (S count) /\
      exists out, final_fs r = <[output_path := out]> moved)) /\
  (forall e, os_move_error input_path backup_path fs = Some e ->
     outcome r = Ok count /\
     final_fs r !! input_path = Some bytes /\
     (forall p, p <> backup_path -> final_fs r !! p = fs !! p) /\
     events r = [EvMove input_path backup_path;
                 EvPrint ("Failed to convert " +:+ filename +:+ ": " +:+ str_exn e)]).
Proof.
  cbv zeta. intros Hpng Hin Hbi.
  assert (Hob : path_join folder (splitext_root filename +:+ ".jpg")
                <> path_join backup_folder filename).
  { by apply png_path_ne_other_ext. }
  assert (Hoi : path_join folder (splitext_root filename +:+ ".jpg")
                <> path_join folder filename).
  { by apply png_path_ne_other_ext. }
  unfold main_item. fold (is_png filename). rewrite Hpng.
  unfold shutil_move.
  set (input_path := path_join folder filename) in *.
  set (backup_path := path_join backup_folder filename) in *.
  set (output_path := path_join folder (splitext_root filename +:+ ".jpg")) in *.
  clearbody input_path backup_path output_path.
  unfold_M. rewrite Hin. split.
  - intros ->.
    destruct (resize_and_convert_cases backup_path output_path default_size default_quality
                (<[backup_path := bytes]> (delete input_path fs)))
      as [(e & fs' & evs & -> & Hfs' & _) | (b' & evs & -> & _)]; simpl.
    + rewrite !(convert_one_failed_frame output_path _ fs' _ Hfs') by done.
      rewrite lookup_insert_eq, !lookup_insert_ne, !lookup_delete_eq by done.
      split; [done|]. split; [done|]. split; [done|]. by left.
    + rewrite (lookup_insert_ne _ output_path backup_path) by done.
      rewrite (lookup_insert_ne _ output_path input_path) by done.
      rewrite lookup_insert_eq, !lookup_insert_ne, !lookup_delete_eq by done.
      split; [done|]. split; [done|]. split; [done|]. right. split; [done|]. by eexists.
  - intros e ->. simpl. split; [done|]. split; [|split; [|done]].
    + by rewrite move_failed_ne.
    + intros p Hp. by apply move_failed_ne.
Qed.
End JpgLoop.

Lemma png_to_jpg_count_witness :
  (exists n fs' evs,
     @main Toy.pillow Toy.os "/pics/set" ["a.png"; "notes.txt"]
       (<["/pics/set/a.png" := "rgb-3x2"]> ∅) = (Ok n, fs', evs) /\
     n = count_converted evs /\
     (n <= length (filter (fun f => is_png f = true) ["a.png"; "notes.txt"]))%nat) /\
  @main Toy.pillow Toy.os "/pics/set" ["a.png"; "notes.txt"]
    (<["/pics/set/a.png" := "rgb-3x2"]> (<["/pics/set_PNG" := "a file"]> ∅)) =
    (Raise (file_exists "/pics/set_PNG"),
     <["/pics/set/a.png" := "rgb-3x2"]> (<["/pics/set_PNG" := "a file"]> ∅), []).
Proof.
  split.
  - apply (proj1 (@png_to_jpg_count Toy.pillow Toy.os "/pics/set" ["a.png"; "notes.txt"]
                    (<["/pics/set/a.png" := "rgb-3x2"]> ∅))).
    vm_compute. reflexivity.
  - apply (proj1 (proj2 (@png_to_jpg_count Toy.pillow Toy.os "/pics/set"
                           ["a.png"; "notes.txt"]
                           (<["/pics/set/a.png" := "rgb-3x2"]>
                              (<["/pics/set_PNG" := "a file"]> ∅))))).
    vm_compute. reflexivity.
Defined.

Lemma png_to_jpg_moves_original_first_witness :
  final_fs (@main_item Toy.pillow Toy.os "/pics/set" "/pics/set_PNG" "a.png" 0
              (<["/pics/set/a.png" := "junk"]> (<["/pics/set_PNG/a.png" := "older"]> ∅)))
    !! "/pics/set_PNG/a.png" = Some "junk".
Proof.
  refine (proj1 (proj1 (@png_to_jpg_moves_original_first Toy.pillow Toy.os
            "/pics/set" "/pics/set_PNG" "a.png" 0
            (<["/pics/set/a.png" := "junk"]> (<["/pics/set_PNG/a.png" := "older"]> ∅))
            "junk" _ _ _) _)).
  - reflexivity.
  - vm_compute. reflexivity.
  - discriminate.
  - reflexivity.
Defined.

(** * The export dialog and the lists of the main window *)

Section WindowLists.
Import DeltaPixApp.

(** X20: the settings read from the dialog always name a format: the checked
    ones in the order PNG, JPEG, WEBP without repetition, and PNG alone
    when no box is checked; the other fields are the values of the
    controls. *)
Theorem current_settings_formats (d : ExportDialog) :
  formats (current_settings d) <> [] /\
  NoDup (formats (current_settings d)) /\
  (forall f, f ∈ formats (current_settings d) -> f = "PNG" \/ f = "JPEG" \/ f = "WEBP") /\
  ("JPEG" ∈ formats (current_settings d) <-> chk_jpg d = true) /\
  ("WEBP" ∈ formats (current_settings d) <-> chk_webp d = true) /\
  ("PNG" ∈ formats (current_settings d) <->
     chk_png d = true \/ (chk_jpg d = false /\ chk_webp d = false)) /\
  resize_percent (current_settings d) = spin_resize d /\
  max_width (current_settings d) = spin_max_w d /\
  max_height (current_settings d) = spin_max_h d.
Proof.
  destruct d as [p j w r mw mh po jq wl wq da].
  unfold current_settings. cbn [chk_png chk_jpg chk_webp spin_resize spin_max_w spin_max_h
    chk_png_opt slider_jpg_q chk_webp_lossless slider_webp_q chk_drop_alpha].
  destruct p, j, w; cbn [app formats resize_percent max_width max_height];
    (split; [done|]);
    (split; [apply (bool_decide_unpack _); by vm_compute|]);
    (split; [intros f Hf; repeat (apply elem_of_cons in Hf as [->|Hf]; [tauto|]);
             by apply elem_of_nil in Hf|]);
    (split; [split; [intros Hf; repeat (apply elem_of_cons in Hf as [Hf|Hf];
                                        [discriminate || done|]);
                     try done; by apply elem_of_nil in Hf
                    |intros Hf; try discriminate; set_solver]|]);
    (split; [split; [intros Hf; repeat (apply elem_of_cons in Hf as [Hf|Hf];
                                        [discriminate || done|]);
                     try done; by apply elem_of_nil in Hf
                    |intros Hf; try discriminate; set_solver]|]);
    (split; [split; [intros Hf; repeat (apply elem_of_cons in Hf as [Hf|Hf];
                                        [discriminate || tauto|]);
                     try tauto; by apply elem_of_nil in Hf
                    |intros [Hf|[Hf1 Hf2]]; try discriminate; set_solver]|]);
    done.
Qed.

Lemma filter_all_true (x : string) (l : list string) :
  x ∉ l -> filter (fun y => y <> x) l = l.
Proof.
  induction l as [|y l IH]; [done|]. intros Hx.
  apply not_elem_of_cons in Hx as [Hxy Hx].
  rewrite filter_cons_True by congruence. by rewrite IH.
Qed.

(** On a list without repetition [l.remove(x)] removes [x] altogether. *)
Lemma list_remove_filter (x : string) (l : list string) :
  NoDup l -> list_remove x l = filter (fun y => y <> x) l.
Proof.
  induction 1 as [|y l Hy Hnd IH]; [done|]. cbn [list_remove].
  destruct (String.eqb_spec y x) as [->|Hne].
  - rewrite filter_cons_False by (intros H; by apply H).
    by rewrite filter_all_true.
  - rewrite filter_cons_True by done. by rewrite IH.
Qed.

Lemma add_recent_list (path : string) (w : Window) :
  NoDup (recent_files w) ->
  recent_files (_add_recent path w) =
    take 10 (path :: filter (fun q => q <> path) (recent_files w)).
Proof.
  intros Hnd. unfold _add_recent, _save_recent, _get_recent. cbn [recent_files].
  destruct (decide (path ∈ recent_files w)) as [Hin|Hin].
  - rewrite bool_decide_true by done. by rewrite list_remove_filter.
  - rewrite bool_decide_false by done. by rewrite filter_all_true.
Qed.

(** X21: the list of recent files: the path just added comes first, the
    earlier entries follow in their order with the path itself taken out,
    the list is cut to ten entries and stays without repetition. *)
Theorem add_recent_front (path : string) (w : Window) :
  NoDup (recent_files w) ->
  recent_files (_add_recent path w) =
    take 10 (path :: filter (fun q => q <> path) (recent_files w)) /\
  head (recent_files (_add_recent path w)) = Some path /\
  NoDup (recent_files (_add_recent path w)) /\
  (length (recent_files (_add_recent path w)) <= 10)%nat /\
  (forall q, q ∈ recent_files (_add_recent path w) -> q = path \/ q ∈ recent_files w) /\
  images (_add_recent path w) = images w /\
  file_list (_add_recent path w) = file_list w.
Proof.
  intros Hnd. rewrite add_recent_list by done.
  split; [done|]. split; [done|]. split; [|split; [|split]].
  - eapply sublist_NoDup; [|apply sublist_take].
    apply NoDup_cons. split.
    + rewrite list_elem_of_filter. by intros [? _].
    + by apply NoDup_filter.
  - rewrite length_take. lia.
  - intros q Hq. apply elem_of_take in Hq as (i & Hq & _).
    apply list_elem_of_lookup_2 in Hq.
    apply elem_of_cons in Hq as [->|Hq]; [by left|].
    right. by apply list_elem_of_filter in Hq as [_ ?].
  - done.
Qed.

(** The loop of [_add_files]. *)
Lemma add_files_loop_inv (fs : FS) (paths : list string) :
  forall (w : Window) (added : nat),
  NoDup (images w) ->
  file_list w = map (fun p => (basename p, p)) (images w) ->
  exists new,
    images (add_files_loop fs paths w added).1 = images w ++ new /\
    NoDup (images w ++ new) /\
    file_list (add_files_loop fs paths w added).1 =
      map (fun p => (basename p, p)) (images w ++ new) /\
    Forall (fun p => p ∈ paths /\ is_Some (fs !! p) /\ is_image_file p = true) new /\
    (add_files_loop fs paths w added).2 = (added + length new)%nat /\
    current_row (add_files_loop fs paths w added).1 = current_row w /\
    (new = [] -> (add_files_loop fs paths w added).1 = w).
Proof.
  induction paths as [|p rest IH]; intros w added Hnd Hfl.
  - exists []. cbn. rewrite app_nil_r, Nat.add_0_r. repeat split; auto.
  - cbn [add_files_loop].
    assert (Hweak : forall new : list string,
              Forall (fun q => q ∈ rest /\ is_Some (fs !! q) /\ is_image_file q = true) new ->
              Forall (fun q => q ∈ p :: rest /\ is_Some (fs !! q) /\ is_image_file q = true) new).
    { intros new H. eapply Forall_impl; [exact H|].
      intros q (? & ? & ?). split; [by right|done]. }
    destruct (decide (is_Some (fs !! p))) as [Hfile|Hfile].
    2:{ rewrite (bool_decide_false _ Hfile). cbn [negb orb].
        destruct (IH w added Hnd Hfl) as (new & ? & ? & ? & ? & ? & ? & ?).
        exists new. repeat split; auto. }
    rewrite (bool_decide_true _ Hfile). cbn [negb orb].
    destruct (is_image_file p) eqn:Himg; cbn [negb].
    2:{ destruct (IH w added Hnd Hfl) as (new & ? & ? & ? & ? & ? & ? & ?).
        exists new. repeat split; auto. }
    destruct (decide (p ∈ images w)) as [Hin|Hin].
    { rewrite (bool_decide_true _ Hin). cbn [negb].
      destruct (IH w added Hnd Hfl) as (new & ? & ? & ? & ? & ? & ? & ?).
      exists new. repeat split; auto. }
    rewrite (bool_decide_false _ Hin). cbn [negb].
    set (w1 := _add_recent p _).
    assert (Hi1 : images w1 = images w ++ [p]) by done.
    assert (Hf1 : file_list w1 = map (fun q => (basename q, q)) (images w1)).
    { unfold w1. cbn. by rewrite Hfl, map_app. }
    assert (Hn1 : NoDup (images w1)).
    { rewrite Hi1. apply NoDup_app. split; [done|]. split.
      - intros q Hq ->%list_elem_of_singleton. done.
      - apply NoDup_singleton. }
    destruct (IH w1 (S added) Hn1 Hf1) as (new & E1 & E2 & E3 & E4 & E5 & E6 & _).
    exists (p :: new).
    rewrite Hi1, <- app_assoc in E1, E2, E3. cbn [app] in E1, E2, E3.
    split; [done|]. split; [done|]. split; [done|]. split; [|split; [|split]].
    + apply Forall_cons. split; [|by apply Hweak].
      split; [by left|done].
    + rewrite E5. cbn [length]. lia.
    + by rewrite E6.
    + discriminate.
Qed.

(** X22: [_add_files] keeps the window lists consistent: the image list stays
    without repetition and only grows at its end, by paths of the request
    that are files with a supported extension; the rows of the list widget
    stay those of the image list; the last row becomes the current one
    when something was added, and nothing at all changes otherwise. *)
Theorem add_files_keeps_lists_consistent (fs : FS) (paths : list string) (w : Window) :
  NoDup (images w) ->
  file_list w = map (fun p => (basename p, p)) (images w) ->
  exists new,
    images (_add_files fs paths w) = images w ++ new /\
    NoDup (images (_add_files fs paths w)) /\
    file_list (_add_files fs paths w) =
      map (fun p => (basename p, p)) (images (_add_files fs paths w)) /\
    Forall (fun p => p ∈ paths /\ is_Some (fs !! p) /\ is_image_file p = true) new /\
    (new <> [] ->
     current_row (_add_files fs paths w) =
       Z.of_nat (length (images (_add_files fs paths w))) - 1) /\
    (new = [] -> _add_files fs paths w = w).
Proof.
  intros Hnd Hfl. unfold _add_files.
  destruct (add_files_loop_inv fs paths w 0 Hnd Hfl)
    as (new & E1 & E2 & E3 & E4 & E5 & E6 & E7).
  destruct (add_files_loop fs paths w 0) as [w' added]. cbn [fst snd] in *.
  exists new. destruct new as [|p new].
  - subst added. cbn. rewrite E7 by done. rewrite app_nil_r.
    repeat split; auto. done.
  - subst added. cbn [length Nat.add Nat.eqb negb images file_list current_row].
    rewrite E1. split; [done|]. split; [done|]. split; [by rewrite E3|].
    split; [done|]. split; [|discriminate].
    intros _. rewrite E3. by rewrite length_map.
Qed.
End WindowLists.

Lemma add_recent_front_witness :
  DeltaPixApp.recent_files
    (DeltaPixApp._add_recent "/b.png"
       (DeltaPixApp.mkWindow [] [] (-1) ["/a.png"; "/b.png"; "/c.png"])) =
  ["/b.png"; "/a.png"; "/c.png"].
Proof.
  refine (eq_trans (proj1 (add_recent_front "/b.png"
            (DeltaPixApp.mkWindow [] [] (-1) ["/a.png"; "/b.png"; "/c.png"]) _)) _).
  - apply (bool_decide_unpack _). by vm_compute.
  - by vm_compute.
Defined.

Lemma add_files_keeps_lists_consistent_witness :
  exists new,
    DeltaPixApp.images
      (DeltaPixApp._add_files (<["/pics/a.png" := "rgb-3x2"]> ∅)
         ["/pics/a.png"; "/pics/a.png"; "/pics/notes.txt"]
         (DeltaPixApp.mkWindow [] [] (-1) [])) = [] ++ new.
Proof.
  destruct (add_files_keeps_lists_consistent (<["/pics/a.png" := "rgb-3x2"]> ∅)
              ["/pics/a.png"; "/pics/a.png"; "/pics/notes.txt"]
              (DeltaPixApp.mkWindow [] [] (-1) [])) as (new & H & _).
  - apply NoDup_nil_2.
  - reflexivity.
  - exists new. exact H.
Defined.

(** * The two filters on file names *)

Lemma lower_ascii_sep (c : ascii) : Ascii.eqb (lower_ascii c) "/" = Ascii.eqb c "/".
Proof. destruct c as [[] [] [] [] [] [] [] []]; reflexivity. Qed.

Lemma lower_ascii_dot_eqb (c : ascii) : Ascii.eqb (lower_ascii c) "." = Ascii.eqb c ".".
Proof. destruct c as [[] [] [] [] [] [] [] []]; reflexivity. Qed.

Lemma has_sep_lower (s : string) : has_sep (str_lower s) = has_sep s.
Proof.
  induction s as [|c s IH]; [done|]. cbn [str_lower has_sep].
  by rewrite lower_ascii_sep, IH.
Qed.

Lemma all_dots_lower (s : string) : all_dots (str_lower s) = all_dots s.
Proof.
  induction s as [|c s IH]; [done|]. cbn [str_lower all_dots].
  by rewrite lower_ascii_dot_eqb, IH.
Qed.

Lemma str_last_sep_has_sep (s : string) : str_last s = Some "/"%char -> has_sep s = true.
Proof.
  induction s as [|c s IH]; [done|]. cbn [str_last has_sep].
  destruct s as [|d s].
  - intros [= ->]. done.
  - intros H. rewrite (IH H). by destruct (Ascii.eqb c "/").
Qed.

(** What follows a prefix that ends with a separator is the base name. *)
Lemma basename_app (y z : string) :
  has_sep z = false -> y = "" \/ str_last y = Some "/"%char ->
  basename (y +:+ z) = z.
Proof.
  intros Hz. induction y as [|c y IH]; intros Hy.
  - change ("" +:+ z) with z. destruct z as [|d z]; [done|].
    cbn [basename]. cbn [has_sep] in Hz. apply orb_false_iff in Hz as [Hd Hz].
    by rewrite Hz, Hd.
  - destruct Hy as [Hy|Hy]; [done|].
    change (String c y +:+ z) with (String c (y +:+ z)). cbn [basename].
    destruct y as [|d y].
    + cbn in Hy. injection Hy as ->. change ("" +:+ z) with z. by rewrite Hz.
    + rewrite has_sep_app, (str_last_sep_has_sep (String d y)) by done.
      cbn [orb]. apply IH. by right.
Qed.

(** [os.path.join] with a plain name: the name follows a prefix that is
    empty or ends with the separator. *)
Lemma path_join_plain (a b : string) :
  has_sep b = false ->
  exists pfx, path_join a b = pfx +:+ b /\ (pfx = "" \/ str_last pfx = Some "/"%char).
Proof.
  intros Hb. unfold path_join.
  assert (H : exists pfx, (if (String.eqb a "" || str_endswith a "/")%bool
                           then a +:+ b else a +:+ "/" +:+ b) = pfx +:+ b /\
                          (pfx = "" \/ str_last pfx = Some "/"%char)).
  { destruct (String.eqb_spec a "") as [->|Ha]; cbn [orb].
    - exists "". split; [done|by left].
    - destruct (str_endswith a "/") eqn:He.
      + exists a. split; [done|]. right.
        by rewrite (str_endswith_last a "/").
      + exists (a +:+ "/"). split; [by rewrite str_app_assoc|].
        right. by rewrite str_last_app. }
  destruct b as [|c b]; [done|].
  cbn [has_sep] in Hb. apply orb_false_iff in Hb as [Hc _].
  destruct c as [[] [] [] [] [] [] [] []]; try done.
Qed.

Section Filters.
Import DeltaPixApp.

(** X23: the viewer and the converters agree on PNG entries: a directory entry
    taken by the converters is an image file for the viewer, unless its
    extension is preceded by dots only (or by nothing), in which case the
    converters take it and the viewer does not. *)
Theorem png_entry_is_image_file (dir fname : string) :
  is_png fname = true -> has_sep fname = false ->
  (is_image_file (path_join dir fname) = true <-> splitext_root fname <> fname).
Proof.
  intros Hpng Hsep.
  destruct (path_join_plain dir fname Hsep) as (pfx & -> & Hpfx).
  destruct (is_png_split fname Hpng) as (stem & ext & -> & Hext).
  unfold is_image_file, splitext_ext.
  rewrite str_lower_app, basename_app.
  2:{ by rewrite has_sep_lower. }
  2:{ destruct Hpfx as [->|Hl]; [by left|right].
      by rewrite str_last_lower, Hl. }
  rewrite str_lower_app, Hext.
  rewrite (rsplit_dot_png (str_lower stem) ".png") by done.
  rewrite all_dots_lower, splitext_root_png by done.
  destruct (all_dots stem).
  - split; [|done]. intros H%bool_decide_eq_true.
    repeat (apply elem_of_cons in H as [H|H]; [discriminate|]).
    by apply elem_of_nil in H.
  - split; [intros _|intros _; apply bool_decide_eq_true; by left].
    intros Heq. assert (Hl : String.length stem = String.length (stem +:+ ext)) by congruence.
    rewrite str_length_app, <- (str_lower_length ext), Hext in Hl. cbn in Hl. lia.
Qed.
End Filters.

Lemma png_entry_is_image_file_witness :
  DeltaPixApp.is_image_file (path_join "/pics" "Photo.PNG") = true.
Proof.
  apply (proj2 (png_entry_is_image_file "/pics" "Photo.PNG" eq_refl eq_refl)).
  vm_compute. discriminate.
Defined.

(** * The size estimate *)

Section Estimate.
Context {pil : Pillow} {os : Os}.
Import DeltaPixApp.

(** X24: the estimate is what an export writes: without resizing and without
    dropping the alpha channel, when the output file can be opened and
    written [_save_one] writes exactly the bytes that
    [estimate_encoded_size] returns for the options of the format, and the
    estimated size is their length; when the file cannot be opened or
    written the export reports that error.  When the estimate raises, the
    export of a file that can be opened reports the same error; it
    changes no other file, and leaves the output as it was or cut
    short. *)
Theorem estimate_matches_save (img : Image) (out_path fmt : string)
    (cfg : ExportSettings) (fs : FS) :
  drop_alpha cfg = false -> resize_percent cfg = 100 ->
  max_width cfg <= 0 \/ (im_size img).1 <= max_width cfg ->
  max_height cfg <= 0 \/ (im_size img).2 <= max_height cfg ->
  match estimate_encoded_size img fmt (save_kwargs fmt cfg) with
  | Ok (n, data) =>
      n = Z.of_nat (String.length data) /\
      (os_open_error out_path fs = None -> os_write_error out_path data fs = None ->
       outcome (_save_one img out_path fmt cfg fs) = Ok (true, "ok") /\
       final_fs (_save_one img out_path fmt cfg fs) = <[out_path := data]> fs) /\
      (forall e,
         os_open_error out_path fs = Some e \/
         os_open_error out_path fs = None /\ os_write_error out_path data fs = Some e ->
         outcome (_save_one img out_path fmt cfg fs) = Ok (false, str_exn e))
  | Raise e =>
      (os_open_error out_path fs = None ->
       outcome (_save_one img out_path fmt cfg fs) = Ok (false, str_exn e)) /\
      (exists msg, outcome (_save_one img out_path fmt cfg fs) = Ok (false, msg)) /\
      (final_fs (_save_one img out_path fmt cfg fs) = fs \/
       final_fs (_save_one img out_path fmt cfg fs) = cut_short out_path fs)
  end.
Proof.
  intros Hda Hpct Hw Hh.
  unfold estimate_encoded_size, Image_save_buffer, _save_one, _save_one_body, Image_save.
  unfold_M.
  fold (save_kwargs fmt cfg). rewrite Hda, Hpct. cbn [orb].
  unfold mbind, result_bind, rbind.
  destruct (if String.eqb fmt "JPEG" then Image_convert img "RGB" else Ok img)
    as [im1|e1] eqn:E1; [|cbn; eauto].
  assert (Hsz : im_size im1 = im_size img).
  { destruct (String.eqb fmt "JPEG"); [|congruence].
    by apply Image_convert_ok in E1 as [_ ?]. }
  rewrite apply_resize_noop by (by rewrite Hsz).
  destruct (pil_save_prepare fmt (save_kwargs fmt cfg) im1) as [eh|]; [cbn; eauto|].
  destruct (pil_encode fmt (save_kwargs fmt cfg) im1) as [data|ee].
  - split; [done|]. split.
    + intros -> ->. done.
    + intros e [-> | [-> ->]]; done.
  - destruct (os_open_error out_path fs) as [eo|]; cbn; eauto.
    split; [done|]. eauto.
Qed.
End Estimate.

Lemma estimate_matches_save_witness :
  final_fs (@_save_one Toy.pillow Toy.os (mkImage "RGBA" (100, 60) "pixels") "/out/a.webp" "WEBP"
              (mkExportSettings ["WEBP"] 100 true 90 true 90 false 0 0) ∅) =
    <["/out/a.webp" := "WEBP:RGBA:pixels"]> ∅.
Proof.
  refine (proj2 (proj1 (proj2 (@estimate_matches_save Toy.pillow Toy.os
            (mkImage "RGBA" (100, 60) "pixels")
            "/out/a.webp" "WEBP" (mkExportSettings ["WEBP"] 100 true 90 true 90 false 0 0) ∅
            _ _ _ _)) _ _)).
  - reflexivity.
  - reflexivity.
  - left. cbn. lia.
  - left. cbn. lia.
  - reflexivity.
  - reflexivity.
Defined.

(** * Sizes for display *)

(** Division of a normal double by [1024.0] is exact: the mantissa is
    kept and the exponent goes down by 10. *)
Lemma fdiv_1024_exact (m : positive) (e : Z) :
  2 ^ 52 <= Z.pos m < 2 ^ 53 -> -1063 <= e <= 980 ->
  SFdiv prec emax (S754_finite false m e) DeltaPixApp.f1024 = S754_finite false m (e - 10).
Proof.
  intros Hm He. unfold DeltaPixApp.f1024.
  cbn [SFdiv xorb]. unfold SFdiv_core_binary. cbn [Zdigits2].
  rewrite (digits2_pos_unique m 53) by (change (53 - 1) with 52; lia).
  rewrite (digits2_pos_unique 4503599627370496 53) by (change (53 - 1) with 52; lia).
  replace (53 + e - (53 + -42)) with (e + 42) by lia.
  rewrite fexp_normal by lia.
  rewrite Z.min_l by lia.
  replace (e - -42 - (e + 42 - 53)) with 53 by lia.
  rewrite Z.shiftl_mul_pow2 by lia.
  assert (Hdiv : Z.div_eucl (Z.pos m * 2 ^ 53) 4503599627370496 = (2 * Z.pos m, 0)).
  { pose proof (Z_div_mod (Z.pos m * 2 ^ 53) 4503599627370496 ltac:(lia)) as Hdm.
    destruct (Z.div_eucl (Z.pos m * 2 ^ 53) 4503599627370496) as [q r].
    destruct Hdm as [HN Hr].
    change (2 ^ 53) with (2 * 4503599627370496) in HN.
    assert (r = 0) by lia. assert (q = 2 * Z.pos m) by lia. by subst. }
  rewrite Hdiv. change (new_location 4503599627370496 0) with loc_Exact.
  change (2 * Z.pos m) with (Z.pos (m~0)).
  assert (Hd : Z.pos (digits2_pos (m~0)) = 54).
  { apply digits2_pos_unique. change (54 - 1) with 53.
    change (2 ^ 54) with (2 * 2 ^ 53). change (2 ^ 53) with (2 * 2 ^ 52). lia. }
  destruct (bra_normal (m~0) (e + 42 - 53) loc_Exact (Z.pos (m~0)) 1)
    as (m2 & m3 & e3 & Hres & Hm3 & He3 & Hm2 & Hm1 & Hcase); rewrite ?Hd; try lia.
  { cbn. discriminate. }
  rewrite Hd in *. change (54 - 53) with 1 in *.
  change (2 ^ 1) with 2 in *.
  assert (Hhalf : Z.pos (m~0) / 2 = Z.pos m).
  { change (Z.pos (m~0)) with (2 * Z.pos m). rewrite Z.mul_comm. apply Z.div_mul. lia. }
  rewrite Hhalf in *.
  destruct Hcase as [->|[_ Hbad]].
  2:{ change (Z.pos (m~0)) with (2 * Z.pos m) in Hbad. lia. }
  assert (e3 = e + 42 - 53 + 1).
  { destruct (Z.eq_dec e3 (e + 42 - 53 + 1)) as [|Hne]; [done|].
    replace (e3 - (e + 42 - 53 + 1)) with 1 in Hm2 by lia.
    change (2 ^ 1) with 2 in Hm2. lia. }
  subst e3. rewrite Z.sub_diag, Z.pow_0_r, Z.mul_1_r in Hm2.
  rewrite Hres. f_equal; lia.
Qed.

Lemma f1024_normal : normal_float (-42) (-42) DeltaPixApp.f1024 /\ SF2R DeltaPixApp.f1024 = 1024%R.
Proof.
  split.
  - exists 4503599627370496%positive, (-42). repeat split; lia.
  - cbn. unfold F2R.
    change (-42) with (- (42)). rewrite powerRZ_neg' by lra.
    change 4503599627370496 with (1024 * 2 ^ 42). rewrite mult_IZR, pow2_IZR by lia.
    pose proof (pow2_pos 42). field. lra.
Qed.

(** The quotient by [1024.0] on real values. *)
Lemma div_1024_value (lo hi : Z) (x : float) :
  normal_float lo hi x -> -1063 <= lo -> hi <= 980 ->
  normal_float (lo - 10) (hi - 10) (SFdiv prec emax x DeltaPixApp.f1024) /\
  (SF2R (SFdiv prec emax x DeltaPixApp.f1024) * 1024 = SF2R x)%R.
Proof.
  intros (m & e & -> & Hm & He) Hlo Hhi.
  rewrite fdiv_1024_exact by lia. split.
  - exists m, (e - 10). repeat split; lia.
  - cbn [SF2R]. unfold F2R.
    replace e with ((e - 10) + 10) at 2 by lia. rewrite pow2_add.
    change (powerRZ 2 10) with (IZR (2 ^ 10)) || rewrite <- (pow2_IZR 10) by lia.
    change (2 ^ 10) with 1024. ring.
Qed.

Section HumanSize.
Import DeltaPixApp.
Context {fmt : Formatter}.

(** The loop of [human_size] on a float. *)
Lemma human_size_loop_float (units : list string) :
  forall (x : float) (lo hi : Z),
  normal_float lo hi x -> -1063 + 10 * Z.of_nat (length units) <= lo -> hi <= 980 ->
  exists (x' : float) (j : nat),
    (j <= length units)%nat /\
    human_size_loop units (NumFloat x) = format_1f x' +:+ " " +:+ nth j (units ++ ["TB"]) "" /\
    (SF2R x' * IZR (1024 ^ Z.of_nat j) = SF2R x)%R /\
    ((j < length units)%nat -> (SF2R x' < 1024)%R) /\
    ((0 < j)%nat -> (1024 <= SF2R x' * 1024)%R).
Proof.
  induction units as [|u rest IH]; intros x lo hi Hx Hlo Hhi.
  - exists x, 0%nat. cbn [length human_size_loop to_float app nth].
    split; [lia|]. split; [done|].
    change (1024 ^ Z.of_nat 0) with 1. split; [lra|]. split; lia.
  - cbn [human_size_loop lt_1024 to_float length] in *.
    destruct f1024_normal as [Hn1024 Hv1024].
    pose proof (fltb_spec x f1024 _ _ _ _ Hx Hn1024) as Hcmp.
    unfold float_lt. destruct (SFltb x f1024).
    + exists x, 0%nat. cbn [length app nth].
      split; [lia|]. split; [done|].
      change (1024 ^ Z.of_nat 0) with 1. split; [lra|].
      rewrite Hv1024 in Hcmp. split; [intros _; lra|lia].
    + destruct (div_1024_value lo hi x Hx ltac:(lia) Hhi) as [Hx1 Hv1].
      unfold div_1024. cbn [to_float].
      destruct (IH _ (lo - 10) (hi - 10) Hx1 ltac:(lia) ltac:(lia))
        as (x' & j & Hj & Heq & Hval & Hlt & Hge).
      exists x', (S j). split; [lia|]. split; [exact Heq|]. split; [|split].
      * rewrite Nat2Z.inj_succ, Z.pow_succ_r, mult_IZR by lia. rewrite Hv1024 in Hcmp. lra.
      * intros HS. apply Hlt. lia.
      * intros _. destruct j as [|j].
        -- change (1024 ^ Z.of_nat 0) with 1 in Hval. rewrite Hv1024 in Hcmp. lra.
        -- apply Hge. lia.
Qed.

(** X25: the size shown by [human_size] for a size below 2^53 bytes: the number
    that is formatted is exactly the size divided by [1024^k] (the repeated
    divisions by [1024.0] round nothing), in the [k]-th unit of B, KB, MB,
    GB, TB; it is below 1024 unless the unit is TB, and at least 1 unless
    the unit is B. *)
Theorem human_size_exact_unit (n : Z) :
  0 <= n < 2 ^ 53 ->
  exists (x : float) (k : nat),
    (k <= 4)%nat /\
    human_size n = format_1f x +:+ " " +:+ nth k ["B"; "KB"; "MB"; "GB"; "TB"] "" /\
    (SF2R x * IZR (1024 ^ Z.of_nat k) = IZR n)%R /\
    ((k < 4)%nat -> (SF2R x < 1024)%R /\ n < 1024 ^ (Z.of_nat k + 1)) /\
    ((0 < k)%nat -> (1 <= SF2R x)%R /\ 1024 ^ Z.of_nat k <= n).
Proof.
  intros Hn. unfold human_size. cbn [human_size_loop lt_1024 to_float].
  destruct (Z.ltb_spec n 1024) as [Hsmall|Hbig].
  - exists (float_of_int n), 0%nat. split; [lia|]. split; [done|].
    assert (Hv : SF2R (float_of_int n) = IZR n).
    { destruct (Z.eq_dec n 0) as [->|Hn0]; [done|].
      by destruct (float_of_int_normal n ltac:(lia)). }
    change (1024 ^ Z.of_nat 0) with 1. rewrite Hv. split; [lra|]. split; [|lia].
    intros _. split; [apply IZR_lt in Hsmall; lra|]. change (1024 ^ (Z.of_nat 0 + 1)) with 1024. lia.
  - destruct (float_of_int_normal n ltac:(lia)) as [Hx0 Hv0].
    destruct (div_1024_value _ _ _ Hx0 ltac:(lia) ltac:(lia)) as [Hx1 Hv1].
    unfold div_1024. cbn [to_float].
    destruct (human_size_loop_float ["KB"; "MB"; "GB"] _ _ _ Hx1 ltac:(cbn; lia) ltac:(lia))
      as (x' & j & Hj & Heq & Hval & Hlt & Hge).
    cbn [length] in Hj.
    exists x', (S j). split; [lia|]. split; [exact Heq|].
    assert (Hvn : (SF2R x' * IZR (1024 ^ Z.of_nat (S j)) = IZR n)%R).
    { rewrite Nat2Z.inj_succ, Z.pow_succ_r, mult_IZR by lia. rewrite <- Hv0. lra. }
    assert (Hpow : (0 < IZR (1024 ^ Z.of_nat (S j)))%R).
    { apply IZR_lt. apply Z.pow_pos_nonneg; lia. }
    assert (Hx'1 : (1 <= SF2R x')%R).
    { destruct j as [|j].
      - change (1024 ^ Z.of_nat 0) with 1 in Hval. apply IZR_le in Hbig. lra.
      - assert (1024 <= SF2R x' * 1024)%R by (apply Hge; lia). lra. }
    split; [exact Hvn|]. split.
    + intros Hk. assert (Hx'2 : (SF2R x' < 1024)%R) by (apply Hlt; cbn; lia).
      split; [done|]. apply lt_IZR.
      replace (Z.of_nat (S j) + 1) with (Z.succ (Z.of_nat (S j))) by lia.
      rewrite Z.pow_succ_r, mult_IZR by lia. rewrite <- Hvn. nra.
    + intros _. split; [done|]. apply le_IZR. rewrite <- Hvn. nra.
Qed.
End HumanSize.

Lemma human_size_exact_unit_witness :
  exists (x : float) (k : nat),
    (k <= 4)%nat /\
    @DeltaPixApp.human_size DeltaPixApp.sign_formatter 1536 =
      @DeltaPixApp.format_1f DeltaPixApp.sign_formatter x +:+ " " +:+
      nth k ["B"; "KB"; "MB"; "GB"; "TB"] "" /\
    (SF2R x * IZR (1024 ^ Z.of_nat k) = IZR 1536)%R /\
    ((k < 4)%nat -> (SF2R x < 1024)%R /\ 1536 < 1024 ^ (Z.of_nat k + 1)) /\
    ((0 < k)%nat -> (1 <= SF2R x)%R /\ 1024 ^ Z.of_nat k <= 1536).
Proof. apply (@human_size_exact_unit DeltaPixApp.sign_formatter 1536). lia. Defined.

(** * A batch without errors *)

Section BatchDone.
Context {pil : Pillow} {os : Os}.

Lemma export_formats_done (img : Image) (path base out_dir : string)
    (cfg : ExportSettings) (fmts errors : list string) (fs : FS) :
  has_sep base = false ->
  exists errs fs' evs,
    export_formats img path base out_dir cfg fmts errors fs
      = (Ok (errors ++ errs), fs', evs) /\
    (forall p, is_Some (fs !! p) -> is_Some (fs' !! p)) /\
    (errs = [] ->
     forall fmt, fmt ∈ fmts ->
       is_Some (fs' !! path_join out_dir (base +:+ format_ext fmt))).
Proof.
  intros Hbase.
  revert errors fs. induction fmts as [|fmt rest IH]; intros errors fs.
  - exists [], fs, []. cbn. rewrite app_nil_r. split; [done|]. split; [done|].
    intros _ fmt Hin. by apply elem_of_nil in Hin.
  - cbn [export_formats].
    assert (Hname : has_sep (base +:+ format_ext fmt) = false).
    { rewrite has_sep_app, Hbase. unfold format_ext. by repeat case_match. }
    unfold mbind at 1. unfold M_bind, bind.
    destruct (save_one_step img out_dir (base +:+ format_ext fmt) fmt cfg fs Hname)
      as (ok & msg & fs1 & evs1 & -> & _ & Hkeep1 & _ & Hok).
    destruct ok.
    + destruct (IH errors fs1) as (errs & fs' & evs & -> & Hkeep & Hdone).
      exists errs, fs', (evs1 ++ evs).
      split; [done|]. split; [auto|].
      intros Hnil f Hf. apply elem_of_cons in Hf as [->|Hf]; [|by apply Hdone].
      apply Hkeep. by apply Hok.
    + destruct (IH (errors ++ [basename path +:+ " → " +:+ fmt +:+ ": " +:+ msg]) fs1)
        as (errs & fs' & evs & -> & Hkeep & _).
      eexists (_ :: errs), fs', (evs1 ++ evs). rewrite <- app_assoc. cbn [app].
      split; [done|]. split; [auto|]. discriminate.
Qed.

Lemma export_images_done (out_dir : string) (cfg : ExportSettings)
    (images errors : list string) (fs : FS) :
  exists errs fs' evs,
    export_images out_dir cfg images errors fs = (Ok (errors ++ errs), fs', evs) /\
    (forall p, is_Some (fs !! p) -> is_Some (fs' !! p)) /\
    (errs = [] ->
     forall path fmt, path ∈ images -> fmt ∈ formats cfg ->
       is_Some (fs' !! path_join out_dir
                         (splitext_root (basename path) +:+ format_ext fmt))).
Proof.
  revert errors fs. induction images as [|path rest IH]; intros errors fs.
  - exists [], fs, []. cbn. rewrite app_nil_r. split; [done|]. split; [done|].
    intros _ path fmt Hin. by apply elem_of_nil in Hin.
  - cbn [export_images]. unfold mbind at 1. unfold M_bind, bind.
    destruct (load_image_spec path fs) as [[im ->] | [e ->]].
    + destruct (export_formats_done im path (splitext_root (basename path)) out_dir cfg
                  (formats cfg) errors fs)
        as (errs1 & fs1 & evs1 & E1 & Hkeep1 & Hdone1).
      { apply has_sep_splitext_root, has_sep_basename. }
      unfold mbind at 1. unfold M_bind, bind. rewrite E1.
      destruct (IH (errors ++ errs1) fs1) as (errs & fs' & evs & -> & Hkeep & Hdone).
      exists (errs1 ++ errs), fs', ([EvOpen path] ++ evs1 ++ evs).
      rewrite <- app_assoc. split; [done|]. split; [auto|].
      intros [-> ->]%app_eq_nil p fmt Hp Hf.
      apply elem_of_cons in Hp as [->|Hp]; [|by apply Hdone].
      apply Hkeep. by apply Hdone1.
    + destruct (IH (errors ++ ["Open failed: " +:+ path]) fs)
        as (errs & fs' & evs & -> & Hkeep & _).
      eexists (_ :: errs), fs', (_ ++ evs).
      rewrite <- app_assoc. split; [done|]. split; [done|]. discriminate.
Qed.

(** X26: a batch that reports no error has written everything: for every
    source and every requested format the output file exists in the
    output directory when [_export_batch] returns. *)
Theorem export_batch_complete (images : list string) (out_dir : string)
    (cfg : ExportSettings) (fs : FS) :
  outcome (_export_batch images out_dir cfg fs) = Ok [] ->
  forall path fmt, path ∈ images -> fmt ∈ formats cfg ->
    is_Some (final_fs (_export_batch images out_dir cfg fs)
               !! path_join out_dir (splitext_root (basename path) +:+ format_ext fmt)).
Proof.
  unfold _export_batch. unfold_M.
  destruct (export_images_done out_dir cfg images [] fs)
    as (errs & fs' & evs & -> & _ & Hdone).
  cbn [app]. destruct errs as [|e errs]; cbn [fst snd]; [|discriminate].
  intros _. by apply Hdone.
Qed.
End BatchDone.

Lemma export_batch_complete_witness :
  is_Some (final_fs (@_export_batch Toy.pillow Toy.os ["/in/a.png"] "/out"
                       (mkExportSettings ["PNG"; "WEBP"] 100 true 90 true 90 false 0 0)
                       (<["/in/a.png" := "rgba-100x60"]> ∅))
             !! path_join "/out" (splitext_root (basename "/in/a.png") +:+ format_ext "WEBP")).
Proof.
  apply (@export_batch_complete Toy.pillow Toy.os ["/in/a.png"] "/out"
           (mkExportSettings ["PNG"; "WEBP"] 100 true 90 true 90 false 0 0)
           (<["/in/a.png" := "rgba-100x60"]> ∅)).
  - vm_compute. reflexivity.
  - apply elem_of_cons. by left.
  - apply elem_of_cons. right. apply elem_of_cons. by left.
Defined.

(** * Moving and removing in the in-place worker *)

Section MoveOrRemove.
Context {pil : Pillow} {os : Os}.

(** X27: the two modes of the in-place worker do not mix: with keep_backup the
    loop body removes nothing (the original is moved, at most once), and
    without keep_backup it moves nothing (the original is removed, at most
    once, and only after the line that reports the conversion). *)
Theorem backup_mode_moves_inplace_mode_removes (cfg : JobConfig)
    (folder backup_folder : string) (total i : nat) (fname : string)
    (converted : nat) (fs : FS) :
  let evs := events (run_item cfg folder backup_folder total i fname converted fs) in
  (keep_backup cfg = true ->
   forallb (fun ev => negb (is_remove ev)) evs = true /\
   (length (List.filter is_move evs) <= 1)%nat) /\
  (keep_backup cfg = false ->
   forallb (fun ev => negb (is_move ev)) evs = true /\
   (length (List.filter is_remove evs) <= 1)%nat /\
   (forall p, In (EvRemove p) evs ->
      p = path_join folder fname /\
      In (SigLog ("Converted: " +:+ fname +:+ " → " +:+ splitext_root fname +:+ ".webp"))
         evs)).
Proof.
  cbv zeta.
  unfold run_item, run_item_try, os_path_exists, shutil_move, os_remove.
  set (src := path_join folder fname).
  set (bak := path_join backup_folder fname).
  set (dst := path_join folder (splitext_root fname +:+ ".webp")).
  set (line := "Converted: " +:+ fname +:+ " → " +:+ splitext_root fname +:+ ".webp").
  clearbody src bak dst line. unfold_M.
  destruct (negb (overwrite cfg) && bool_decide (is_Some (fs !! dst)))%bool.
  { destruct (progress_percent i total); simpl; split; intros _;
      (split; [done|]); try (split; [lia|]); try lia; intros q Hin; repeat (destruct Hin as [Hin|Hin]; [discriminate|]); done. }
  split.
  - intros ->. cbn [negb].
    destruct (bool_decide (is_Some (fs !! bak))); cbn [negb].
    + destruct (convert_one_spec cfg bak dst fs)
        as [(e & ->) | [(e & im & kw & fs' & _ & ->) | (im & kw & bytes & ->)]]; simpl;
        destruct (progress_percent i total); simpl; split; try done; lia.
    + destruct (fs !! src) as [b|]; simpl.
      2:{ destruct (progress_percent i total); simpl; split; try done; lia. }
      destruct (os_move_error src bak fs) as [em|]; simpl.
      { destruct (progress_percent i total); simpl; split; try done; lia. }
      destruct (convert_one_spec cfg bak dst (<[bak:=b]> (delete src fs)))
        as [(e & ->) | [(e & im & kw & fs' & _ & ->) | (im & kw & bytes & ->)]]; simpl;
        destruct (progress_percent i total); simpl; split; try done; lia.
  - intros ->. cbn [negb].
    destruct (convert_one_spec cfg src dst fs)
      as [(e & ->) | [(e & im & kw & fs' & _ & ->) | (im & kw & bytes & ->)]]; simpl.
    + destruct (progress_percent i total); simpl;
        (split; [done|]); (split; [lia|]); intros q Hin; repeat (destruct Hin as [Hin|Hin]; [discriminate|]); done.
    + destruct (progress_percent i total); simpl;
        (split; [done|]); (split; [lia|]); intros q Hin; repeat (destruct Hin as [Hin|Hin]; [discriminate|]); done.
    + destruct (<[dst:=bytes]> fs !! src) as [b|] eqn:Hsrc.
      * rewrite bool_decide_true by done. simpl. rewrite Hsrc. simpl.
        destruct (os_remove_error src (<[dst:=bytes]> fs)) as [er|]; simpl;
        destruct (progress_percent i total); simpl;
          (split; [done|]); (split; [lia|]);
          intros q Hin;
          repeat (destruct Hin as [Hin|Hin]; [try discriminate|]); try done;
          injection Hin as <-; (split; [done|]); right; right; by left.
      * rewrite bool_decide_false by (by intros [? ?]). simpl.
        destruct (progress_percent i total); simpl;
          (split; [done|]); (split; [lia|]); intros q Hin; repeat (destruct Hin as [Hin|Hin]; [discriminate|]); done.
Qed.
End MoveOrRemove.
